(** * OpenPERouter: validation, host reconciliation and status reporting

    A shallow embedding of the configuration-reconciliation pipeline of the
    router controller (packages [conversion], [status], [routerconfiguration]
    and [webhooks]) together with the properties its specification states.

    Conventions.
    - Go [uint32] values are integers of [Z]; the code only compares them.
    - A Go [error] is a value of [errors.error]; [nil] is [None].
    - Go maps are [gmap]s; slices are lists.
    - Collaborators that live outside the sources (the Go standard library's
      CIDR parser, the host-network layer, the converter, the FRR updater, the
      cluster client) are interfaces: type classes whose methods the code
      calls. *)

From Stdlib Require Import ZArith List Ascii String Bool Lia.
From stdpp Require Import base option list gmap strings fin_maps pretty.

Local Open Scope Z_scope.
Local Open Scope string_scope.
Local Open Scope list_scope.

(* ===================================================================== *)
(** * Go errors *)
(* ===================================================================== *)

Module errors.

(** Arguments of a format string other than the wrapped error. *)
Inductive fmtArg : Type :=
| ArgS (s : string)          (* %s, %q of a string *)
| ArgD (n : Z)               (* %d *)
| ArgV (l : list string).    (* %v of a string slice *)

(** Error values.  [fmtError] and [wrapError] are what [fmt.Errorf] builds
    without and with a trailing [%w]; [joinError] is [errors.Join]; the two
    last constructors are the typed errors of the repository
    ([routerconfiguration.UnderlayRemovedError] and
    [hostnetwork.UnderlayExistsError], a string type). *)
Local Unset Elimination Schemes.
Inductive error : Type :=
| errorString (text : string)
| fmtError (format : string) (args : list fmtArg)
| wrapError (format : string) (args : list fmtArg) (err : error)
| joinError (errs : list error)
| UnderlayRemovedError
| UnderlayExistsError (text : string).

Local Set Elimination Schemes.

(** Induction principle that also covers the errors below a join. *)
Fixpoint error_ind' (P : error -> Prop)
    (Hstr : forall t, P (errorString t))
    (Hfmt : forall f a, P (fmtError f a))
    (Hwrap : forall f a e, P e -> P (wrapError f a e))
    (Hjoin : forall es, Forall P es -> P (joinError es))
    (Hrem : P UnderlayRemovedError)
    (Hex : forall t, P (UnderlayExistsError t))
    (e : error) {struct e} : P e :=
  match e with
  | errorString t => Hstr t
  | fmtError f a => Hfmt f a
  | wrapError f a e' => Hwrap f a e' (error_ind' P Hstr Hfmt Hwrap Hjoin Hrem Hex e')
  | joinError es =>
      Hjoin es
        ((fix go (l : list error) : Forall P l :=
            match l with
            | [] => List.Forall_nil P
            | x :: r =>
                @List.Forall_cons _ P x r
                  (error_ind' P Hstr Hfmt Hwrap Hjoin Hrem Hex x) (go r)
            end) es)
  | UnderlayRemovedError => Hrem
  | UnderlayExistsError t => Hex t
  end.

(** [errors.As(e, &target)] for a target type given by [isTarget]: the
    error itself is tried first, then what it unwraps to, depth first. *)
Fixpoint As (isTarget : error -> bool) (e : error) : bool :=
  isTarget e ||
  match e with
  | wrapError _ _ inner => As isTarget inner
  | joinError errs => existsb (As isTarget) errs
  | _ => false
  end.

(** [Wraps e t]: [t] is [e] or is reachable from [e] through [Unwrap]. *)
Inductive Wraps : error -> error -> Prop :=
| Wraps_self e : Wraps e e
| Wraps_wrap f a e t : Wraps e t -> Wraps (wrapError f a e) t
| Wraps_join es e t : In e es -> Wraps e t -> Wraps (joinError es) t.

End errors.
Export errors.

(* ===================================================================== *)
(** * Package status: the reporter interface *)
(* ===================================================================== *)

Module status.

(** [type ResourceKind string] with its four constants. *)
Definition ResourceKind := string.
Definition UnderlayKind : ResourceKind := "Underlay".
Definition L2VNIKind : ResourceKind := "L2VNI".
Definition L3VNIKind : ResourceKind := "L3VNI".
Definition L3PassthroughKind : ResourceKind := "L3Passthrough".

(** [StatusReporter]: an implementation with state [R]; a call maps the
    state before to the state after. *)
Class StatusReporter (R : Type) := {
  ReportResourceSuccess : ResourceKind -> string -> R -> R;
  ReportResourceFailure : ResourceKind -> string -> error -> R -> R;
  ReportResourceRemoved : ResourceKind -> string -> R -> R
}.

(** The calls of the interface as data, and the reporter that records the
    calls made on it. *)
Inductive ReportCall : Type :=
| CallSuccess (kind : ResourceKind) (resourceName : string)
| CallFailure (kind : ResourceKind) (resourceName : string) (err : error)
| CallRemoved (kind : ResourceKind) (resourceName : string).

#[export] Instance RecordingReporter : StatusReporter (list ReportCall) := {
  ReportResourceSuccess k n log := log ++ [CallSuccess k n];
  ReportResourceFailure k n e log := log ++ [CallFailure k n e];
  ReportResourceRemoved k n log := log ++ [CallRemoved k n]
}.

End status.
Export status.

(* ===================================================================== *)
(** * Package v1alpha1: the declared resources *)
(* ===================================================================== *)

Module v1alpha1.

Record LocalCIDRConfig := {
  IPv4 : string;
  IPv6 : string
}.

Record HostSession := {
  ASN : Z;
  HostASN : Z;
  LocalCIDR : LocalCIDRConfig
}.

Record Neighbor := {
  Neighbor_ASN : Z;
  Neighbor_Address : string
}.

Record EVPNConfig := {
  VTEPCIDR : string
}.

Record UnderlaySpec := {
  Underlay_ASN : Z;
  Neighbors : list Neighbor;
  EVPN : option EVPNConfig;
  Nics : list string
}.

Record Underlay := {
  Underlay_Name : string;
  Underlay_Spec : UnderlaySpec
}.

Record L3VNISpec := {
  L3VNI_VRF : string;
  L3VNI_VNI : Z;
  L3VNI_HostSession : option HostSession
}.

Record L3VNI := {
  L3VNI_Name : string;
  L3VNI_Namespace : string;
  L3VNI_Spec : L3VNISpec
}.

Record HostMaster := {
  HostMaster_Name : string;
  HostMaster_Type : string;
  HostMaster_AutoCreate : bool
}.

Record L2VNISpec := {
  L2VNI_VRF : option string;
  L2VNI_VNI : Z;
  L2VNI_HostMaster : option HostMaster;
  L2GatewayIPs : list string
}.

Record L2VNI := {
  L2VNI_Name : string;
  L2VNI_Spec : L2VNISpec
}.

Record L3PassthroughSpec := {
  L3Passthrough_HostSession : HostSession
}.

Record L3Passthrough := {
  L3Passthrough_Name : string;
  L3Passthrough_Spec : L3PassthroughSpec
}.

(** Decidable equality of the comparable struct [LocalCIDRConfig] (Go's
    [==] and [!=] on it). *)
#[export] Instance LocalCIDRConfig_eq_dec : EqDecision LocalCIDRConfig.
Proof. solve_decision. Defined.

End v1alpha1.
Export v1alpha1.

(* ===================================================================== *)
(** * Collaborators of the validator *)
(* ===================================================================== *)

Module net.

(** The part of Go's package [net] the validator calls.  [ParseCIDR s] is
    [Some (ip, ipNet)] when Go returns a nil error; [Contains] is
    the method [Contains] of [IPNet]. *)
Class Net := {
  IP : Type;
  IPNet : Type;
  ParseCIDR : string -> option (IP * IPNet);
  Contains : IPNet -> IP -> bool
}.

(** The [*net.ParseError] that [ParseCIDR] returns for [s]. *)
Definition ParseError (s : string) : error :=
  errorString ("invalid CIDR address: " +:+ s).

End net.

Module ipfamily.

(** [ipfamily.ForCIDRStrings], of which the validator only looks at the
    error. *)
Class IPFamily := {
  ForCIDRStrings : list string -> option error
}.

End ipfamily.

Module api.

(** The method [(L2VNI).VRFName], declared next to the API types. *)
Class L2VNIMethods := {
  VRFName : L2VNI -> string
}.

End api.

(* ===================================================================== *)
(** * Package conversion: the validator *)
(* ===================================================================== *)

Module conversion.
Import net ipfamily api.

(** [NoOpStatusReporter], the reporter of the webhooks. *)
Definition NoOpStatusReporter := unit.
#[export] Instance NoOpStatusReporter_reporter : StatusReporter NoOpStatusReporter := {
  ReportResourceSuccess _ _ n := n;
  ReportResourceFailure _ _ _ n := n;
  ReportResourceRemoved _ _ n := n
}.

(** The regular expression [^[a-zA-Z][a-zA-Z0-9._-]*$] on the bytes of the
    name. *)
Definition isLetter (c : ascii) : bool :=
  let n := N_of_ascii c in
  ((65 <=? n) && (n <=? 90) || (97 <=? n) && (n <=? 122))%N.

Definition isNameByte (c : ascii) : bool :=
  let n := N_of_ascii c in
  (isLetter c || (48 <=? n) && (n <=? 57) || (n =? 46) || (n =? 95) || (n =? 45))%N.

Fixpoint allBytes (p : ascii -> bool) (s : string) : bool :=
  match s with
  | EmptyString => true
  | String c rest => p c && allBytes p rest
  end.

Definition interfaceNameRegexp_MatchString (s : string) : bool :=
  match s with
  | EmptyString => false
  | String c rest => isLetter c && allBytes isNameByte rest
  end.

Definition isValidInterfaceName (name : string) : option error :=
  if (String.length name =? 0)%nat then
    Some (fmtError "interface name cannot be empty" [])
  else if (15 <? String.length name)%nat then
    Some (fmtError "interface name %s can't be longer than 15 characters" [ArgS name])
  else if negb (interfaceNameRegexp_MatchString name) then
    Some (fmtError "interface name %s contains invalid characters" [ArgS name])
  else None.

Definition isValidCIDR `{Net} (cidr : string) : option error :=
  if String.eqb cidr "" then
    Some (fmtError "CIDR cannot be empty" [])
  else
    match ParseCIDR cidr with
    | None => Some (wrapError "invalid CIDR: %s - %w" [ArgS cidr] (ParseError cidr))
    | Some _ => None
    end.

Definition cidrsOverlap `{Net} (cidr1 cidr2 : string) : bool * option error :=
  match ParseCIDR cidr1 with
  | None => (false, Some (fmtError "invalid CIDR %s: %v" [ArgS cidr1; ArgS ("invalid CIDR address: " +:+ cidr1)]))
  | Some (net1, ipNet1) =>
      match ParseCIDR cidr2 with
      | None => (false, Some (fmtError "invalid CIDR %s: %v" [ArgS cidr2; ArgS ("invalid CIDR address: " +:+ cidr2)]))
      | Some (net2, ipNet2) =>
          if Contains ipNet1 net2 || Contains ipNet2 net1 then (true, None)
          else (false, None)
      end
  end.

(** [vni] holds VNI validation data. *)
Record vni := {
  name : string;
  vni_vni : Z;
  vrfName : string
}.

Definition vnisFromL3VNIs (l3vnis : list L3VNI) : list vni :=
  map (fun l3vni =>
         {| name := L3VNI_Name l3vni;
            vni_vni := L3VNI_VNI (L3VNI_Spec l3vni);
            vrfName := L3VNI_VRF (L3VNI_Spec l3vni) |}) l3vnis.

Definition vnisFromL2VNIs `{L2VNIMethods} (l2vnis : list L2VNI) : list vni :=
  map (fun l2vni =>
         {| name := L2VNI_Name l2vni;
            vni_vni := L2VNI_VNI (L2VNI_Spec l2vni);
            vrfName := VRFName l2vni |}) l2vnis.

(** The loop of [validateVNIs], from the element it is at, with the two
    uniqueness maps as they are on entry to the iteration. *)
Fixpoint validateVNIs_from {R} `{StatusReporter R} (vnis : list vni) (kind : ResourceKind)
    (existingVrfs : gmap string string) (existingVNIs : gmap Z string)
    (statusReporter : R) : option error * R :=
  match vnis with
  | [] => (None, statusReporter)
  | v :: rest =>
      match isValidInterfaceName (vrfName v) with
      | Some err =>
          let validationErr :=
            wrapError "invalid vrf name for vni %s: %s - %w" [ArgS (name v); ArgS (vrfName v)] err in
          (Some validationErr, ReportResourceFailure kind (name v) validationErr statusReporter)
      | None =>
          match existingVrfs !! vrfName v with
          | Some existing =>
              let validationErr :=
                fmtError "duplicate vrf %s: %s - %s" [ArgS (vrfName v); ArgS existing; ArgS (name v)] in
              (Some validationErr, ReportResourceFailure kind (name v) validationErr statusReporter)
          | None =>
              let existingVrfs' := <[vrfName v := name v]> existingVrfs in
              match existingVNIs !! vni_vni v with
              | Some existingVNI =>
                  let validationErr :=
                    fmtError "duplicate vni %d:%s - %s" [ArgD (vni_vni v); ArgS existingVNI; ArgS (name v)] in
                  (Some validationErr, ReportResourceFailure kind (name v) validationErr statusReporter)
              | None =>
                  validateVNIs_from rest kind existingVrfs'
                    (<[vni_vni v := name v]> existingVNIs) statusReporter
              end
          end
      end
  end.

Definition validateVNIs {R} `{StatusReporter R} (vnis : list vni) (kind : ResourceKind)
    (statusReporter : R) : option error * R :=
  validateVNIs_from vnis kind ∅ ∅ statusReporter.

Definition ValidateL3VNIs {R} `{StatusReporter R} (l3Vnis : list L3VNI)
    (statusReporter : R) : option error * R :=
  let vnis := vnisFromL3VNIs l3Vnis in
  match validateVNIs vnis L3VNIKind statusReporter with
  | (Some err, sr) => (Some err, sr)
  | (None, sr) => (None, sr)
  end.

(** The L2-specific loop of [ValidateL2VNIs]. *)
Fixpoint validateL2Specific {R} `{StatusReporter R} `{IPFamily} (l2Vnis : list L2VNI)
    (statusReporter : R) : option error * R :=
  match l2Vnis with
  | [] => (None, statusReporter)
  | v :: rest =>
      let hostMasterErr :=
        match L2VNI_HostMaster (L2VNI_Spec v) with
        | Some hm =>
            if negb (String.eqb (HostMaster_Name hm) "") then
              match isValidInterfaceName (HostMaster_Name hm) with
              | Some err =>
                  Some (wrapError "invalid hostmaster name for vni %s: %s - %w"
                          [ArgS (L2VNI_Name v); ArgS (HostMaster_Name hm)] err)
              | None => None
              end
            else None
        | None => None
        end in
      match hostMasterErr with
      | Some validationErr =>
          (Some validationErr, ReportResourceFailure L2VNIKind (L2VNI_Name v) validationErr statusReporter)
      | None =>
          let gatewayErr :=
            if (0 <? length (L2GatewayIPs (L2VNI_Spec v)))%nat then
              match ForCIDRStrings (L2GatewayIPs (L2VNI_Spec v)) with
              | Some err =>
                  Some (wrapError "invalid l2gatewayips for vni %q = %v: %w"
                          [ArgS (L2VNI_Name v); ArgV (L2GatewayIPs (L2VNI_Spec v))] err)
              | None => None
              end
            else None in
          match gatewayErr with
          | Some validationErr =>
              (Some validationErr, ReportResourceFailure L2VNIKind (L2VNI_Name v) validationErr statusReporter)
          | None => validateL2Specific rest statusReporter
          end
      end
  end.

Definition ValidateL2VNIs {R} `{StatusReporter R} `{L2VNIMethods} `{IPFamily}
    (l2Vnis : list L2VNI) (statusReporter : R) : option error * R :=
  let vnis := vnisFromL2VNIs l2Vnis in
  match validateVNIs vnis L2VNIKind statusReporter with
  | (Some err, sr) => (Some err, sr)
  | (None, sr) => validateL2Specific l2Vnis sr
  end.

(** The per-neighbor check of [ValidateUnderlays]: the first neighbor with
    the underlay's own ASN. *)
Fixpoint neighborASNError (underlay : Underlay) (neighbors : list Neighbor) : option error :=
  match neighbors with
  | [] => None
  | neighbor :: rest =>
      if (Underlay_ASN (Underlay_Spec underlay) =? Neighbor_ASN neighbor)%Z then
        Some (fmtError "underlay %s local ASN %d must be different from remote ASN %d"
                [ArgS (Underlay_Name underlay); ArgD (Underlay_ASN (Underlay_Spec underlay));
                 ArgD (Neighbor_ASN neighbor)])
      else neighborASNError underlay rest
  end.

(** The per-NIC check of [ValidateUnderlays]: the first invalid name. *)
Fixpoint nicNameError (underlay : Underlay) (nics : list string) : option error :=
  match nics with
  | [] => None
  | n :: rest =>
      match isValidInterfaceName n with
      | Some err =>
          Some (wrapError "invalid nic name for underlay %s: %s - %w"
                  [ArgS (Underlay_Name underlay); ArgS n] err)
      | None => nicNameError underlay rest
      end
  end.

(** The checks of one underlay, in the order of the loop body; the result
    is the error the body reports and returns. *)
Definition underlayError `{Net} (underlay : Underlay) : option error :=
  let spec := Underlay_Spec underlay in
  if (Underlay_ASN spec =? 0)%Z then
    Some (fmtError "underlay %s must have a valid ASN" [ArgS (Underlay_Name underlay)])
  else
    match neighborASNError underlay (Neighbors spec) with
    | Some err => Some err
    | None =>
        let evpnErr :=
          match EVPN spec with
          | Some evpn =>
              match ParseCIDR (VTEPCIDR evpn) with
              | None =>
                  Some (wrapError "invalid vtep CIDR format for underlay %s: %s - %w"
                          [ArgS (Underlay_Name underlay); ArgS (VTEPCIDR evpn)]
                          (ParseError (VTEPCIDR evpn)))
              | Some _ => None
              end
          | None => None
          end in
        match evpnErr with
        | Some err => Some err
        | None =>
            if (1 <? length (Nics spec))%nat then
              Some (fmtError "underlay %s can only have one nic, found %d"
                      [ArgS (Underlay_Name underlay); ArgD (Z.of_nat (length (Nics spec)))])
            else nicNameError underlay (Nics spec)
        end
    end.

Fixpoint validateUnderlays_from {R} `{StatusReporter R} `{Net} (underlays : list Underlay)
    (statusReporter : R) : option error * R :=
  match underlays with
  | [] => (None, statusReporter)
  | underlay :: rest =>
      match underlayError underlay with
      | Some err =>
          (Some err, ReportResourceFailure UnderlayKind (Underlay_Name underlay) err statusReporter)
      | None => validateUnderlays_from rest statusReporter
      end
  end.

Definition ValidateUnderlays {R} `{StatusReporter R} `{Net} (underlays : list Underlay)
    (statusReporter : R) : option error * R :=
  if (1 <? length underlays)%nat then
    (Some (fmtError "can't have more than one underlay" []), statusReporter)
  else validateUnderlays_from underlays statusReporter.

(** ** Host sessions *)

Record hostSessionInfo := {
  session : HostSession;            (* the embedded v1alpha1.HostSession *)
  resourceKind : ResourceKind;
  resourceName : string
}.

Definition hostSessionInfo_Name (h : hostSessionInfo) : string :=
  resourceKind h +:+ " " +:+ resourceName h.

(** The two collecting loops at the head of [ValidateHostSessions]. *)
Definition collectHostSessions (l3VNIs : list L3VNI) (l3Passthrough : list L3Passthrough)
    : list hostSessionInfo :=
  omap (fun vni =>
          match L3VNI_HostSession (L3VNI_Spec vni) with
          | None => None
          | Some hs =>
              Some {| session := hs; resourceKind := L3VNIKind; resourceName := L3VNI_Name vni |}
          end) l3VNIs
  ++ map (fun passthrough =>
            {| session := L3Passthrough_HostSession (L3Passthrough_Spec passthrough);
               resourceKind := L3PassthroughKind;
               resourceName := L3Passthrough_Name passthrough |}) l3Passthrough.

(** The range loop of [validateCIDR] over the entries of the map, in the
    order they are visited. *)
Fixpoint validateCIDR_range {R} `{StatusReporter R} `{Net} (s : hostSessionInfo) (cidr : string)
    (entries : list (string * string)) (statusReporter : R) : option error * R :=
  match entries with
  | [] => (None, statusReporter)
  | (existing, existingVNI) :: rest =>
      match cidrsOverlap existing cidr with
      | (_, Some err) =>
          (Some err, ReportResourceFailure (resourceKind s) (resourceName s) err statusReporter)
      | (true, None) =>
          let validationErr :=
            fmtError "overlapping cidrs %s - %s for vnis %s - %s"
              [ArgS existing; ArgS cidr; ArgS existingVNI; ArgS (hostSessionInfo_Name s)] in
          (Some validationErr,
           ReportResourceFailure (resourceKind s) (resourceName s) validationErr statusReporter)
      | (false, None) => validateCIDR_range s cidr rest statusReporter
      end
  end.

(** [validateCIDR].  Go visits the entries of a map in an unspecified
    order; [map_to_list] fixes one. *)
Definition validateCIDR {R} `{StatusReporter R} `{Net} (s : hostSessionInfo) (cidr : string)
    (existingCIDRs : gmap string string) (statusReporter : R) : option error * R :=
  match isValidCIDR cidr with
  | Some err =>
      let validationErr :=
        wrapError "invalid local CIDR %s for vni %s: %w" [ArgS cidr; ArgS (hostSessionInfo_Name s)] err in
      (Some validationErr,
       ReportResourceFailure (resourceKind s) (resourceName s) validationErr statusReporter)
  | None => validateCIDR_range s cidr (map_to_list existingCIDRs) statusReporter
  end.

(** The main loop of [ValidateHostSessions], from the session it is at. *)
Fixpoint validateHostSessions_from {R} `{StatusReporter R} `{Net}
    (hostSessions : list hostSessionInfo)
    (existingCIDRsV4 existingCIDRsV6 : gmap string string)
    (statusReporter : R) : option error * R :=
  match hostSessions with
  | [] => (None, statusReporter)
  | s :: rest =>
      let hs := session s in
      if (HostASN hs =? ASN hs)%Z then
        let err := fmtError "%s local ASN %d must be different from remote ASN %d"
                     [ArgS (hostSessionInfo_Name s); ArgD (HostASN hs); ArgD (ASN hs)] in
        (Some err, ReportResourceFailure (resourceKind s) (resourceName s) err statusReporter)
      else
        let v4 := IPv4 (LocalCIDR hs) in
        let v6 := IPv6 (LocalCIDR hs) in
        match (if negb (String.eqb v4 "")
               then validateCIDR s v4 existingCIDRsV4 statusReporter
               else (None, statusReporter)) with
        | (Some err, sr) => (Some err, sr)
        | (None, sr) =>
            let existingCIDRsV4' :=
              if negb (String.eqb v4 "")
              then <[v4 := hostSessionInfo_Name s]> existingCIDRsV4 else existingCIDRsV4 in
            match (if negb (String.eqb v6 "")
                   then validateCIDR s v6 existingCIDRsV6 sr
                   else (None, sr)) with
            | (Some err, sr') => (Some err, sr')
            | (None, sr') =>
                let existingCIDRsV6' :=
                  if negb (String.eqb v6 "")
                  then <[v6 := hostSessionInfo_Name s]> existingCIDRsV6 else existingCIDRsV6 in
                if String.eqb v4 "" && String.eqb v6 "" then
                  let err :=
                    fmtError "at least one local CIDR (IPv4 or IPv6) must be provided for vni %s"
                      [ArgS (hostSessionInfo_Name s)] in
                  (Some err, ReportResourceFailure (resourceKind s) (resourceName s) err sr')
                else
                  validateHostSessions_from rest existingCIDRsV4' existingCIDRsV6' sr'
            end
        end
  end.

Definition ValidateHostSessions {R} `{StatusReporter R} `{Net}
    (l3VNIs : list L3VNI) (l3Passthrough : list L3Passthrough)
    (statusReporter : R) : option error * R :=
  validateHostSessions_from (collectHostSessions l3VNIs l3Passthrough) ∅ ∅ statusReporter.

End conversion.

(* ===================================================================== *)
(** * Package status: the Status Aggregator *)
(* ===================================================================== *)

Module fmt.

(** The text of an error, as [%v] prints it. *)
Class ErrorText := {
  Error : error -> string
}.

End fmt.

Module StatusManager.
Import fmt.

(** The object of a trigger event: a [triggerEvent] with its type and
    object metadata. *)
Record triggerEvent := {
  Kind : string;
  APIVersion : string;
  Name : string;
  Namespace : string
}.

Record failedResourceCacheEntry := {
  ResourceKind : status.ResourceKind;
  ResourceName : string;
  ErrorMessage : string;
  Timestamp : Z
}.

(** [StatusManager].  The buffered channel is the list of the events in its
    buffer, oldest first, with its capacity; [now] is what [time.Now()]
    reads; the mutex has no content in a sequential run; the logger is
    left out. *)
Record StatusManager := {
  triggerChannel : list triggerEvent;
  triggerCapacity : nat;
  nodeName : string;
  namespace : string;
  failedResourceCache : gmap string failedResourceCacheEntry;
  now : Z
}.

Definition withChannel (er : StatusManager) (ch : list triggerEvent) : StatusManager :=
  {| triggerChannel := ch; triggerCapacity := triggerCapacity er;
     nodeName := nodeName er; namespace := namespace er;
     failedResourceCache := failedResourceCache er; now := now er |}.

Definition withCache (er : StatusManager) (c : gmap string failedResourceCacheEntry)
    : StatusManager :=
  {| triggerChannel := triggerChannel er; triggerCapacity := triggerCapacity er;
     nodeName := nodeName er; namespace := namespace er;
     failedResourceCache := c; now := now er |}.

Definition triggerFor (er : StatusManager) : triggerEvent :=
  {| Kind := "StatusTrigger";
     APIVersion := "internal.status.openperouter.io/v1";
     Name := nodeName er;
     Namespace := namespace er |}.

(** [sendTriggerEvent]: the [select] sends when the buffer has room and
    takes the [default] branch (a warning is logged) otherwise. *)
Definition sendTriggerEvent (er : StatusManager) : StatusManager :=
  let event := triggerFor er in
  if (length (triggerChannel er) <? triggerCapacity er)%nat
  then withChannel er (triggerChannel er ++ [event])
  else er.

Definition cacheKey (kind : status.ResourceKind) (resourceName : string) : string :=
  kind +:+ ":" +:+ resourceName.

Definition ReportResourceSuccess (kind : status.ResourceKind) (resourceName : string)
    (er : StatusManager) : StatusManager :=
  let key := cacheKey kind resourceName in
  let er := withCache er (delete key (failedResourceCache er)) in
  sendTriggerEvent er.

Definition ReportResourceFailure `{ErrorText} (kind : status.ResourceKind)
    (resourceName : string) (err : error) (er : StatusManager) : StatusManager :=
  let errorMessage := "failed: " +:+ Error err in
  let key := cacheKey kind resourceName in
  let er :=
    withCache er
      (<[key := {| ResourceKind := kind; ResourceName := resourceName;
                   ErrorMessage := errorMessage; Timestamp := now er |}]>
         (failedResourceCache er)) in
  sendTriggerEvent er.

Definition ReportResourceRemoved (kind : status.ResourceKind) (resourceName : string)
    (er : StatusManager) : StatusManager :=
  let key := cacheKey kind resourceName in
  let existed := bool_decide (is_Some (failedResourceCache er !! key)) in
  let er := withCache er (delete key (failedResourceCache er)) in
  if existed then sendTriggerEvent er else er.

(** [NewStatusManager]: an empty cache and the initial trigger. *)
Definition NewStatusManager (updateChannel : list triggerEvent) (capacity : nat)
    (nodeName namespace : string) (now : Z) : StatusManager :=
  sendTriggerEvent
    {| triggerChannel := updateChannel; triggerCapacity := capacity;
       nodeName := nodeName; namespace := namespace;
       failedResourceCache := ∅; now := now |}.

(** [FailedResourceInfo] and [StatusSummary] of the reader interface. *)
Record FailedResourceInfo := {
  info_Kind : status.ResourceKind;
  info_Name : string;
  info_ErrorMessage : string
}.

Record StatusSummary := {
  FailedResources : list FailedResourceInfo;
  LastUpdateTime : Z
}.

(** [GetStatusSummary]: the failed resources and the latest timestamp; the
    zero time is [0].  The entries come in the order the map is ranged
    over. *)
Definition GetStatusSummary (er : StatusManager) : StatusSummary :=
  let entries := map_to_list (failedResourceCache er) in
  {| FailedResources :=
       map (fun kv =>
              {| info_Kind := ResourceKind (snd kv);
                 info_Name := ResourceName (snd kv);
                 info_ErrorMessage := ErrorMessage (snd kv) |}) entries;
     LastUpdateTime :=
       fold_left (fun latestUpdate kv =>
                    if (latestUpdate <? Timestamp (snd kv))%Z
                    then Timestamp (snd kv) else latestUpdate) entries 0%Z |}.

(** [StatusReader], the pull side of the aggregator. *)
Class StatusReader (S : Type) := {
  reader_GetStatusSummary : S -> StatusSummary;
  reader_GetChannel : S -> list triggerEvent
}.

#[export] Instance StatusManager_reader : StatusReader StatusManager := {
  reader_GetStatusSummary := GetStatusSummary;
  reader_GetChannel := triggerChannel
}.

(** The compile-time check that a [StatusManager] is a [StatusReporter]. *)
#[export] Instance StatusManager_reporter `{ErrorText} : StatusReporter StatusManager := {
  status.ReportResourceSuccess := ReportResourceSuccess;
  status.ReportResourceFailure := ReportResourceFailure;
  status.ReportResourceRemoved := ReportResourceRemoved
}.

End StatusManager.

(* ===================================================================== *)
(** * The host-network layer and the other collaborators of the pipeline *)
(* ===================================================================== *)

Module hostnetwork.

(** The parameter structs of package [hostnetwork].  The pipeline reads
    the field [VNI] of a [VNIParams] and the [VNIParams] embedded in the
    L3 and L2 parameters, and passes everything else through. *)
Class Types := {
  UnderlayParams : Type;
  PassthroughParams : Type;
  VNIParams : Type;
  VNI : VNIParams -> Z;
  L3VNIParams : Type;
  L3VNIParams_VNIParams : L3VNIParams -> VNIParams;
  L2VNIParams : Type;
  L2VNIParams_VNIParams : L2VNIParams -> VNIParams
}.

(** The functions of the package that change the host, as calls. *)
Inductive Call `{Types} : Type :=
| EnsureIPv6Forwarding (ns : string)
| SetupUnderlay (params : UnderlayParams)
| SetupL3VNI (params : L3VNIParams)
| SetupL2VNI (params : L2VNIParams)
| SetupPassthrough (params : PassthroughParams)
| RemoveNonConfiguredVNIs (ns : string) (vnis : list VNIParams)
| RemovePassthrough (ns : string).

End hostnetwork.

Module apiconfig.
Import hostnetwork.

(** [conversion.ApiConfigData]. *)
Record ApiConfigData := {
  UnderlayFromMultus : bool;
  NodeIndex : Z;
  LogLevel : string;
  Underlays : list Underlay;
  L3VNIs : list L3VNI;
  L2VNIs : list L2VNI;
  L3Passthrough : list L3Passthrough
}.

(** The host configuration [conversion.APItoHostConfig] returns. *)
Record HostConfiguration `{Types} := {
  host_Underlay : UnderlayParams;
  host_L3VNIs : list L3VNIParams;
  host_L2VNIs : list L2VNIParams;
  host_L3Passthrough : option PassthroughParams
}.

End apiconfig.

Module world.
Import hostnetwork apiconfig.

(** What a reconcile pass does to the outside, with the answer it got:
    a probe of the namespace ([hostnetwork.HasUnderlayInterface]), a call
    that changes the host, or a push through the FRR updater. *)
Inductive Effect `{Types} : Type :=
| Probed (ns : string) (has : bool) (err : option error)
| Called (c : Call) (err : option error)
| Pushed (configFile : string) (config : string) (err : option error).

Definition isHostEffect `{Types} (e : Effect) : bool :=
  match e with
  | Probed _ _ _ | Called _ _ => true
  | Pushed _ _ _ => false
  end.

Definition isUpdaterEffect `{Types} (e : Effect) : bool :=
  match e with
  | Pushed _ _ _ => true
  | _ => false
  end.

(** The collaborators.  An answer may depend on everything done before. *)
Class Environment `{Types} := {
  hasUnderlayInterface : list Effect -> string -> bool * option error;
  hostAnswer : list Effect -> Call -> option error;
  APItoHostConfig : Z -> string -> ApiConfigData -> HostConfiguration + error;
  APItoFRR : ApiConfigData -> string + error;
  updaterAnswer : list Effect -> string -> string -> option error
}.

(** The state a pass runs in: the status reporter and the effects so far. *)
Record World `{Types} (R : Type) := {
  reporter : R;
  effects : list Effect
}.
Arguments reporter {_ _} _.
Arguments effects {_ _} _.

Inductive result (A : Type) : Type :=
| Ok (a : A)
| Err (e : error).
Arguments Ok {A} a.
Arguments Err {A} e.

(** Computations of the pipeline: a result or the error returned, and the
    world after. *)
Definition M `{Types} (R A : Type) : Type := World R -> result A * World R.

Definition ret `{Types} {R A} (a : A) : M R A := fun w => (Ok a, w).

Definition fail `{Types} {R A} (e : error) : M R A := fun w => (Err e, w).

Definition bind `{Types} {R A B} (m : M R A) (k : A -> M R B) : M R B :=
  fun w =>
    match m w with
    | (Ok a, w') => k a w'
    | (Err e, w') => (Err e, w')
    end.

(** [if err := m; err != nil { return wrap(err) }]. *)
Definition orReturn `{Types} {R A} (m : M R A) (wrap : error -> error) : M R A :=
  fun w =>
    match m w with
    | (Ok a, w') => (Ok a, w')
    | (Err e, w') => (Err (wrap e), w')
    end.

Fixpoint forEach `{Types} {R A} (l : list A) (body : A -> M R unit) : M R unit :=
  match l with
  | [] => ret tt
  | x :: rest => bind (body x) (fun _ => forEach rest body)
  end.

(** A call on the status reporter. *)
Definition report `{Types} {R} (f : R -> R) : M R unit :=
  fun w => (Ok tt, {| reporter := f (reporter w); effects := effects w |}).

(** A validation function run on the world's reporter. *)
Definition validate `{Types} {R} (f : R -> option error * R) : M R unit :=
  fun w =>
    match f (reporter w) with
    | (Some e, r) => (Err e, {| reporter := r; effects := effects w |})
    | (None, r) => (Ok tt, {| reporter := r; effects := effects w |})
    end.

Definition HasUnderlayInterface `{Environment} {R} (ns : string) : M R bool :=
  fun w =>
    let '(has, err) := hasUnderlayInterface (effects w) ns in
    let w' := {| reporter := reporter w; effects := effects w ++ [Probed ns has err] |} in
    match err with
    | Some e => (Err e, w')
    | None => (Ok has, w')
    end.

(** A call of the host-network layer; the value is the error it returns. *)
Definition hostCall `{Environment} {R} (c : Call) : M R (option error) :=
  fun w =>
    let err := hostAnswer (effects w) c in
    (Ok err, {| reporter := reporter w; effects := effects w ++ [Called c err] |}).

Definition updater `{Environment} {R} (configFile config : string) : M R (option error) :=
  fun w =>
    let err := updaterAnswer (effects w) configFile config in
    (Ok err, {| reporter := reporter w; effects := effects w ++ [Pushed configFile config err] |}).

End world.

(* ===================================================================== *)
(** * Package routerconfiguration: the reconciliation pipeline *)
(* ===================================================================== *)

Module routerconfiguration.
Import net ipfamily api hostnetwork apiconfig world conversion.

Notation "x <- m ;; k" := (bind m (fun x => k))
  (at level 100, m at next level, right associativity).
Notation "m ;;; k" := (bind m (fun _ => k))
  (at level 100, right associativity).

(** [interfacesConfiguration].  Its [StatusReporter] is the reporter of the
    world; the pod runtime is not used by the functions below. *)
Record interfacesConfiguration := {
  RouterPodUUID : string;
  targetNamespace : string;
  config : ApiConfigData
}.

Definition findHostL3VNI `{Types} (hostL3VNIs : list L3VNIParams) (vni : Z)
    : option L3VNIParams :=
  find (fun hvni => (VNI (L3VNIParams_VNIParams hvni) =? vni)%Z) hostL3VNIs.

Definition findHostL2VNI `{Types} (hostL2VNIs : list L2VNIParams) (vni : Z)
    : option L2VNIParams :=
  find (fun hvni => (VNI (L2VNIParams_VNIParams hvni) =? vni)%Z) hostL2VNIs.

(** The body of the loop over the L3VNIs. *)
Definition setupL3VNI `{Environment} {R} `{StatusReporter R}
    (hostConfig : HostConfiguration) (l3vni : L3VNI) : M R unit :=
  match findHostL3VNI (host_L3VNIs hostConfig) (L3VNI_VNI (L3VNI_Spec l3vni)) with
  | None =>
      fail (fmtError "unexpected error, no host config found for L3VNI %s with VNI %d"
              [ArgS (L3VNI_Name l3vni); ArgD (L3VNI_VNI (L3VNI_Spec l3vni))])
  | Some hostL3VNI =>
      err <- hostCall (SetupL3VNI hostL3VNI) ;;
      match err with
      | Some err =>
          report (ReportResourceFailure L3VNIKind (L3VNI_Name l3vni) err) ;;;
          fail (wrapError "failed to setup L3VNI %s: %w" [ArgS (L3VNI_Name l3vni)] err)
      | None => report (ReportResourceSuccess L3VNIKind (L3VNI_Name l3vni))
      end
  end.

(** The body of the loop over the L2VNIs. *)
Definition setupL2VNI `{Environment} {R} `{StatusReporter R}
    (hostConfig : HostConfiguration) (l2vni : L2VNI) : M R unit :=
  match findHostL2VNI (host_L2VNIs hostConfig) (L2VNI_VNI (L2VNI_Spec l2vni)) with
  | None =>
      fail (fmtError "unexpected error, no host config found for L2VNI %s with VNI %d"
              [ArgS (L2VNI_Name l2vni); ArgD (L2VNI_VNI (L2VNI_Spec l2vni))])
  | Some hostL2VNI =>
      err <- hostCall (SetupL2VNI hostL2VNI) ;;
      match err with
      | Some err =>
          report (ReportResourceFailure L2VNIKind (L2VNI_Name l2vni) err) ;;;
          fail (wrapError "failed to setup L2VNI %s: %w" [ArgS (L2VNI_Name l2vni)] err)
      | None => report (ReportResourceSuccess L2VNIKind (L2VNI_Name l2vni))
      end
  end.

(** The slice [toCheck]: the VNI parameters of the L3 then the L2 entries
    of the host configuration. *)
Definition toCheck `{Types} (hostConfig : HostConfiguration) : list VNIParams :=
  map L3VNIParams_VNIParams (host_L3VNIs hostConfig)
  ++ map L2VNIParams_VNIParams (host_L2VNIs hostConfig).

(** [configureInterfaces] from the conversion on: what it does once it
    has passed its two early returns. *)
Definition applyConfiguration `{Environment} {R} `{StatusReporter R}
    (cfg : interfacesConfiguration) : M R unit :=
  let ns := targetNamespace cfg in
  let c := config cfg in
  let apiConfig :=
    {| UnderlayFromMultus := UnderlayFromMultus c;
       NodeIndex := NodeIndex c;
       LogLevel := "";
       Underlays := Underlays c;
       L3VNIs := L3VNIs c;
       L2VNIs := L2VNIs c;
       L3Passthrough := L3Passthrough c |} in
  match APItoHostConfig (NodeIndex c) ns apiConfig with
  | inr err => fail (wrapError "failed to convert config to host configuration: %w" [] err)
  | inl hostConfig =>
      err <- hostCall (EnsureIPv6Forwarding ns) ;;
      match err with
      | Some err => fail (wrapError "failed to ensure IPv6 forwarding: %w" [] err)
      | None => ret tt
      end ;;;
      (* Despite the config has a list of Underlays, there is always
         either one or none *)
      match Underlays c with
      | underlay0 :: _ =>
          err <- hostCall (SetupUnderlay (host_Underlay hostConfig)) ;;
          match err with
          | Some err =>
              report (ReportResourceFailure UnderlayKind (Underlay_Name underlay0) err) ;;;
              fail (wrapError "failed to setup underlay: %w" [] err)
          | None => report (ReportResourceSuccess UnderlayKind (Underlay_Name underlay0))
          end
      | [] => ret tt
      end ;;;
      forEach (L3VNIs c) (setupL3VNI hostConfig) ;;;
      forEach (L2VNIs c) (setupL2VNI hostConfig) ;;;
      (* Despite the config has a list of L3Passthroughts, there is always
         either one or none *)
      match L3Passthrough c with
      | passthrough0 :: _ =>
          match host_L3Passthrough hostConfig with
          | None => fail (fmtError "unexpected error, L3Passthrough not found in host config" [])
          | Some hostPassthrough =>
              err <- hostCall (SetupPassthrough hostPassthrough) ;;
              match err with
              | Some err =>
                  report (ReportResourceFailure L3PassthroughKind
                            (L3Passthrough_Name passthrough0) err) ;;;
                  fail (wrapError "failed to setup L3Passthrough %s: %w"
                          [ArgS (L3Passthrough_Name passthrough0)] err)
              | None =>
                  report (ReportResourceSuccess L3PassthroughKind
                            (L3Passthrough_Name passthrough0))
              end
          end
      | [] => ret tt
      end ;;;
      err <- hostCall (RemoveNonConfiguredVNIs ns (toCheck hostConfig)) ;;
      match err with
      | Some err => fail (wrapError "failed to remove deleted vnis: %w" [] err)
      | None => ret tt
      end ;;;
      if (length (L3Passthrough apiConfig) =? 0)%nat then
        err <- hostCall (RemovePassthrough ns) ;;
        match err with
        | Some err => fail (wrapError "failed to remove passthrough: %w" [] err)
        | None => ret tt
        end
      else ret tt
  end.

Definition configureInterfaces `{Environment} {R} `{StatusReporter R}
    (cfg : interfacesConfiguration) : M R unit :=
  let ns := targetNamespace cfg in
  let c := config cfg in
  hasAlreadyUnderlay <-
    orReturn (HasUnderlayInterface ns)
      (wrapError "failed to check if target namespace %s has underlay: %w" [ArgS ns]) ;;
  if hasAlreadyUnderlay && (length (Underlays c) =? 0)%nat then
    fail UnderlayRemovedError
  else if (length (Underlays c) =? 0)%nat then
    ret tt (* nothing to do *)
  else applyConfiguration cfg.

Definition isUnderlayRemovedError (e : error) : bool :=
  match e with UnderlayRemovedError => true | _ => false end.

Definition isUnderlayExistsError (e : error) : bool :=
  match e with UnderlayExistsError _ => true | _ => false end.

(** [nonRecoverableHostError] tells whether the router pod should be
    restarted instead of being reconfigured. *)
Definition nonRecoverableHostError (e : option error) : bool :=
  match e with
  | None => false
  | Some e =>
      if As isUnderlayRemovedError e then true
      else As isUnderlayExistsError e
  end.

Record frrConfigData := {
  configFile : string;
  frr_config : ApiConfigData
}.

(** Modelled from the spec: [configureFRR], which is not part of the
    sources, renders the FRR configuration of the declared resources and
    pushes it through the FRR updater; a failure of either is returned. *)
Definition configureFRR `{Environment} {R} (data : frrConfigData) : M R unit :=
  match APItoFRR (frr_config data) with
  | inr err => fail err
  | inl frrConfig =>
      err <- updater (configFile data) frrConfig ;;
      match err with
      | Some err => fail err
      | None => ret tt
      end
  end.

Definition Reconcile `{Environment} `{Net} `{IPFamily} `{L2VNIMethods} {R} `{StatusReporter R}
    (apiConfig : ApiConfigData) (frrConfigPath targetNamespace : string) : M R unit :=
  orReturn (validate (ValidateUnderlays (Underlays apiConfig)))
    (wrapError "failed to validate underlays: %w" []) ;;;
  orReturn (validate (ValidateL3VNIs (L3VNIs apiConfig)))
    (wrapError "failed to validate l3vnis: %w" []) ;;;
  orReturn (validate (ValidateL2VNIs (L2VNIs apiConfig)))
    (wrapError "failed to validate l2vnis: %w" []) ;;;
  orReturn (validate (ValidateHostSessions (L3VNIs apiConfig) (L3Passthrough apiConfig)))
    (wrapError "failed to validate host sessions: %w" []) ;;;
  orReturn (configureFRR {| configFile := frrConfigPath; frr_config := apiConfig |})
    (wrapError "failed to reload frr config: %w" []) ;;;
  orReturn (configureInterfaces
              {| RouterPodUUID := ""; targetNamespace := targetNamespace; config := apiConfig |})
    (wrapError "failed to configure the host: %w" []) ;;;
  ret tt.

End routerconfiguration.

(* ===================================================================== *)
(** * The Status Reconciler *)
(* ===================================================================== *)

Module statuscontroller.
Import StatusManager.

(** [metav1.Time] is an integer here, [0] being the zero value. *)
Definition Time := Z.

(** [metav1.Condition]. *)
Record Condition := {
  Type_ : string;
  Status : string;
  ObservedGeneration : Z;
  LastTransitionTime : Time;
  Reason : string;
  Message : string
}.

Record FailedResource := {
  fr_Kind : string;
  fr_Name : string;
  fr_Message : string
}.

(** [RouterNodeConfigurationStatusStatus].  A pointer is an option; a
    slice is an option of a list, [None] being the nil slice, which
    [reflect.DeepEqual] tells apart from an empty one. *)
Record RouterNodeConfigurationStatusStatus := {
  status_LastUpdateTime : option Time;
  status_FailedResources : option (list FailedResource);
  status_Conditions : option (list Condition)
}.

Record OwnerReference := {
  owner_APIVersion : string;
  owner_Kind : string;
  owner_Name : string;
  owner_UID : string
}.

Record RouterNodeConfigurationStatus := {
  obj_Name : string;
  obj_Namespace : string;
  obj_OwnerReferences : list OwnerReference;
  obj_Status : RouterNodeConfigurationStatusStatus
}.

Record Node := {
  node_Name : string;
  node_UID : string
}.

Record RouterNodeConfigurationStatusReconciler := {
  MyNode : string;
  MyNamespace : string
}.

(** The readings of the clock in [buildConditions] and [buildStatus]. *)
Class Clock := {
  metav1_Now : Time;
  time_Now : Time
}.

(** [reflect.DeepEqual] on the values a status is made of. *)
Definition deepEqual_Condition (a b : Condition) : bool :=
  String.eqb (Type_ a) (Type_ b) && String.eqb (Status a) (Status b)
  && (ObservedGeneration a =? ObservedGeneration b)%Z
  && (LastTransitionTime a =? LastTransitionTime b)%Z
  && String.eqb (Reason a) (Reason b) && String.eqb (Message a) (Message b).

Definition deepEqual_FailedResource (a b : FailedResource) : bool :=
  String.eqb (fr_Kind a) (fr_Kind b) && String.eqb (fr_Name a) (fr_Name b)
  && String.eqb (fr_Message a) (fr_Message b).

Fixpoint deepEqual_elems {A} (eq : A -> A -> bool) (a b : list A) : bool :=
  match a, b with
  | [], [] => true
  | x :: a', y :: b' => eq x y && deepEqual_elems eq a' b'
  | _, _ => false
  end.

(** A pointer or a slice: both nil, or both not nil and equal inside. *)
Definition deepEqual_nilable {A} (eq : A -> A -> bool) (a b : option A) : bool :=
  match a, b with
  | None, None => true
  | Some x, Some y => eq x y
  | _, _ => false
  end.

Definition DeepEqual (a b : RouterNodeConfigurationStatusStatus) : bool :=
  deepEqual_nilable Z.eqb (status_LastUpdateTime a) (status_LastUpdateTime b)
  && deepEqual_nilable (deepEqual_elems deepEqual_FailedResource)
       (status_FailedResources a) (status_FailedResources b)
  && deepEqual_nilable (deepEqual_elems deepEqual_Condition)
       (status_Conditions a) (status_Conditions b).

Definition zeroTransitionTime (c : Condition) : Condition :=
  {| Type_ := Type_ c; Status := Status c; ObservedGeneration := ObservedGeneration c;
     LastTransitionTime := 0; Reason := Reason c; Message := Message c |}.

(** What [statusEqual] does to each copy before it compares them. *)
Definition normalize (a : RouterNodeConfigurationStatusStatus)
    : RouterNodeConfigurationStatusStatus :=
  {| status_LastUpdateTime := None;
     status_FailedResources := status_FailedResources a;
     status_Conditions := option_map (map zeroTransitionTime) (status_Conditions a) |}.

(** [statusEqual] compares two status objects for deep equality, ignoring
    timestamp differences. *)
Definition statusEqual (a b : RouterNodeConfigurationStatusStatus) : bool :=
  let aCopy := normalize a in
  let bCopy := normalize b in
  DeepEqual aCopy bCopy.

Definition buildFailureMessageFromCount (failedCount : nat) : string :=
  if (0 <? failedCount)%nat then pretty failedCount +:+ " resource(s) failed"
  else "Configuration failed".

Definition buildConditions `{Clock} (failedCount : nat) : list Condition :=
  let now := metav1_Now in
  if (0 <? failedCount)%nat then
    [ {| Type_ := "Ready"; Status := "False"; ObservedGeneration := 0;
         LastTransitionTime := now; Reason := "ConfigurationFailed";
         Message := "Some OpenPERouter configurations failed" |};
      {| Type_ := "Degraded"; Status := "True"; ObservedGeneration := 0;
         LastTransitionTime := now; Reason := "ConfigurationFailed";
         Message := buildFailureMessageFromCount failedCount |} ]
  else
    [ {| Type_ := "Ready"; Status := "True"; ObservedGeneration := 0;
         LastTransitionTime := now; Reason := "ConfigurationSuccessful";
         Message := "All OpenPERouter configurations are successful" |};
      {| Type_ := "Degraded"; Status := "False"; ObservedGeneration := 0;
         LastTransitionTime := now; Reason := "ConfigurationSuccessful";
         Message := "All configurations are healthy" |} ].

Definition buildStatus `{Clock} {S} `{StatusReader S} (statusReader : S)
    : RouterNodeConfigurationStatusStatus :=
  let statusSummary := reader_GetStatusSummary statusReader in
  let failedResources :=
    map (fun failed =>
           {| fr_Kind := info_Kind failed; fr_Name := info_Name failed;
              fr_Message := info_ErrorMessage failed |})
      (FailedResources statusSummary) in
  let lastUpdate := Some time_Now in
  let conditions := buildConditions (length failedResources) in
  {| status_LastUpdateTime := lastUpdate;
     status_FailedResources := Some failedResources;
     status_Conditions := Some conditions |}.

(** The requests the reconciler sends to the cluster. *)
Inductive Request : Type :=
| GetStatus (name namespace : string)
| GetNode (name : string)
| Create (obj : RouterNodeConfigurationStatus)
| StatusPatch (obj : RouterNodeConfigurationStatus).

Inductive GetAnswer (A : Type) : Type :=
| Found (a : A)
| NotFound (err : error)
| Failed (err : error).
Arguments Found {A} a.
Arguments NotFound {A} err.
Arguments Failed {A} err.

(** The cluster client; an answer may depend on the requests before. *)
Class Client := {
  getStatus : list Request -> string -> string -> GetAnswer RouterNodeConfigurationStatus;
  getNode : list Request -> string -> Node + error;
  createAnswer : list Request -> RouterNodeConfigurationStatus -> option error;
  patchAnswer : list Request -> RouterNodeConfigurationStatus -> option error
}.

Definition withStatus (o : RouterNodeConfigurationStatus)
    (st : RouterNodeConfigurationStatusStatus) : RouterNodeConfigurationStatus :=
  {| obj_Name := obj_Name o; obj_Namespace := obj_Namespace o;
     obj_OwnerReferences := obj_OwnerReferences o; obj_Status := st |}.

Definition emptyStatus : RouterNodeConfigurationStatusStatus :=
  {| status_LastUpdateTime := None; status_FailedResources := None;
     status_Conditions := None |}.

(** [createRouterNodeStatus]; the value is the error and the requests
    sent. *)
Definition createRouterNodeStatus `{Client} (r : RouterNodeConfigurationStatusReconciler)
    (sent : list Request) : option error * list Request :=
  let sent1 := sent ++ [GetNode (MyNode r)] in
  match getNode sent (MyNode r) with
  | inr err => (Some err, sent1)
  | inl node =>
      let routerNodeStatus :=
        {| obj_Name := MyNode r; obj_Namespace := MyNamespace r;
           obj_OwnerReferences :=
             [ {| owner_APIVersion := "v1"; owner_Kind := "Node";
                  owner_Name := node_Name node; owner_UID := node_UID node |} ];
           obj_Status := emptyStatus |} in
      (createAnswer sent1 routerNodeStatus, sent1 ++ [Create routerNodeStatus])
  end.

(** The tail of [Reconcile], from [buildStatus] on, for the object
    fetched. *)
Definition patchIfChanged `{Client} `{Clock} {S} `{StatusReader S}
    (statusReader : S) (routerNodeConfigurationStatus : RouterNodeConfigurationStatus)
    (sent : list Request) : option error * list Request :=
  let newStatus := buildStatus statusReader in
  if negb (statusEqual (obj_Status routerNodeConfigurationStatus) newStatus) then
    let patched := withStatus routerNodeConfigurationStatus newStatus in
    (patchAnswer sent patched, sent ++ [StatusPatch patched])
  else (None, sent).

Definition Reconcile `{Client} `{Clock} {S} `{StatusReader S}
    (r : RouterNodeConfigurationStatusReconciler) (statusReader : S)
    (sent : list Request) : option error * list Request :=
  let sent1 := sent ++ [GetStatus (MyNode r) (MyNamespace r)] in
  match getStatus sent (MyNode r) (MyNamespace r) with
  | Failed err => (Some err, sent1)
  | NotFound _ =>
      match createRouterNodeStatus r sent1 with
      | (Some err, sent2) => (Some err, sent2)
      | (None, sent2) =>
          let sent3 := sent2 ++ [GetStatus (MyNode r) (MyNamespace r)] in
          match getStatus sent2 (MyNode r) (MyNamespace r) with
          | Found obj => patchIfChanged statusReader obj sent3
          | NotFound err | Failed err => (Some err, sent3)
          end
      end
  | Found obj => patchIfChanged statusReader obj sent1
  end.

End statuscontroller.

(* ===================================================================== *)
(** * Package webhooks: admission of L3VNIs *)
(* ===================================================================== *)

Module webhooks.
Import net fmt conversion.

Inductive Operation : Type := Create | Update | Delete | Connect.

(** An admission request: the operation and the two raw objects, [None]
    being a raw extension without bytes (of size zero). *)
Record Request := {
  req_Operation : Operation;
  req_Object : option string;
  req_OldObject : option string
}.

Inductive Response : Type :=
| Allowed (message : string)
| Denied (message : string)
| Errored (code : Z) (err : error).

(** The admission decoder. *)
Class Decoder := {
  Decode : Request -> L3VNI + error;
  DecodeRaw : option string -> L3VNI + error
}.

(** The package variables the validation goes through: the lists of the
    existing objects and the validation function installed at start-up. *)
Class Existing := {
  getL3VNIs : list L3VNI + error;
  getL3Passthroughs : list L3Passthrough + error;
  ValidateL3VNIs : list L3VNI -> option error
}.

(** The zero value of [v1alpha1.L3VNI]. *)
Definition zeroL3VNI : L3VNI :=
  {| L3VNI_Name := ""; L3VNI_Namespace := "";
     L3VNI_Spec := {| L3VNI_VRF := ""; L3VNI_VNI := 0; L3VNI_HostSession := None |} |}.

Definition localCIDR (hostSession : option HostSession) : LocalCIDRConfig :=
  match hostSession with
  | None => {| IPv4 := ""; IPv6 := "" |}
  | Some hs => LocalCIDR hs
  end.

(** The loop of [validateL3VNI] that puts the incoming object in the place
    of the existing one of the same name and namespace. *)
Fixpoint replaceExisting (l3vni : L3VNI) (existing : list L3VNI) : list L3VNI * bool :=
  match existing with
  | [] => ([], false)
  | existingL3VNI :: rest =>
      let '(tail, found) := replaceExisting l3vni rest in
      if String.eqb (L3VNI_Name existingL3VNI) (L3VNI_Name l3vni)
         && String.eqb (L3VNI_Namespace existingL3VNI) (L3VNI_Namespace l3vni)
      then (l3vni :: tail, true)
      else (existingL3VNI :: tail, found)
  end.

Definition validateL3VNI `{Existing} `{Net} (l3vni : L3VNI) : option error :=
  match getL3VNIs with
  | inr err => Some err
  | inl existingL3VNIs =>
      let '(replaced, found) := replaceExisting l3vni existingL3VNIs in
      let toValidate := if found then replaced else replaced ++ [l3vni] in
      match ValidateL3VNIs toValidate with
      | Some err => Some (wrapError "validation failed: %w" [] err)
      | None =>
          match getL3Passthroughs with
          | inr err => Some err
          | inl l3passthroughs =>
              match ValidateHostSessions toValidate l3passthroughs (tt : NoOpStatusReporter) with
              | (Some err, _) => Some (wrapError "validation failed: %w" [] err)
              | (None, _) => None
              end
          end
      end
  end.

Definition validateL3VNICreate `{Existing} `{Net} (l3vni : L3VNI) : option error :=
  validateL3VNI l3vni.

Definition validateL3VNIUpdate `{Existing} `{Net} (l3vni oldL3VNI : L3VNI) : option error :=
  if negb (bool_decide (localCIDR (L3VNI_HostSession (L3VNI_Spec oldL3VNI))
                        = localCIDR (L3VNI_HostSession (L3VNI_Spec l3vni))))
  then Some (errorString "LocalCIDR cannot be changed")
  else validateL3VNI l3vni.

Definition validateL3VNIDelete (_ : L3VNI) : option error := None.

Definition StatusBadRequest : Z := 400.

(** The [switch] of [Handle] on the operation. *)
Definition respond `{Existing} `{Net} `{ErrorText} (op : Operation) (l3vni oldL3VNI : L3VNI)
    : Response :=
  let verdict :=
    match op with
    | Create => validateL3VNICreate l3vni
    | Update => validateL3VNIUpdate l3vni oldL3VNI
    | Delete => validateL3VNIDelete l3vni
    | Connect => None
    end in
  match verdict with
  | Some err => Denied (Error err)
  | None => Allowed ""
  end.

Definition Handle `{Decoder} `{Existing} `{Net} `{ErrorText} (req : Request) : Response :=
  match req_Operation req with
  | Delete =>
      match DecodeRaw (req_OldObject req) with
      | inr err => Errored StatusBadRequest err
      | inl l3vni => respond (req_Operation req) l3vni zeroL3VNI
      end
  | _ =>
      match Decode req with
      | inr err => Errored StatusBadRequest err
      | inl l3vni =>
          match req_OldObject req with
          | Some _ =>
              match DecodeRaw (req_OldObject req) with
              | inr err => Errored StatusBadRequest err
              | inl oldL3VNI => respond (req_Operation req) l3vni oldL3VNI
              end
          | None => respond (req_Operation req) l3vni zeroL3VNI
          end
      end
  end.

End webhooks.

(* ===================================================================== *)
(** * Package k8s and the pod-backed router *)
(* ===================================================================== *)

Module k8s.

(** The constants of the core API the package compares with. *)
Definition PodReady : string := "Ready".
Definition ContainersReady : string := "ContainersReady".
Definition ConditionTrue : string := "True".
Definition ConditionUnknown : string := "Unknown".

Record PodCondition := {
  cond_Type : string;
  cond_Status : string
}.

(** A pod, as far as the router looks at it. *)
Record Pod := {
  pod_Name : string;
  pod_Namespace : string;
  pod_UID : string;
  pod_Conditions : list PodCondition
}.

(** The loop of [podConditionStatus]: the status of the first condition of
    the type asked for. *)
Fixpoint firstConditionStatus (conditions : list PodCondition) (condition : string) : string :=
  match conditions with
  | [] => ConditionUnknown
  | c :: rest =>
      if String.eqb (cond_Type c) condition then cond_Status c
      else firstConditionStatus rest condition
  end.

(** [podConditionStatus] returns the status of the condition for a given
    pod; the pod is a pointer, [None] being nil. *)
Definition podConditionStatus (p : option Pod) (condition : string) : string :=
  match p with
  | None => ConditionUnknown
  | Some pod => firstConditionStatus (pod_Conditions pod) condition
  end.

(** [PodIsReady] returns the given pod's PodReady and ContainersReady
    condition. *)
Definition PodIsReady (p : option Pod) : bool :=
  String.eqb (podConditionStatus p PodReady) ConditionTrue
  && String.eqb (podConditionStatus p ContainersReady) ConditionTrue.

(** [RouterPodProvider], with the answer of its client to the listing of
    the router pods of the node in place of the client. *)
Record RouterPodProvider := {
  Node : string;
  listed : list Pod + error
}.

(** [RouterPod]; its manager is the provider, which its methods below do
    not use. *)
Record RouterPod := {
  pod : option Pod
}.

(** [routerPodForNode] returns the router pod for the given node: a
    pointer to the first item of the listing. *)
Definition routerPodForNode `{fmt.ErrorText} (listed : list Pod + error) (node : string)
    : option Pod + error :=
  match listed with
  | inr err =>
      inr (fmtError "failed to get router pod for node %s: %v" [ArgS node; ArgS (fmt.Error err)])
  | inl items =>
      if (1 <? length items)%nat then
        inr (fmtError "more than one router pod found for node %s" [ArgS node])
      else if (length items =? 0)%nat then
        inr (fmtError "no router pods found for node %s" [ArgS node])
      else inl (head items)
  end.

(** [RouterPodProvider.New]. *)
Definition New `{fmt.ErrorText} (r : RouterPodProvider) : RouterPod + error :=
  match routerPodForNode (listed r) (Node r) with
  | inr err =>
      inr (wrapError "failed to fetch router pod for node %s: %w" [ArgS (Node r)] err)
  | inl routerPod => inl {| pod := routerPod |}
  end.

(** [RouterPod.CanReconcile].  The message logged for a pod that is not
    ready reads [r.pod.Name]: on a nil pod the call does not return, which
    is [None] here. *)
Definition CanReconcile (r : RouterPod) : option (bool * option error) :=
  let routerPodIsReady := PodIsReady (pod r) in
  if negb routerPodIsReady then
    match pod r with
    | None => None
    | Some _ => Some (false, None)
    end
  else Some (true, None).

End k8s.

(* ===================================================================== *)
(** * Package routerconfiguration: the controller around the pipeline *)
(* ===================================================================== *)

Module controller.
Import net ipfamily api hostnetwork apiconfig world conversion routerconfiguration.

(** A status reporter that may also be a status reader: the outcome of the
    type assertion in [cleanupRemovedFailedResources]. *)
Class MaybeReader (R : Type) := {
  asStatusReader : option (R -> StatusManager.StatusSummary)
}.

#[export] Instance StatusManager_maybeReader : MaybeReader StatusManager.StatusManager := {
  asStatusReader := Some StatusManager.GetStatusSummary
}.

(** A set of names, built as the Go code builds its [map[string]bool]. *)
Definition currentNames {A} (nameOf : A -> string) (l : list A) : gmap string bool :=
  fold_left (fun m x => <[nameOf x := true]> m) l ∅.

(** The lookup of a name in such a map: [false] when the key is missing. *)
Definition isCurrent (m : gmap string bool) (n : string) : bool :=
  match m !! n with
  | Some b => b
  | None => false
  end.

(** The [switch] of [cleanupRemovedFailedResources] on the kind of a failed
    resource; [exists] stays [false] for a kind that is none of the four. *)
Definition resourceExists
    (currentUnderlays currentL3VNIs currentL2VNIs currentL3Passthroughs : gmap string bool)
    (failedResource : StatusManager.FailedResourceInfo) : bool :=
  if String.eqb (StatusManager.info_Kind failedResource) UnderlayKind then
    isCurrent currentUnderlays (StatusManager.info_Name failedResource)
  else if String.eqb (StatusManager.info_Kind failedResource) L3VNIKind then
    isCurrent currentL3VNIs (StatusManager.info_Name failedResource)
  else if String.eqb (StatusManager.info_Kind failedResource) L2VNIKind then
    isCurrent currentL2VNIs (StatusManager.info_Name failedResource)
  else if String.eqb (StatusManager.info_Kind failedResource) L3PassthroughKind then
    isCurrent currentL3Passthroughs (StatusManager.info_Name failedResource)
  else false.

(** The body of the loop of [cleanupRemovedFailedResources]. *)
Definition cleanupOne {R} `{StatusReporter R}
    (currentUnderlays currentL3VNIs currentL2VNIs currentL3Passthroughs : gmap string bool)
    (sr : R) (failedResource : StatusManager.FailedResourceInfo) : R :=
  let exists_ :=
    resourceExists currentUnderlays currentL3VNIs currentL2VNIs currentL3Passthroughs
      failedResource in
  (* If the failed resource no longer exists, report it as removed *)
  if negb exists_
  then ReportResourceRemoved (StatusManager.info_Kind failedResource)
         (StatusManager.info_Name failedResource) sr
  else sr.

Definition cleanupRemovedFailedResources {R} `{StatusReporter R} `{MaybeReader R}
    (underlays : list Underlay) (l3vnis : list L3VNI) (l2vnis : list L2VNI)
    (l3passthrough : list v1alpha1.L3Passthrough) (sr : R) : R :=
  let currentUnderlays := currentNames Underlay_Name underlays in
  let currentL3VNIs := currentNames L3VNI_Name l3vnis in
  let currentL2VNIs := currentNames L2VNI_Name l2vnis in
  let currentL3Passthroughs := currentNames L3Passthrough_Name l3passthrough in
  match asStatusReader with
  | Some getStatusSummary =>
      let statusSummary := getStatusSummary sr in
      fold_left
        (cleanupOne currentUnderlays currentL3VNIs currentL2VNIs currentL3Passthroughs)
        (StatusManager.FailedResources statusSummary) sr
  | None => sr
  end.

Definition reportUnderlayConfigurationSuccess {R} `{StatusReporter R}
    (underlays : list Underlay) (sr : R) : R :=
  fold_left (fun sr underlay => ReportResourceSuccess UnderlayKind (Underlay_Name underlay) sr)
    underlays sr.

Definition reportL2VNIConfigurationSuccess {R} `{StatusReporter R}
    (l2vnis : list L2VNI) (sr : R) : R :=
  fold_left (fun sr l2vni => ReportResourceSuccess L2VNIKind (L2VNI_Name l2vni) sr) l2vnis sr.

Definition reportL3VNIConfigurationSuccess {R} `{StatusReporter R}
    (l3vnis : list L3VNI) (sr : R) : R :=
  fold_left (fun sr l3vni => ReportResourceSuccess L3VNIKind (L3VNI_Name l3vni) sr) l3vnis sr.

Definition reportL3PassthroughConfigurationSuccess {R} `{StatusReporter R}
    (l3passthroughs : list v1alpha1.L3Passthrough) (sr : R) : R :=
  fold_left
    (fun sr l3passthrough =>
       ReportResourceSuccess L3PassthroughKind (L3Passthrough_Name l3passthrough) sr)
    l3passthroughs sr.

(** The router of a node: what its three methods answer. *)
Record Router := {
  TargetNS : string + error;
  router_CanReconcile : bool * option error;
  HandleNonRecoverableError : option error
}.

Record RouterProvider := {
  provider_NodeIndex : Z + error;
  New : Router + error
}.

(** [PERouterReconciler], with the answers of its client to the four
    listings in place of the client. *)
Record PERouterReconciler := {
  MyNode : string;
  MyNamespace : string;
  reconciler_LogLevel : string;
  reconciler_UnderlayFromMultus : bool;
  FRRConfigPath : string;
  FRRReloadSocket : string;
  provider : RouterProvider;
  listUnderlays : list Underlay + error;
  listL3VNIs : list L3VNI + error;
  listL2VNIs : list L2VNI + error;
  listL3Passthroughs : list v1alpha1.L3Passthrough + error
}.

(** [ctrl.Result]: the delay of the requeue in nanoseconds, [0] for none. *)
Record Result := {
  RequeueAfter : Z
}.

Definition Second : Z := 1000000000.

(** What a pass of the controller returns, and whether it invoked
    [HandleNonRecoverableError] on the router. *)
Record Outcome := {
  out_Result : Result;
  out_err : option error;
  out_handled : bool
}.

Definition returns (requeue : Z) (err : option error) (handled : bool) : Outcome :=
  {| out_Result := {| RequeueAfter := requeue |}; out_err := err; out_handled := handled |}.

(** The end of [PERouterReconciler.Reconcile], from the call of the pipeline
    on. *)
Definition afterPipeline `{Types} {R} `{StatusReporter R} (router : Router)
    (underlays : list Underlay) (l3vnis : list L3VNI) (l2vnis : list L2VNI)
    (l3passthrough : list v1alpha1.L3Passthrough)
    (ran : result unit * World R) : Outcome * World R :=
  let err := match fst ran with Ok _ => None | Err e => Some e end in
  let w := snd ran in
  let handling :=
    if nonRecoverableHostError err then Some (HandleNonRecoverableError router) else None in
  match handling with
  | Some (Some handleErr) => (returns 0 (Some handleErr) true, w)
  | _ =>
      let handled := match handling with Some _ => true | None => false end in
      match err with
      | Some e => (returns 0 (Some e) handled, w)
      | None =>
          let sr := reportUnderlayConfigurationSuccess underlays (reporter w) in
          let sr := reportL2VNIConfigurationSuccess l2vnis sr in
          let sr := reportL3VNIConfigurationSuccess l3vnis sr in
          let sr := reportL3PassthroughConfigurationSuccess l3passthrough sr in
          (returns 0 None handled, {| reporter := sr; effects := effects w |})
      end
  end.

(** [PERouterReconciler.Reconcile]. *)
Definition Reconcile `{Environment} `{Net} `{IPFamily} `{L2VNIMethods}
    {R} `{StatusReporter R} `{MaybeReader R}
    (r : PERouterReconciler) (w : World R) : Outcome * World R :=
  match listUnderlays r with
  | inr err => (returns 0 (Some err) false, w)
  | inl underlays =>
  match listL3VNIs r with
  | inr err => (returns 0 (Some err) false, w)
  | inl l3vnis =>
  match listL2VNIs r with
  | inr err => (returns 0 (Some err) false, w)
  | inl l2vnis =>
  match listL3Passthroughs r with
  | inr err => (returns 0 (Some err) false, w)
  | inl l3passthrough =>
  match provider_NodeIndex (provider r) with
  | inr err => (returns 0 (Some err) false, w)
  | inl nodeIndex =>
      let apiConfig :=
        {| NodeIndex := nodeIndex;
           UnderlayFromMultus := reconciler_UnderlayFromMultus r;
           Underlays := underlays;
           LogLevel := reconciler_LogLevel r;
           L3VNIs := l3vnis;
           L2VNIs := l2vnis;
           L3Passthrough := l3passthrough |} in
      match New (provider r) with
      | inr err =>
          (returns 0 (Some (wrapError "failed to get router pod instance: %w" [] err)) false, w)
      | inl router =>
      match TargetNS router with
      | inr err =>
          (returns 0 (Some (wrapError "failed to retrieve target namespace: %w" [] err)) false, w)
      | inl targetNS =>
      match router_CanReconcile router with
      | (_, Some err) =>
          (returns 0
             (Some (wrapError "failed to check if router can be reconciled: %w" [] err)) false,
           w)
      | (false, None) => (returns (5 * Second) None false, w)
      | (true, None) =>
          let w1 :=
            {| reporter :=
                 cleanupRemovedFailedResources underlays l3vnis l2vnis l3passthrough (reporter w);
               effects := effects w |} in
          afterPipeline router underlays l3vnis l2vnis l3passthrough
            (routerconfiguration.Reconcile apiConfig (FRRConfigPath r) targetNS w1)
      end
      end
      end
  end
  end
  end
  end
  end.

End controller.

(* ===================================================================== *)
(** * Concrete collaborators, for the examples *)
(* ===================================================================== *)

Module fixtures.
Import net ipfamily api fmt hostnetwork apiconfig world conversion.
Import StatusManager statuscontroller webhooks.

(** ** A reader of dotted IPv4 CIDRs *)

Fixpoint splitOn (sep : ascii) (s : string) : list string :=
  match s with
  | EmptyString => [EmptyString]
  | String c rest =>
      if Ascii.eqb c sep then EmptyString :: splitOn sep rest
      else
        match splitOn sep rest with
        | [] => [String c EmptyString]
        | first :: others => String c first :: others
        end
  end.

Definition digitValue (c : ascii) : option Z :=
  let n := Z.of_N (N_of_ascii c) in
  if (48 <=? n)%Z && (n <=? 57)%Z then Some (n - 48)%Z else None.

Fixpoint decimalFrom (s : string) (acc : Z) : option Z :=
  match s with
  | EmptyString => Some acc
  | String c rest =>
      match digitValue c with
      | Some d => decimalFrom rest (10 * acc + d)%Z
      | None => None
      end
  end.

(** An unsigned decimal of one to three digits without a leading zero. *)
Definition parseDecimal (s : string) : option Z :=
  match s with
  | EmptyString => None
  | String c rest =>
      if (3 <? String.length s)%nat then None
      else if Ascii.eqb c "0" && negb (String.eqb rest "") then None
      else decimalFrom s 0
  end.

Definition parseIPv4 (s : string) : option Z :=
  match map parseDecimal (splitOn "." s) with
  | [Some a; Some b; Some c; Some d] =>
      if (a <=? 255)%Z && (b <=? 255)%Z && (c <=? 255)%Z && (d <=? 255)%Z
      then Some (((a * 256 + b) * 256 + c) * 256 + d)%Z
      else None
  | _ => None
  end.

(** The address, and the network as its masked address and prefix
    length. *)
Definition parseCIDR4 (s : string) : option (Z * (Z * Z)) :=
  match splitOn "/" s with
  | [addr; len] =>
      match parseIPv4 addr, parseDecimal len with
      | Some ip, Some n =>
          if (n <=? 32)%Z
          then Some (ip, (Z.shiftl (Z.shiftr ip (32 - n)) (32 - n), n))
          else None
      | _, _ => None
      end
  | _ => None
  end.

Definition contains4 (ipNet : Z * Z) (ip : Z) : bool :=
  (Z.shiftr ip (32 - snd ipNet) =? Z.shiftr (fst ipNet) (32 - snd ipNet))%Z.

Definition ipv4Net : Net :=
  {| IP := Z; IPNet := (Z * Z)%type; ParseCIDR := parseCIDR4; Contains := contains4 |}.

(** ** The missing helpers *)

(** The VRF an L2VNI names, or its own name when it names none. *)
Definition vrfOrName : L2VNIMethods :=
  {| VRFName l2vni :=
       match L2VNI_VRF (L2VNI_Spec l2vni) with
       | Some vrf => if String.eqb vrf "" then L2VNI_Name l2vni else vrf
       | None => L2VNI_Name l2vni
       end |}.

(** Gateways are accepted when each is a CIDR and there is at most one. *)
Definition oneGateway : IPFamily :=
  {| ForCIDRStrings cidrs :=
       if forallb (fun c => bool_decide (is_Some (parseCIDR4 c))) cidrs
          && (length cidrs <=? 1)%nat
       then None else Some (errorString "invalid gateway addresses") |}.

(** The text of an error, with the verbs of the format left as they are. *)
Fixpoint plainText (e : error) : string :=
  match e with
  | errorString t => t
  | fmtError f _ => f
  | wrapError f _ inner => f +:+ " [" +:+ plainText inner +:+ "]"
  | joinError _ => "joined errors"
  | UnderlayRemovedError => "no underlays configured"
  | UnderlayExistsError t => t
  end.

Definition plainErrors : ErrorText := {| Error := plainText |}.

(** ** A host whose parameter structs are the VNI numbers *)

Definition numbers : Types :=
  {| UnderlayParams := string; PassthroughParams := string;
     VNIParams := Z; VNI := fun n => n;
     L3VNIParams := Z; L3VNIParams_VNIParams := fun n => n;
     L2VNIParams := Z; L2VNIParams_VNIParams := fun n => n |}.

Definition convert (nodeIndex : Z) (ns : string) (c : ApiConfigData)
    : @HostConfiguration numbers + error :=
  inl (@Build_HostConfiguration numbers ns
         (map (fun l => L3VNI_VNI (L3VNI_Spec l)) (L3VNIs c))
         (map (fun l => L2VNI_VNI (L2VNI_Spec l)) (L2VNIs c))
         (match L3Passthrough c with [] => None | p :: _ => Some (L3Passthrough_Name p) end)).

(** A host on which everything succeeds and whose namespace has an
    underlay interface exactly when [has] says so. *)
Definition agreeableHost (has : bool) : @Environment numbers :=
  {| hasUnderlayInterface := fun _ _ => (has, None);
     hostAnswer := fun _ _ => None;
     APItoHostConfig := convert;
     APItoFRR := fun _ => inl "frr.conf";
     updaterAnswer := fun _ _ _ => None |}.

(** The effects of a full pass and of a pass that ends at the probe. *)
Definition fullPass : list (@Effect numbers) :=
  [ @Probed numbers "ns" true None;
    @Called numbers (@EnsureIPv6Forwarding numbers "ns") None;
    @Called numbers (@SetupUnderlay numbers "ns") None;
    @Called numbers (@SetupL3VNI numbers 100) None;
    @Called numbers (@SetupL2VNI numbers 110) None;
    @Called numbers (@RemoveNonConfiguredVNIs numbers "ns" [100; 110]) None;
    @Called numbers (@RemovePassthrough numbers "ns") None ].

Definition probeOnly : list (@Effect numbers) :=
  [ @Probed numbers "ns" false None ].

Definition start : @World numbers (list ReportCall) :=
  {| reporter := []; effects := [] |}.

(** ** Resources *)

Definition session (asn hostASN : Z) (v4 v6 : string) : HostSession :=
  {| ASN := asn; HostASN := hostASN; LocalCIDR := {| IPv4 := v4; IPv6 := v6 |} |}.

Definition l3vni (name vrf : string) (vni : Z) (hs : option HostSession) : L3VNI :=
  {| L3VNI_Name := name; L3VNI_Namespace := "openperouter-system";
     L3VNI_Spec := {| L3VNI_VRF := vrf; L3VNI_VNI := vni; L3VNI_HostSession := hs |} |}.

Definition l2vni (name : string) (vrf : option string) (vni : Z) : L2VNI :=
  {| L2VNI_Name := name;
     L2VNI_Spec := {| L2VNI_VRF := vrf; L2VNI_VNI := vni;
                      L2VNI_HostMaster := None; L2GatewayIPs := [] |} |}.

Definition underlay (name : string) (asn : Z) (nics : list string) : Underlay :=
  {| Underlay_Name := name;
     Underlay_Spec := {| Underlay_ASN := asn; Neighbors := [];
                         EVPN := Some {| VTEPCIDR := "100.65.0.0/24" |}; Nics := nics |} |}.

Definition declared (us : list Underlay) (l3 : list L3VNI) (l2 : list L2VNI)
    (pt : list v1alpha1.L3Passthrough) : ApiConfigData :=
  {| UnderlayFromMultus := false; NodeIndex := 0; LogLevel := "";
     Underlays := us; L3VNIs := l3; L2VNIs := l2; L3Passthrough := pt |}.

(** ** The status side *)

(** A manager of the node [worker] with nothing in its cache and room in
    its channel. *)
Definition idleManager : StatusManager :=
  {| triggerChannel := []; triggerCapacity := 100;
     nodeName := "worker"; namespace := "openperouter-system";
     failedResourceCache := ∅; now := 1000 |}.

Definition someClock : Clock := {| metav1_Now := 2000; time_Now := 2001 |}.

(** The status of a node without failures, as written at the times given. *)
Definition healthyStatus (written transition : Z) : RouterNodeConfigurationStatusStatus :=
  {| status_LastUpdateTime := Some written;
     status_FailedResources := Some [];
     status_Conditions :=
       Some [ {| Type_ := "Ready"; Status := "True"; ObservedGeneration := 0;
                 LastTransitionTime := transition; Reason := "ConfigurationSuccessful";
                 Message := "All OpenPERouter configurations are successful" |};
              {| Type_ := "Degraded"; Status := "False"; ObservedGeneration := 0;
                 LastTransitionTime := transition; Reason := "ConfigurationSuccessful";
                 Message := "All configurations are healthy" |} ] |}.

Definition storedStatus : RouterNodeConfigurationStatus :=
  {| obj_Name := "worker"; obj_Namespace := "openperouter-system";
     obj_OwnerReferences :=
       [ {| owner_APIVersion := "v1"; owner_Kind := "Node";
            owner_Name := "worker"; owner_UID := "uid-1" |} ];
     obj_Status := healthyStatus 1500 1400 |}.

(** A cluster that holds [storedStatus] and accepts every request. *)
Definition settledCluster : Client :=
  {| getStatus := fun _ _ _ => Found storedStatus;
     getNode := fun _ name => inl {| node_Name := name; node_UID := "uid-1" |};
     createAnswer := fun _ _ => None;
     patchAnswer := fun _ _ => None |}.

Definition workerReconciler : RouterNodeConfigurationStatusReconciler :=
  {| MyNode := "worker"; MyNamespace := "openperouter-system" |}.

(** ** The admission side *)

Definition redWith (cidr : string) : L3VNI :=
  l3vni "red" "red" 100 (Some (session 64514 64515 cidr "")).



End fixtures.

(* ===================================================================== *)
(** * The properties, as predicates *)
(* ===================================================================== *)

Module properties.
Import net conversion world hostnetwork apiconfig routerconfiguration.





(** The outcome [out] of a validation started on the reporter [sr]: an
    error comes with exactly one failure report, which carries that error
    and names one of [resources]; nil comes with no report at all. *)
Definition reportsOnce {R} `{StatusReporter R} (resources : list (ResourceKind * string))
    (sr : R) (out : option error * R) : Prop :=
  match out with
  | (Some err, sr') =>
      exists kind resourceName,
        (kind, resourceName) ∈ resources
        /\ sr' = ReportResourceFailure kind resourceName err sr
  | (None, sr') => sr' = sr
  end.

Definition underlayResources (underlays : list Underlay) : list (ResourceKind * string) :=
  map (fun u => (UnderlayKind, Underlay_Name u)) underlays.

Definition l3vniResources (l3Vnis : list L3VNI) : list (ResourceKind * string) :=
  map (fun v => (L3VNIKind, L3VNI_Name v)) l3Vnis.

Definition l2vniResources (l2Vnis : list L2VNI) : list (ResourceKind * string) :=
  map (fun v => (L2VNIKind, L2VNI_Name v)) l2Vnis.

Definition passthroughResources (l3Passthrough : list v1alpha1.L3Passthrough)
    : list (ResourceKind * string) :=
  map (fun p => (L3PassthroughKind, L3Passthrough_Name p)) l3Passthrough.

(** ** Host sessions *)

(** The local CIDR a session gives for a family; empty when it gives
    none. *)
Definition cidrV4 (s : hostSessionInfo) : string := IPv4 (LocalCIDR (session s)).
Definition cidrV6 (s : hostSessionInfo) : string := IPv6 (LocalCIDR (session s)).

(** Symmetric containment: both CIDRs parse and the network of one
    contains the address of the other. *)
Definition overlaps `{Net} (cidr1 cidr2 : string) : Prop :=
  exists ip1 ipNet1 ip2 ipNet2,
    ParseCIDR cidr1 = Some (ip1, ipNet1)
    /\ ParseCIDR cidr2 = Some (ip2, ipNet2)
    /\ (Contains ipNet1 ip2 = true \/ Contains ipNet2 ip1 = true).

Definition familyOverlap `{Net} (fam : hostSessionInfo -> string)
    (s t : hostSessionInfo) : Prop :=
  fam s <> "" /\ fam t <> "" /\ overlaps (fam s) (fam t).

(** Two sessions overlap in a family; CIDRs of different families are
    never compared. *)
Definition sameFamilyOverlap `{Net} (s t : hostSessionInfo) : Prop :=
  familyOverlap cidrV4 s t \/ familyOverlap cidrV6 s t.

(** What makes a session invalid by itself. *)
Definition sessionDefect `{Net} (s : hostSessionInfo) : Prop :=
  HostASN (session s) = ASN (session s)
  \/ (cidrV4 s = "" /\ cidrV6 s = "")
  \/ (cidrV4 s <> "" /\ ParseCIDR (cidrV4 s) = None)
  \/ (cidrV6 s <> "" /\ ParseCIDR (cidrV6 s) = None).

(** A session that is valid by itself: distinct ASNs, a CIDR for at least
    one family, and every CIDR it gives parses. *)
Definition sessionSound `{Net} (s : hostSessionInfo) : Prop :=
  HostASN (session s) <> ASN (session s)
  /\ (cidrV4 s <> "" \/ cidrV6 s <> "")
  /\ (cidrV4 s <> "" -> is_Some (ParseCIDR (cidrV4 s)))
  /\ (cidrV6 s <> "" -> is_Some (ParseCIDR (cidrV6 s))).

(** Two sessions of the list, the first processed before the second,
    overlap in a family. *)
Definition hasOverlap `{Net} (hostSessions : list hostSessionInfo) : Prop :=
  exists i j s t,
    (i < j)%nat /\ hostSessions !! i = Some s /\ hostSessions !! j = Some t
    /\ sameFamilyOverlap s t.

(** The map of a family holds the CIDRs of that family given by the
    sessions processed so far, and nothing else. *)
Definition covers (fam : hostSessionInfo -> string) (pre : list hostSessionInfo)
    (m : gmap string string) : Prop :=
  forall u, u ∈ pre -> fam u <> "" -> is_Some (m !! fam u).

Definition within (fam : hostSessionInfo -> string) (pre : list hostSessionInfo)
    (m : gmap string string) : Prop :=
  forall k, is_Some (m !! k) -> exists u, u ∈ pre /\ fam u = k /\ k <> "".

(** ** The pipeline *)

(** A computation only adds effects, and only effects that satisfy
    [p]. *)
Definition appends `{Types} {R A} (p : Effect -> bool) (m : M R A) : Prop :=
  forall w r w',
    m w = (r, w') ->
    exists ext, effects w' = effects w ++ ext /\ forallb p ext = true.

(** A computation returns no error outside of [Q]. *)
Definition failsOnly `{Types} {R A} (Q : error -> Prop) (m : M R A) : Prop :=
  forall w e w', m w = (Err e, w') -> Q e.

(** The VNI numbers the declared L3VNIs and L2VNIs ask for. *)
Definition declaredVNIs (c : ApiConfigData) : list Z :=
  map (fun l => L3VNI_VNI (L3VNI_Spec l)) (L3VNIs c)
  ++ map (fun l => L2VNI_VNI (L2VNI_Spec l)) (L2VNIs c).

(** Modelled from the spec: [conversion.APItoHostConfig], which is not
    part of the sources, makes one descriptor per declared L3VNI and
    L2VNI, keyed by VNI, and none besides. *)
Definition converterAddsNoVNI `{Environment} : Prop :=
  forall nodeIndex ns api hostConfig,
    APItoHostConfig nodeIndex ns api = inl hostConfig ->
    forall n, In n (map VNI (toCheck hostConfig)) -> In n (declaredVNIs api).

(** ** The Status Aggregator *)

(** The channel of [er'] is that of [er] with one trigger more when the
    buffer of [er] had room, and that of [er] as it was when it was full. *)
Definition triggersOnce (er er' : StatusManager.StatusManager) : Prop :=
  StatusManager.triggerChannel er'
  = if (length (StatusManager.triggerChannel er) <? StatusManager.triggerCapacity er)%nat
    then StatusManager.triggerChannel er ++ [StatusManager.triggerFor er]
    else StatusManager.triggerChannel er.

End properties.

(* ===================================================================== *)
(** * Further properties, as predicates *)
(* ===================================================================== *)

Module laws.
Import net ipfamily conversion.

(** The bytes of a string. *)
Fixpoint bytesOf (s : string) : list ascii :=
  match s with
  | EmptyString => []
  | String c rest => c :: bytesOf rest
  end.

(** The entries of a kind that [validateVNIs] accepts: every VRF name is a
    valid interface name, and no VRF name and no VNI number occurs twice. *)
Definition vnisSound (vnis : list vni) : Prop :=
  Forall (fun v => isValidInterfaceName (vrfName v) = None) vnis
  /\ NoDup (map vrfName vnis)
  /\ NoDup (map vni_vni vnis).

(** What the L2-specific part of [ValidateL2VNIs] asks of an L2VNI: a host
    master with a name has a valid one, and gateway addresses, when there
    are any, are accepted by [ForCIDRStrings]. *)
Definition l2Sound `{IPFamily} (v : L2VNI) : Prop :=
  (forall hm, L2VNI_HostMaster (L2VNI_Spec v) = Some hm ->
              HostMaster_Name hm <> "" ->
              isValidInterfaceName (HostMaster_Name hm) = None)
  /\ (L2GatewayIPs (L2VNI_Spec v) <> [] ->
      ForCIDRStrings (L2GatewayIPs (L2VNI_Spec v)) = None).

(** What [ValidateUnderlays] asks of the one underlay. *)
Definition underlaySound `{Net} (u : Underlay) : Prop :=
  Underlay_ASN (Underlay_Spec u) <> 0
  /\ Forall (fun n => Neighbor_ASN n <> Underlay_ASN (Underlay_Spec u))
       (Neighbors (Underlay_Spec u))
  /\ (forall evpn, EVPN (Underlay_Spec u) = Some evpn -> is_Some (ParseCIDR (VTEPCIDR evpn)))
  /\ (length (Nics (Underlay_Spec u)) <= 1)%nat
  /\ Forall (fun n => isValidInterfaceName n = None) (Nics (Underlay_Spec u)).

(** ** The Status Aggregator *)

(** A sequence of calls of the reporter interface, made one after the
    other. *)
Definition replay {R} `{StatusReporter R} (calls : list ReportCall) (sr : R) : R :=
  fold_left
    (fun sr c =>
       match c with
       | CallSuccess kind resourceName => ReportResourceSuccess kind resourceName sr
       | CallFailure kind resourceName err => ReportResourceFailure kind resourceName err sr
       | CallRemoved kind resourceName => ReportResourceRemoved kind resourceName sr
       end)
    calls sr.

(** Every entry of the cache of failures is stored under the key made of
    its own kind and name. *)
Definition wellKeyed (er : StatusManager.StatusManager) : Prop :=
  forall k e,
    StatusManager.failedResourceCache er !! k = Some e ->
    k = StatusManager.cacheKey (StatusManager.ResourceKind e) (StatusManager.ResourceName e).

(** What the summary says of an entry of the cache. *)
Definition infoOf (e : StatusManager.failedResourceCacheEntry)
    : StatusManager.FailedResourceInfo :=
  {| StatusManager.info_Kind := StatusManager.ResourceKind e;
     StatusManager.info_Name := StatusManager.ResourceName e;
     StatusManager.info_ErrorMessage := StatusManager.ErrorMessage e |}.

(** The key under which the resource of a summary line is cached. *)
Definition keyOf (info : StatusManager.FailedResourceInfo) : string :=
  StatusManager.cacheKey (StatusManager.info_Kind info) (StatusManager.info_Name info).

(** The failed resources the summary of a manager lists. *)
Definition failedIn (er : StatusManager.StatusManager) (info : StatusManager.FailedResourceInfo)
    : Prop :=
  info ∈ StatusManager.FailedResources (StatusManager.GetStatusSummary er).

(** A string without the separator of the cache keys. *)
Definition noColon (s : string) : Prop := ":"%char ∉ bytesOf s.

(** ** The controller *)

(** A resource that is still declared: its kind is one of the four and its
    name is that of a resource of the listing of that kind. *)
Definition stillDeclared (underlays : list Underlay) (l3vnis : list L3VNI)
    (l2vnis : list L2VNI) (l3passthrough : list v1alpha1.L3Passthrough)
    (kind : ResourceKind) (resourceName : string) : Prop :=
  (kind = UnderlayKind /\ resourceName ∈ map Underlay_Name underlays)
  \/ (kind = L3VNIKind /\ resourceName ∈ map L3VNI_Name l3vnis)
  \/ (kind = L2VNIKind /\ resourceName ∈ map L2VNI_Name l2vnis)
  \/ (kind = L3PassthroughKind /\ resourceName ∈ map L3Passthrough_Name l3passthrough).

(** ** Scenarios of the controller *)

(** A pod with the two conditions the controller looks at. *)
Definition podWith (ready containersReady : string) : k8s.Pod :=
  {| k8s.pod_Name := "router-worker";
     k8s.pod_Namespace := "openperouter-system";
     k8s.pod_UID := "uid-2";
     k8s.pod_Conditions :=
       [ {| k8s.cond_Type := k8s.PodReady; k8s.cond_Status := ready |};
         {| k8s.cond_Type := k8s.ContainersReady; k8s.cond_Status := containersReady |} ] |}.

(** A router whose namespace is [ns], whose restart succeeds, and that
    answers [canReconcile]. *)
Definition routerOf (canReconcile : bool * option error) : controller.Router :=
  {| controller.TargetNS := inl "ns";
     controller.router_CanReconcile := canReconcile;
     controller.HandleNonRecoverableError := None |}.

(** The reconciler of the node [worker], with the router and the listings
    given. *)
Definition nodeReconciler (p : bool * option error) (underlays : list Underlay)
    (l3vnis : list L3VNI) (l2vnis : list L2VNI) (l3passthrough : list v1alpha1.L3Passthrough)
    : controller.PERouterReconciler :=
  {| controller.MyNode := "worker";
     controller.MyNamespace := "openperouter-system";
     controller.reconciler_LogLevel := "info";
     controller.reconciler_UnderlayFromMultus := false;
     controller.FRRConfigPath := "/etc/frr/frr.conf";
     controller.FRRReloadSocket := "/etc/frr/frr.socket";
     controller.provider :=
       {| controller.provider_NodeIndex := inl 0; controller.New := inl (routerOf p) |};
     controller.listUnderlays := inl underlays;
     controller.listL3VNIs := inl l3vnis;
     controller.listL2VNIs := inl l2vnis;
     controller.listL3Passthroughs := inl l3passthrough |}.

(** A world whose reporter is a [StatusManager] with two failures in its
    cache. *)
Definition twoFailures : StatusManager.StatusManager :=
  @replay _ (@StatusManager.StatusManager_reporter fixtures.plainErrors)
    [CallFailure L3VNIKind "red" (errorString "no bridge");
     CallFailure L2VNIKind "gone" (errorString "no bridge")] fixtures.idleManager.

(** ** Scenarios of the Status Reconciler *)

(** The object the last [Create] among the requests carries. *)
Fixpoint createdIn (sent : list statuscontroller.Request)
    : option statuscontroller.RouterNodeConfigurationStatus :=
  match sent with
  | [] => None
  | statuscontroller.Create obj :: rest =>
      match createdIn rest with
      | Some later => Some later
      | None => Some obj
      end
  | _ :: rest => createdIn rest
  end.

(** A cluster that has no status object until one is created, and then
    holds the one created. *)
Definition freshCluster : statuscontroller.Client :=
  {| statuscontroller.getStatus sent _ _ :=
       match createdIn sent with
       | Some obj => statuscontroller.Found obj
       | None => statuscontroller.NotFound (errorString "not found")
       end;
     statuscontroller.getNode _ name :=
       inl {| statuscontroller.node_Name := name; statuscontroller.node_UID := "uid-1" |};
     statuscontroller.createAnswer _ _ := None;
     statuscontroller.patchAnswer _ _ := None |}.

(** ** Admission *)

(** Two L3VNIs are versions of one object: same name, same namespace. *)
Definition sameObject (a b : L3VNI) : Prop :=
  L3VNI_Name a = L3VNI_Name b /\ L3VNI_Namespace a = L3VNI_Namespace b.

(** The host session of an L3VNI and of an L3Passthrough, as
    [ValidateHostSessions] collects them. *)
Definition l3vniSession (l3vni : L3VNI) (hs : HostSession) : hostSessionInfo :=
  {| session := hs; resourceKind := L3VNIKind; resourceName := L3VNI_Name l3vni |}.

Definition passthroughSession (p : v1alpha1.L3Passthrough) : hostSessionInfo :=
  {| session := L3Passthrough_HostSession (L3Passthrough_Spec p);
     resourceKind := L3PassthroughKind;
     resourceName := L3Passthrough_Name p |}.

(** A cluster with one L3VNI and one L3Passthrough, each with a host
    session. *)
Definition busyCluster : webhooks.Existing :=
  {| webhooks.getL3VNIs :=
       inl [fixtures.l3vni "blue" "blue" 200
              (Some (fixtures.session 64514 64515 "192.168.20.0/24" ""))];
     webhooks.getL3Passthroughs :=
       inl [ {| L3Passthrough_Name := "passthrough";
                L3Passthrough_Spec :=
                  {| L3Passthrough_HostSession :=
                       fixtures.session 64514 64516 "192.168.30.0/24" "" |} |} ];
     webhooks.ValidateL3VNIs :=
       fun l => fst (@conversion.ValidateL3VNIs _ NoOpStatusReporter_reporter l tt) |}.

(** ** The reports of the pipeline *)

(** A computation changes the status reporter only through calls of its
    interface, each of which satisfies [P]. *)
Definition reportsOnly `{hostnetwork.Types} {R A} `{StatusReporter R}
    (P : ReportCall -> Prop) (m : world.M R A) : Prop :=
  forall w r w',
    m w = (r, w') ->
    exists calls, world.reporter w' = replay calls (world.reporter w) /\ Forall P calls.

(** A call reports the success or the failure of a declared resource. *)
Definition concernsDeclared (underlays : list Underlay) (l3vnis : list L3VNI)
    (l2vnis : list L2VNI) (l3passthrough : list v1alpha1.L3Passthrough)
    (c : ReportCall) : Prop :=
  match c with
  | CallSuccess kind resourceName | CallFailure kind resourceName _ =>
      stillDeclared underlays l3vnis l2vnis l3passthrough kind resourceName
  | CallRemoved _ _ => False
  end.

(** Every entry of the cache of failures is that of a declared
    resource. *)
Definition cachesOnlyDeclared (underlays : list Underlay) (l3vnis : list L3VNI)
    (l2vnis : list L2VNI) (l3passthrough : list v1alpha1.L3Passthrough)
    (er : StatusManager.StatusManager) : Prop :=
  forall k e,
    StatusManager.failedResourceCache er !! k = Some e ->
    stillDeclared underlays l3vnis l2vnis l3passthrough
      (StatusManager.ResourceKind e) (StatusManager.ResourceName e).

End laws.

(* ===================================================================== *)
(** * Theorems *)
(* ===================================================================== *)

Import net ipfamily api fmt hostnetwork apiconfig world conversion.
Import routerconfiguration properties.

(** ** Uniqueness of VRF names and VNI numbers *)

Section ValidateVNIs.
Context {R : Type} `{StatusReporter R}.






End ValidateVNIs.

(** The validation of one kind returns what its common part returns when
    that part finds an error. *)
Lemma ValidateL3VNIs_common {R} `{StatusReporter R} (l3Vnis : list L3VNI) (sr : R) :
  ValidateL3VNIs l3Vnis sr = validateVNIs (vnisFromL3VNIs l3Vnis) L3VNIKind sr.
Proof. unfold ValidateL3VNIs. by destruct (validateVNIs _ _ _) as [[e |] r]. Qed.





(** ** Every validation error is reported once *)

Section ReportsOnce.
Context {R : Type} `{StatusReporter R}.

Lemma reportsOnce_incl (l l' : list (ResourceKind * string)) (sr : R) out :
  l ⊆ l' -> reportsOnce l sr out -> reportsOnce l' sr out.
Proof.
  intros Hsub. destruct out as [[err |] sr']; simpl; [| done].
  intros (k & n & Hin & ->). exists k, n. split; [by apply Hsub | done].
Qed.

Lemma validateVNIs_from_reportsOnce kind sr :
  forall vnis vrfs nums,
    reportsOnce (map (fun v => (kind, name v)) vnis) sr
      (validateVNIs_from vnis kind vrfs nums sr).
Proof.
  induction vnis as [| v rest IH]; intros vrfs nums; simpl; [done |].
  destruct (isValidInterfaceName (vrfName v)).
  { simpl. exists kind, (name v). split; [constructor | done]. }
  destruct (vrfs !! vrfName v).
  { simpl. exists kind, (name v). split; [constructor | done]. }
  destruct (nums !! vni_vni v).
  { simpl. exists kind, (name v). split; [constructor | done]. }
  eapply reportsOnce_incl; [| apply IH]. intros x Hx. by constructor.
Qed.

Lemma vnisFromL3VNIs_names (l3Vnis : list L3VNI) :
  map (fun v => (L3VNIKind, name v)) (vnisFromL3VNIs l3Vnis) = l3vniResources l3Vnis.
Proof. unfold vnisFromL3VNIs, l3vniResources. rewrite map_map. done. Qed.

Lemma vnisFromL2VNIs_names `{L2VNIMethods} (l2Vnis : list L2VNI) :
  map (fun v => (L2VNIKind, name v)) (vnisFromL2VNIs l2Vnis) = l2vniResources l2Vnis.
Proof. unfold vnisFromL2VNIs, l2vniResources. rewrite map_map. done. Qed.

Lemma ValidateL3VNIs_reportsOnce (l3Vnis : list L3VNI) (sr : R) :
  reportsOnce (l3vniResources l3Vnis) sr (ValidateL3VNIs l3Vnis sr).
Proof.
  rewrite ValidateL3VNIs_common, <- vnisFromL3VNIs_names.
  apply validateVNIs_from_reportsOnce.
Qed.

Lemma validateL2Specific_reportsOnce `{IPFamily} (sr : R) :
  forall l2Vnis, reportsOnce (l2vniResources l2Vnis) sr (validateL2Specific l2Vnis sr).
Proof.
  induction l2Vnis as [| v rest IH]; simpl; [done |].
  match goal with |- context [match ?hm with Some _ => _ | None => _ end] =>
    destruct hm end.
  { simpl. exists L2VNIKind, (L2VNI_Name v). split; [constructor | done]. }
  match goal with |- context [match ?gw with Some _ => _ | None => _ end] =>
    destruct gw end.
  { simpl. exists L2VNIKind, (L2VNI_Name v). split; [constructor | done]. }
  eapply reportsOnce_incl; [| apply IH]. intros x Hx. by constructor.
Qed.

Lemma ValidateL2VNIs_reportsOnce `{L2VNIMethods} `{IPFamily} (l2Vnis : list L2VNI) (sr : R) :
  reportsOnce (l2vniResources l2Vnis) sr (ValidateL2VNIs l2Vnis sr).
Proof.
  unfold ValidateL2VNIs.
  pose proof (validateVNIs_from_reportsOnce L2VNIKind sr (vnisFromL2VNIs l2Vnis) ∅ ∅) as Hc.
  rewrite vnisFromL2VNIs_names in Hc. fold (validateVNIs (vnisFromL2VNIs l2Vnis) L2VNIKind sr) in Hc.
  destruct (validateVNIs _ _ _) as [[err |] sr']; [done |].
  simpl in Hc. subst sr'. apply validateL2Specific_reportsOnce.
Qed.

Lemma validateUnderlays_from_reportsOnce `{Net} (sr : R) :
  forall underlays,
    reportsOnce (underlayResources underlays) sr (validateUnderlays_from underlays sr).
Proof.
  induction underlays as [| u rest IH]; simpl; [done |].
  destruct (underlayError u).
  { simpl. exists UnderlayKind, (Underlay_Name u). split; [constructor | done]. }
  eapply reportsOnce_incl; [| apply IH]. intros x Hx. by constructor.
Qed.

Lemma validateCIDR_range_reportsOnce `{Net} s cidr (sr : R) :
  forall entries,
    reportsOnce [(resourceKind s, resourceName s)] sr (validateCIDR_range s cidr entries sr).
Proof.
  induction entries as [| [existing existingVNI] rest IH]; simpl; [done |].
  destruct (cidrsOverlap existing cidr) as [[|] [err |]]; simpl;
    try (exists (resourceKind s), (resourceName s); split; [constructor | done]).
  apply IH.
Qed.

Lemma validateCIDR_reportsOnce `{Net} s cidr existingCIDRs (sr : R) :
  reportsOnce [(resourceKind s, resourceName s)] sr (validateCIDR s cidr existingCIDRs sr).
Proof.
  unfold validateCIDR. destruct (isValidCIDR cidr).
  - simpl. exists (resourceKind s), (resourceName s). split; [constructor | done].
  - apply validateCIDR_range_reportsOnce.
Qed.

Lemma validateHostSessions_from_reportsOnce `{Net} (sr : R) :
  forall hostSessions v4s v6s,
    reportsOnce (map (fun s => (resourceKind s, resourceName s)) hostSessions) sr
      (validateHostSessions_from hostSessions v4s v6s sr).
Proof.
  induction hostSessions as [| s rest IH]; intros v4s v6s; simpl; [done |].
  assert (Hhead : forall out, reportsOnce [(resourceKind s, resourceName s)] sr out ->
            reportsOnce ((resourceKind s, resourceName s)
                           :: map (fun s => (resourceKind s, resourceName s)) rest) sr out).
  { intros out. apply reportsOnce_incl. intros x Hx.
    apply list_elem_of_singleton in Hx as ->. constructor. }
  destruct (HostASN (session s) =? ASN (session s))%Z.
  { simpl. exists (resourceKind s), (resourceName s). split; [constructor | done]. }
  assert (H4 : reportsOnce [(resourceKind s, resourceName s)] sr
                 (if negb (String.eqb (IPv4 (LocalCIDR (session s))) "")
                  then validateCIDR s (IPv4 (LocalCIDR (session s))) v4s sr
                  else (None, sr))).
  { destruct (negb _); [apply validateCIDR_reportsOnce | done]. }
  destruct (if negb (String.eqb (IPv4 (LocalCIDR (session s))) "") then _ else _)
    as [[err4 |] sr4]; [by apply Hhead |].
  simpl in H4. subst sr4.
  assert (H6 : reportsOnce [(resourceKind s, resourceName s)] sr
                 (if negb (String.eqb (IPv6 (LocalCIDR (session s))) "")
                  then validateCIDR s (IPv6 (LocalCIDR (session s))) v6s sr
                  else (None, sr))).
  { destruct (negb _); [apply validateCIDR_reportsOnce | done]. }
  destruct (if negb (String.eqb (IPv6 (LocalCIDR (session s))) "") then _ else _)
    as [[err6 |] sr6]; [by apply Hhead |].
  simpl in H6. subst sr6.
  destruct (String.eqb (IPv4 (LocalCIDR (session s))) "" && _).
  { simpl. exists (resourceKind s), (resourceName s). split; [constructor | done]. }
  eapply reportsOnce_incl; [| apply IH]. intros x Hx. by constructor.
Qed.

Lemma collectHostSessions_resources l3VNIs l3Passthrough :
  map (fun s => (resourceKind s, resourceName s)) (collectHostSessions l3VNIs l3Passthrough)
  ⊆ l3vniResources l3VNIs ++ passthroughResources l3Passthrough.
Proof.
  unfold collectHostSessions. rewrite map_app. intros x Hx.
  apply elem_of_app in Hx as [Hx | Hx]; apply elem_of_app; [left | right].
  - apply list_elem_of_fmap in Hx as (s & -> & Hs).
    apply list_elem_of_omap in Hs as (v & Hv & Hs).
    destruct (L3VNI_HostSession (L3VNI_Spec v)); [| done].
    injection Hs as <-. simpl. unfold l3vniResources.
    apply list_elem_of_fmap. by exists v.
  - rewrite map_map in Hx. done.
Qed.

Lemma ValidateHostSessions_reportsOnce `{Net} l3VNIs l3Passthrough (sr : R) :
  reportsOnce (l3vniResources l3VNIs ++ passthroughResources l3Passthrough) sr
    (ValidateHostSessions l3VNIs l3Passthrough sr).
Proof.
  eapply reportsOnce_incl; [apply collectHostSessions_resources |].
  apply validateHostSessions_from_reportsOnce.
Qed.

End ReportsOnce.




(** ** An underlay without an ASN *)

(** C9, as the code has it: a list that holds an underlay whose ASN is 0
    never passes [ValidateUnderlays]; when it is the only underlay, the
    failure is reported against it with the error returned. *)
Theorem zero_asn_underlay_rejected {R} `{StatusReporter R} `{Net}
    (underlays : list Underlay) (u : Underlay) (sr : R) :
  u ∈ underlays ->
  Underlay_ASN (Underlay_Spec u) = 0 ->
  (exists err, fst (ValidateUnderlays underlays sr) = Some err)
  /\ ((length underlays <= 1)%nat ->
      let err := fmtError "underlay %s must have a valid ASN" [ArgS (Underlay_Name u)] in
      ValidateUnderlays underlays sr
      = (Some err, ReportResourceFailure UnderlayKind (Underlay_Name u) err sr)).
Proof.
  intros Hin Hasn.
  assert (Hone : (length underlays <= 1)%nat ->
            ValidateUnderlays underlays sr
            = (Some (fmtError "underlay %s must have a valid ASN" [ArgS (Underlay_Name u)]),
               ReportResourceFailure UnderlayKind (Underlay_Name u)
                 (fmtError "underlay %s must have a valid ASN" [ArgS (Underlay_Name u)]) sr)).
  { intros Hlen. destruct underlays as [| x [| y rest]]; simpl in Hlen; [inversion Hin | | lia].
    apply list_elem_of_singleton in Hin as ->.
    unfold ValidateUnderlays. simpl. unfold underlayError. rewrite Hasn. reflexivity. }
  split; [| exact Hone].
  destruct (Nat.le_gt_cases (length underlays) 1) as [Hlen | Hlen].
  - rewrite (Hone Hlen). eauto.
  - unfold ValidateUnderlays. apply Nat.ltb_lt in Hlen. rewrite Hlen. eauto.
Qed.

Lemma zero_asn_underlay_rejected_witness :
  (exists err,
      fst (@ValidateUnderlays _ RecordingReporter fixtures.ipv4Net
             [fixtures.underlay "test-underlay" 0 ["toswitch"]] []) = Some err)
  /\ @ValidateUnderlays _ RecordingReporter fixtures.ipv4Net
       [fixtures.underlay "test-underlay" 0 ["toswitch"]] []
     = (Some (fmtError "underlay %s must have a valid ASN" [ArgS "test-underlay"]),
        [CallFailure UnderlayKind "test-underlay"
           (fmtError "underlay %s must have a valid ASN" [ArgS "test-underlay"])]).
Proof.
  destruct (@zero_asn_underlay_rejected _ RecordingReporter fixtures.ipv4Net
              [fixtures.underlay "test-underlay" 0 ["toswitch"]]
              (fixtures.underlay "test-underlay" 0 ["toswitch"]) [])
    as [Herr Hreport].
  - constructor.
  - reflexivity.
  - split; [exact Herr |]. apply Hreport. simpl. lia.
Defined.

(** C9 as stated fails: next to a second underlay, the underlay without an
    ASN is not reported; the call returns the error about the number of
    underlays and the reporter is not called. *)
Lemma zero_asn_among_two_not_reported :
  Underlay_ASN (Underlay_Spec (fixtures.underlay "no-asn" 0 ["eth0"])) = 0
  /\ @ValidateUnderlays _ RecordingReporter fixtures.ipv4Net
       [fixtures.underlay "no-asn" 0 ["eth0"]; fixtures.underlay "other" 64515 ["eth1"]] []
     = (Some (fmtError "can't have more than one underlay" []), []).
Proof. split; reflexivity. Qed.

(** ** Host sessions *)

Section HostSessions.
Context `{Net} {R : Type} `{StatusReporter R}.

Lemma cidrsOverlap_overlaps k c :
  overlaps k c -> cidrsOverlap k c = (true, None).
Proof.
  intros (ip1 & n1 & ip2 & n2 & Hk & Hc & Hcont). unfold cidrsOverlap.
  rewrite Hk, Hc. destruct Hcont as [-> | ->]; [done |].
  by rewrite orb_true_r.
Qed.

Lemma cidrsOverlap_disjoint k c :
  is_Some (ParseCIDR k) -> is_Some (ParseCIDR c) -> ~ overlaps k c ->
  cidrsOverlap k c = (false, None).
Proof.
  intros [[ip1 n1] Hk] [[ip2 n2] Hc] Hno. unfold cidrsOverlap. rewrite Hk, Hc.
  destruct (Contains n1 ip2 || Contains n2 ip1) eqn:E; [| done].
  exfalso. apply Hno. exists ip1, n1, ip2, n2. repeat split; [done | done |].
  by apply orb_true_iff in E.
Qed.

Lemma validateCIDR_range_passes s cidr (sr : R) :
  forall entries,
    (forall e, e ∈ entries -> cidrsOverlap e.1 cidr = (false, None)) ->
    validateCIDR_range s cidr entries sr = (None, sr).
Proof.
  induction entries as [| [k v] rest IH]; intros Hall; simpl; [done |].
  pose proof (Hall (k, v) ltac:(constructor)) as Hkv. simpl in Hkv. rewrite Hkv.
  apply IH. intros e He. apply Hall. by constructor.
Qed.

Lemma validateCIDR_range_fails s cidr (sr : R) :
  forall entries e,
    e ∈ entries -> cidrsOverlap e.1 cidr <> (false, None) ->
    exists err sr', validateCIDR_range s cidr entries sr = (Some err, sr').
Proof.
  induction entries as [| [k v] rest IH]; intros e He Hne; [inversion He |].
  simpl. destruct (cidrsOverlap k cidr) as [[|] [err |]] eqn:E; eauto.
  apply (IH e); [| done].
  apply elem_of_cons in He as [-> | He]; [| done].
  simpl in Hne. congruence.
Qed.

Lemma validateCIDR_passes s cidr (m : gmap string string) (sr : R) :
  cidr <> "" -> is_Some (ParseCIDR cidr) ->
  (forall k, is_Some (m !! k) -> is_Some (ParseCIDR k) /\ ~ overlaps k cidr) ->
  validateCIDR s cidr m sr = (None, sr).
Proof.
  intros Hne [p Hp] Hkeys. unfold validateCIDR, isValidCIDR.
  apply String.eqb_neq in Hne. rewrite Hne, Hp.
  apply validateCIDR_range_passes. intros [k v] Hin.
  apply elem_of_map_to_list in Hin.
  destruct (Hkeys k) as [Hk Hno]; [eauto |].
  apply cidrsOverlap_disjoint; eauto.
Qed.

Lemma validateCIDR_unparsable s cidr (m : gmap string string) (sr : R) :
  ParseCIDR cidr = None -> exists err sr', validateCIDR s cidr m sr = (Some err, sr').
Proof.
  intros Hp. unfold validateCIDR, isValidCIDR. rewrite Hp.
  destruct (String.eqb cidr ""); eauto.
Qed.

Lemma validateCIDR_overlapping s cidr (m : gmap string string) (sr : R) k :
  is_Some (m !! k) -> overlaps k cidr ->
  exists err sr', validateCIDR s cidr m sr = (Some err, sr').
Proof.
  intros [v Hk] Hov. unfold validateCIDR. destruct (isValidCIDR cidr); [eauto |].
  apply (validateCIDR_range_fails s cidr sr _ (k, v)).
  - by apply elem_of_map_to_list.
  - simpl. rewrite (cidrsOverlap_overlaps _ _ Hov). discriminate.
Qed.

Lemma covers_empty fam : covers fam [] ∅.
Proof. intros u Hu. inversion Hu. Qed.

Lemma within_empty fam : within fam [] ∅.
Proof. intros k [v Hv]. by rewrite lookup_empty in Hv. Qed.

Lemma covers_step fam pre m s n :
  covers fam pre m ->
  covers fam (pre ++ [s]) (if negb (String.eqb (fam s) "") then <[fam s := n]> m else m).
Proof.
  intros Hc u Hu Hne. apply elem_of_app in Hu as [Hu | Hu].
  - specialize (Hc u Hu Hne). destruct (negb _); [| done].
    rewrite lookup_insert. case_decide; eauto.
  - apply list_elem_of_singleton in Hu as ->.
    apply String.eqb_neq in Hne. rewrite Hne. simpl.
    rewrite lookup_insert_eq. eauto.
Qed.

Lemma within_step fam pre m s n :
  within fam pre m ->
  within fam (pre ++ [s]) (if negb (String.eqb (fam s) "") then <[fam s := n]> m else m).
Proof.
  intros Hw k Hk.
  assert (Hold : is_Some (m !! k) -> exists u, u ∈ pre ++ [s] /\ fam u = k /\ k <> "").
  { intros Hm. destruct (Hw k Hm) as (u & Hu & Hf & Hne).
    exists u. split; [apply elem_of_app; by left | done]. }
  destruct (String.eqb (fam s) "") eqn:E; simpl in Hk; [by apply Hold |].
  rewrite lookup_insert in Hk. case_decide as Ek; [| by apply Hold].
  exists s. split; [apply elem_of_app; right; constructor |]. split; [done |].
  subst k. by apply String.eqb_neq.
Qed.

Lemma validateHostSessions_from_passes (sr : R) :
  forall rest pre m4 m6,
    within cidrV4 pre m4 -> within cidrV6 pre m6 ->
    Forall sessionSound (pre ++ rest) ->
    ~ hasOverlap (pre ++ rest) ->
    validateHostSessions_from rest m4 m6 sr = (None, sr).
Proof.
  induction rest as [| s rest IH]; intros pre m4 m6 Hw4 Hw6 Hsound Hno; [done |].
  assert (Hat : (pre ++ s :: rest) !! length pre = Some s).
  { rewrite lookup_app_r by lia. by rewrite Nat.sub_diag. }
  assert (Hbefore : forall fam m k,
            within fam pre m -> is_Some (m !! k) ->
            exists i u, (i < length pre)%nat /\ (pre ++ s :: rest) !! i = Some u
                        /\ fam u = k /\ k <> "" /\ sessionSound u).
  { intros fam m k Hw Hk. destruct (Hw k Hk) as (u & Hu & Hf & Hne).
    apply list_elem_of_lookup in Hu as [i Hi]. exists i, u.
    split; [by eapply lookup_lt_Some |].
    assert (Hl : (pre ++ s :: rest) !! i = Some u) by (by apply lookup_app_l_Some).
    split; [done |]. split; [done |]. split; [done |].
    rewrite Forall_lookup in Hsound. by apply (Hsound i). }
  assert (Hs : sessionSound s) by (rewrite Forall_lookup in Hsound; by apply (Hsound _ _ Hat)).
  destruct Hs as (Hasn & Hsome & Hp4 & Hp6).
  unfold cidrV4, cidrV6 in *. simpl.
  apply Z.eqb_neq in Hasn. rewrite Hasn.
  assert (E4 : (if negb (String.eqb (IPv4 (LocalCIDR (session s))) "")
                then validateCIDR s (IPv4 (LocalCIDR (session s))) m4 sr
                else (None, sr)) = (None, sr)).
  { destruct (String.eqb (IPv4 (LocalCIDR (session s))) "") eqn:E; simpl; [done |].
    apply String.eqb_neq in E. apply validateCIDR_passes; [done | by apply Hp4 |].
    intros k Hk. destruct (Hbefore _ _ _ Hw4 Hk) as (i & u & Hi & Hl & Hf & Hne & Hu).
    simpl in Hf. subst k. split; [by apply Hu |].
    intros Hov. apply Hno. exists i, (length pre), u, s.
    repeat split; [done | done | done |]. left. done. }
  rewrite E4.
  assert (E6 : (if negb (String.eqb (IPv6 (LocalCIDR (session s))) "")
                then validateCIDR s (IPv6 (LocalCIDR (session s))) m6 sr
                else (None, sr)) = (None, sr)).
  { destruct (String.eqb (IPv6 (LocalCIDR (session s))) "") eqn:E; simpl; [done |].
    apply String.eqb_neq in E. apply validateCIDR_passes; [done | by apply Hp6 |].
    intros k Hk. destruct (Hbefore _ _ _ Hw6 Hk) as (i & u & Hi & Hl & Hf & Hne & Hu).
    simpl in Hf. subst k. split; [by apply Hu |].
    intros Hov. apply Hno. exists i, (length pre), u, s.
    repeat split; [done | done | done |]. right. done. }
  rewrite E6.
  assert (Eboth : String.eqb (IPv4 (LocalCIDR (session s))) ""
                  && String.eqb (IPv6 (LocalCIDR (session s))) "" = false).
  { destruct Hsome as [Hne | Hne]; apply String.eqb_neq in Hne; rewrite Hne; [done |].
    by rewrite andb_false_r. }
  rewrite Eboth.
  apply (IH (pre ++ [s])).
  - apply (within_step cidrV4). exact Hw4.
  - apply (within_step cidrV6). exact Hw6.
  - by rewrite <- app_assoc.
  - by rewrite <- app_assoc.
Qed.

Lemma validateHostSessions_from_fails :
  forall rest pre m4 m6 (sr : R),
    covers cidrV4 pre m4 -> covers cidrV6 pre m6 ->
    (Exists sessionDefect rest
     \/ exists i j s t,
          (i < j)%nat /\ (length pre <= j)%nat
          /\ (pre ++ rest) !! i = Some s /\ (pre ++ rest) !! j = Some t
          /\ sameFamilyOverlap s t) ->
    exists err, fst (validateHostSessions_from rest m4 m6 sr) = Some err.
Proof.
  induction rest as [| s rest IH]; intros pre m4 m6 sr Hc4 Hc6 Hbad.
  { destruct Hbad as [Hex | (i & j & a & b & Hij & Hj & Ha & Hb & Hov)]; [inversion Hex |].
    rewrite app_nil_r in Hb. apply lookup_lt_Some in Hb. lia. }
  assert (Hat : (pre ++ s :: rest) !! length pre = Some s).
  { rewrite lookup_app_r by lia. by rewrite Nat.sub_diag. }
  unfold cidrV4, cidrV6 in *. simpl.
  destruct (HostASN (session s) =? ASN (session s))%Z eqn:Easn; [simpl; eauto |].
  destruct (if negb (String.eqb (IPv4 (LocalCIDR (session s))) "")
            then validateCIDR s (IPv4 (LocalCIDR (session s))) m4 sr
            else (None, sr)) as [[e4 |] sr4] eqn:E4; [simpl; eauto |].
  destruct (if negb (String.eqb (IPv6 (LocalCIDR (session s))) "")
            then validateCIDR s (IPv6 (LocalCIDR (session s))) m6 sr4
            else (None, sr4)) as [[e6 |] sr6] eqn:E6; [simpl; eauto |].
  destruct (String.eqb (IPv4 (LocalCIDR (session s))) ""
            && String.eqb (IPv6 (LocalCIDR (session s))) "") eqn:Eboth; [simpl; eauto |].
  apply (IH (pre ++ [s])).
  { apply (covers_step cidrV4). exact Hc4. }
  { apply (covers_step cidrV6). exact Hc6. }
  destruct Hbad as [Hex | (i & j & a & b & Hij & Hj & Ha & Hb & Hov)].
  - apply Exists_cons in Hex as [Hdef | Hex]; [exfalso | by left].
    destruct Hdef as [Ha | [[H4e H6e] | [[Hne Hp] | [Hne Hp]]]];
      unfold cidrV4, cidrV6 in *; simpl in *.
    + apply Z.eqb_neq in Easn. done.
    + rewrite H4e, H6e in Eboth. discriminate.
    + apply String.eqb_neq in Hne. rewrite Hne in E4. simpl in E4.
      destruct (validateCIDR_unparsable s _ m4 sr Hp) as (err & sr' & Hf). congruence.
    + apply String.eqb_neq in Hne. rewrite Hne in E6. simpl in E6.
      destruct (validateCIDR_unparsable s _ m6 sr4 Hp) as (err & sr' & Hf). congruence.
  - right. destruct (decide (j = length pre)) as [-> | Hjne].
    + exfalso. rewrite Hat in Hb. injection Hb as <-.
      assert (Hain : a ∈ pre).
      { apply list_elem_of_lookup. exists i. by rewrite lookup_app_l in Ha by lia. }
      destruct Hov as [(Hna & Hns & Hov) | (Hna & Hns & Hov)];
        unfold cidrV4, cidrV6 in *; simpl in *.
      * apply String.eqb_neq in Hns. rewrite Hns in E4. simpl in E4.
        destruct (validateCIDR_overlapping s _ m4 sr _ (Hc4 a Hain Hna) Hov)
          as (err & sr' & Hf). congruence.
      * apply String.eqb_neq in Hns. rewrite Hns in E6. simpl in E6.
        destruct (validateCIDR_overlapping s _ m6 sr4 _ (Hc6 a Hain Hna) Hov)
          as (err & sr' & Hf). congruence.
    + exists i, j, a, b. rewrite <- app_assoc, length_app. simpl.
      repeat split; [done | lia | done | done | done].
Qed.

End HostSessions.


(** ** The pipeline: how computations compose *)

Section Pipeline.
Context {types : Types} {env : Environment} {R : Type} {rep : StatusReporter R}.

Lemma bind_Ok_inv {A B} (m : M R A) (k : A -> M R B) w b w' :
  bind m k w = (Ok b, w') ->
  exists a w1, m w = (Ok a, w1) /\ k a w1 = (Ok b, w').
Proof.
  unfold bind. destruct (m w) as [[a | e] w1]; [eauto | discriminate].
Qed.

Lemma forallb_app_true (p : Effect -> bool) l1 l2 :
  forallb p l1 = true -> forallb p l2 = true -> forallb p (l1 ++ l2) = true.
Proof. intros H1 H2. rewrite forallb_app, H1, H2. done. Qed.

Lemma appends_ret {A} p (a : A) : appends p (ret (R := R) a).
Proof. intros w r w' [= <- <-]. exists []. by rewrite app_nil_r. Qed.

Lemma appends_fail {A} p e : appends p (fail (R := R) (A := A) e).
Proof. intros w r w' [= <- <-]. exists []. by rewrite app_nil_r. Qed.

Lemma appends_bind {A B} p (m : M R A) (k : A -> M R B) :
  appends p m -> (forall a, appends p (k a)) -> appends p (bind m k).
Proof.
  intros Hm Hk w r w'. unfold bind. destruct (m w) as [[a | e] w1] eqn:E.
  - intros Hrun. destruct (Hm _ _ _ E) as (ext1 & E1 & Hp1).
    destruct (Hk a _ _ _ Hrun) as (ext2 & E2 & Hp2).
    exists (ext1 ++ ext2). rewrite E2, E1, app_assoc. split; [done |].
    by apply forallb_app_true.
  - intros [= <- <-]. by apply (Hm _ _ _ E).
Qed.

Lemma appends_orReturn {A} p (m : M R A) wrap :
  appends p m -> appends p (orReturn m wrap).
Proof.
  intros Hm w r w'. unfold orReturn. destruct (m w) as [[a | e] w1] eqn:E;
    intros [= <- <-]; by apply (Hm _ _ _ E).
Qed.

Lemma appends_forEach {A} p (l : list A) (body : A -> M R unit) :
  (forall x, appends p (body x)) -> appends p (forEach l body).
Proof.
  intros Hbody. induction l as [| x rest IH]; simpl; [apply appends_ret |].
  apply appends_bind; [apply Hbody | intros _; apply IH].
Qed.

Lemma appends_report p (f : R -> R) : appends p (report f).
Proof. intros w r w' [= <- <-]. exists []. simpl. by rewrite app_nil_r. Qed.

Lemma appends_validate p (f : R -> option error * R) : appends p (validate f).
Proof.
  intros w r w'. unfold validate. destruct (f (reporter w)) as [[e |] r'];
    intros [= <- <-]; exists []; simpl; by rewrite app_nil_r.
Qed.

Lemma appends_hostCall c : appends isHostEffect (hostCall (R := R) c).
Proof. intros w r w' [= <- <-]. simpl. eexists. split; [done | done]. Qed.

Lemma appends_HasUnderlayInterface ns :
  appends isHostEffect (HasUnderlayInterface (R := R) ns).
Proof.
  intros w r w'. unfold HasUnderlayInterface.
  destruct (hasUnderlayInterface (effects w) ns) as [has [e |]];
    intros [= <- <-]; simpl; eexists; split; done.
Qed.

Lemma appends_updater configFile config :
  appends isUpdaterEffect (updater (R := R) configFile config).
Proof. intros w r w' [= <- <-]. simpl. eexists. split; [done | done]. Qed.

Lemma failsOnly_ret {A} Q (a : A) : failsOnly Q (ret (R := R) a).
Proof. intros w e w' Hrun. discriminate. Qed.

Lemma failsOnly_fail {A} (Q : error -> Prop) e :
  Q e -> failsOnly Q (fail (R := R) (A := A) e).
Proof. intros HQ w e' w' [= <- <-]. done. Qed.

Lemma failsOnly_bind {A B} Q (m : M R A) (k : A -> M R B) :
  failsOnly Q m -> (forall a, failsOnly Q (k a)) -> failsOnly Q (bind m k).
Proof.
  intros Hm Hk w e w'. unfold bind. destruct (m w) as [[a | e1] w1] eqn:E.
  - apply Hk.
  - intros [= <- <-]. by apply (Hm _ _ _ E).
Qed.

Lemma failsOnly_forEach {A} Q (l : list A) (body : A -> M R unit) :
  (forall x, failsOnly Q (body x)) -> failsOnly Q (forEach l body).
Proof.
  intros Hbody. induction l as [| x rest IH]; simpl; [apply failsOnly_ret |].
  apply failsOnly_bind; [apply Hbody | intros _; apply IH].
Qed.

Lemma failsOnly_report Q (f : R -> R) : failsOnly Q (report f).
Proof. intros w e w' Hrun. discriminate. Qed.

Lemma failsOnly_hostCall Q c : failsOnly Q (hostCall (R := R) c).
Proof. intros w e w' Hrun. discriminate. Qed.

(** A loop that succeeded ran its body with success on every element. *)
Lemma forEach_Ok_inv {A} (l : list A) (body : A -> M R unit) w w' :
  forEach l body w = (Ok tt, w') ->
  forall x, In x l -> exists w1 w2, body x w1 = (Ok tt, w2).
Proof.
  revert w. induction l as [| y rest IH]; intros w Hrun x Hin; [inversion Hin |].
  simpl in Hrun. apply bind_Ok_inv in Hrun as ([] & w1 & Hy & Hrest).
  destruct Hin as [-> | Hin]; [eauto |]. by apply (IH _ Hrest).
Qed.

End Pipeline.

(** ** Configuring the host *)

Ltac appends_host :=
  repeat first
    [ apply appends_ret | apply appends_fail | apply appends_report
    | apply appends_hostCall | apply appends_HasUnderlayInterface
    | apply appends_orReturn
    | apply appends_forEach; intros ?
    | apply appends_bind; [| intros ?]
    | progress unfold setupL3VNI, setupL2VNI
    | match goal with
      | |- appends _ (match ?x with _ => _ end) => destruct x
      end ].

Ltac fails_only :=
  repeat first
    [ apply failsOnly_ret | apply failsOnly_report | apply failsOnly_hostCall
    | apply failsOnly_fail; discriminate
    | apply failsOnly_forEach; intros ?
    | apply failsOnly_bind; [| intros ?]
    | progress unfold setupL3VNI, setupL2VNI
    | match goal with
      | |- failsOnly _ (match ?x with _ => _ end) => destruct x
      end ].

Section HostConfig.
Context {types : Types} {env : Environment} {R : Type} {rep : StatusReporter R}.

Lemma applyConfiguration_appends cfg :
  appends isHostEffect (applyConfiguration (R := R) cfg).
Proof. unfold applyConfiguration. appends_host. Qed.

Lemma configureInterfaces_appends cfg :
  appends isHostEffect (configureInterfaces (R := R) cfg).
Proof.
  unfold configureInterfaces. apply appends_bind.
  - apply appends_orReturn, appends_HasUnderlayInterface.
  - intros has. destruct (has && _); [apply appends_fail |].
    destruct (_ =? _)%nat; [apply appends_ret | apply applyConfiguration_appends].
Qed.

Lemma applyConfiguration_failsOnly cfg :
  failsOnly (fun e => e <> UnderlayRemovedError) (applyConfiguration (R := R) cfg).
Proof. unfold applyConfiguration. fails_only. Qed.

Lemma configureInterfaces_UnderlayRemoved cfg (w : World R) :
  (exists w', configureInterfaces cfg w = (Err UnderlayRemovedError, w'))
  <-> hasUnderlayInterface (effects w) (targetNamespace cfg) = (true, None)
      /\ Underlays (config cfg) = [].
Proof.
  unfold configureInterfaces, bind, orReturn, HasUnderlayInterface. split.
  - intros [w' Hrun].
    destruct (hasUnderlayInterface (effects w) (targetNamespace cfg)) as [has [e |]];
      [discriminate |].
    destruct (Underlays (config cfg)) as [| u us] eqn:Eu.
    + destruct has; [done | discriminate].
    + exfalso. rewrite andb_false_r in Hrun. simpl in Hrun.
      by apply (applyConfiguration_failsOnly cfg _ _ _ Hrun).
  - intros [-> ->]. simpl. eauto.
Qed.

End HostConfig.

Lemma As_Wraps (isTarget : error -> bool) (e : error) :
  As isTarget e = true <-> exists t, Wraps e t /\ isTarget t = true.
Proof.
  split.
  - induction e as [t | f a | f a inner IH | es IH | | t] using error_ind'; simpl;
      rewrite ?orb_false_r; intros Has.
    + exists (errorString t). split; [apply Wraps_self | done].
    + exists (fmtError f a). split; [apply Wraps_self | done].
    + apply orb_true_iff in Has as [Hself | Hinner].
      * exists (wrapError f a inner). split; [apply Wraps_self | done].
      * destruct (IH Hinner) as (t & Hw & Ht). exists t. split; [by apply Wraps_wrap | done].
    + apply orb_true_iff in Has as [Hself | Hsome].
      * exists (joinError es). split; [apply Wraps_self | done].
      * apply existsb_exists in Hsome as (x & Hin & Hx).
        rewrite List.Forall_forall in IH.
        destruct (IH x Hin Hx) as (t & Hw & Ht).
        exists t. split; [by apply (Wraps_join es x) | done].
    + exists UnderlayRemovedError. split; [apply Wraps_self | done].
    + exists (UnderlayExistsError t). split; [apply Wraps_self | done].
  - intros (t & Hw & Ht). induction Hw as [e | f a e t Hw IH | es e t Hin Hw IH].
    + destruct e; simpl in *; rewrite ?Ht; done.
    + simpl. rewrite (IH Ht). apply orb_true_r.
    + simpl. apply orb_true_iff. right. apply existsb_exists. eauto.
Qed.

(** C3: [configureInterfaces] returns [UnderlayRemovedError] exactly when
    the probe of the target namespace answers, without an error, that an
    underlay interface is there, and no Underlay is declared; and
    [nonRecoverableHostError] holds of exactly the errors that are, or wrap,
    an [UnderlayRemovedError] or an [UnderlayExistsError]. *)
Theorem underlay_removed_is_non_recoverable {types : Types} {env : Environment}
    {R} {rep : StatusReporter R} (cfg : interfacesConfiguration) (w : World R) (e : error) :
  ((exists w', configureInterfaces cfg w = (Err UnderlayRemovedError, w'))
   <-> hasUnderlayInterface (effects w) (targetNamespace cfg) = (true, None)
       /\ Underlays (config cfg) = [])
  /\ (nonRecoverableHostError (Some e) = true
      <-> exists t, Wraps e t
                    /\ (t = UnderlayRemovedError \/ exists text, t = UnderlayExistsError text))
  /\ nonRecoverableHostError None = false.
Proof.
  split; [apply configureInterfaces_UnderlayRemoved |]. split; [| done].
  unfold nonRecoverableHostError. split.
  - destruct (As isUnderlayRemovedError e) eqn:Erem.
    + intros _. apply As_Wraps in Erem as (t & Hw & Ht).
      exists t. split; [done |]. left. by destruct t.
    + intros Hex. apply As_Wraps in Hex as (t & Hw & Ht).
      exists t. split; [done |]. right. destruct t; try discriminate. eauto.
  - intros (t & Hw & [-> | [text ->]]).
    + assert (As isUnderlayRemovedError e = true) as -> by (apply As_Wraps; eauto). done.
    + assert (As isUnderlayExistsError e = true) as -> by (apply As_Wraps; eauto).
      by destruct (As isUnderlayRemovedError e).
Qed.

Section HostConfigSuccess.
Context {types : Types} {env : Environment} {R : Type} {rep : StatusReporter R}.

(** A call whose error is checked right away and that is followed by
    [rest]: on success the call was made, answered nil, and [rest] ran. *)
Lemma checked_call_inv {B} c (onErr : error -> error) (rest : M R B) w b w' :
  bind (hostCall c)
    (fun err =>
       bind (match err with Some err => fail (onErr err) | None => ret tt end)
         (fun _ => rest)) w = (Ok b, w') ->
  rest {| reporter := reporter w; effects := effects w ++ [Called c None] |} = (Ok b, w').
Proof.
  unfold bind, hostCall. destruct (hostAnswer (effects w) c); simpl; [discriminate | done].
Qed.

Lemma setupL3VNI_Ok_found hostConfig l (w w' : World R) :
  setupL3VNI hostConfig l w = (Ok tt, w') ->
  In (L3VNI_VNI (L3VNI_Spec l)) (map VNI (toCheck hostConfig)).
Proof.
  unfold setupL3VNI, findHostL3VNI.
  destruct (find _ (host_L3VNIs hostConfig)) as [h |] eqn:Efind; [| discriminate].
  intros _. apply find_some in Efind as [Hin Heq]. apply Z.eqb_eq in Heq.
  unfold toCheck. rewrite map_app, map_map. apply in_or_app. left.
  rewrite <- Heq. by apply (in_map (fun x => VNI (L3VNIParams_VNIParams x))).
Qed.

Lemma setupL2VNI_Ok_found hostConfig l (w w' : World R) :
  setupL2VNI hostConfig l w = (Ok tt, w') ->
  In (L2VNI_VNI (L2VNI_Spec l)) (map VNI (toCheck hostConfig)).
Proof.
  unfold setupL2VNI, findHostL2VNI.
  destruct (find _ (host_L2VNIs hostConfig)) as [h |] eqn:Efind; [| discriminate].
  intros _. apply find_some in Efind as [Hin Heq]. apply Z.eqb_eq in Heq.
  unfold toCheck. rewrite map_app, map_map, map_map. apply in_or_app. right.
  rewrite <- Heq. by apply (in_map (fun x => VNI (L2VNIParams_VNIParams x))).
Qed.

Lemma applyConfiguration_success cfg (w w' : World R) :
  applyConfiguration cfg w = (Ok tt, w') ->
  exists hostConfig ext,
    effects w' = effects w ++ ext
    /\ In (Called (EnsureIPv6Forwarding (targetNamespace cfg)) None) ext
    /\ In (Called (RemoveNonConfiguredVNIs (targetNamespace cfg) (toCheck hostConfig)) None) ext
    /\ (forall n, In n (declaredVNIs (config cfg)) -> In n (map VNI (toCheck hostConfig)))
    /\ (forall n, converterAddsNoVNI ->
                  In n (map VNI (toCheck hostConfig)) -> In n (declaredVNIs (config cfg)))
    /\ (L3Passthrough (config cfg) = [] ->
        In (Called (RemovePassthrough (targetNamespace cfg)) None) ext).
Proof.
  unfold applyConfiguration.
  destruct (APItoHostConfig _ _ _) as [hostConfig | e] eqn:Econv; [| discriminate].
  intros Hrun. apply checked_call_inv in Hrun.
  apply bind_Ok_inv in Hrun as ([] & w2 & Hunderlay & Hrun).
  apply bind_Ok_inv in Hrun as ([] & w3 & Hl3 & Hrun).
  apply bind_Ok_inv in Hrun as ([] & w4 & Hl2 & Hrun).
  apply bind_Ok_inv in Hrun as ([] & w5 & Hpass & Hrun).
  apply checked_call_inv in Hrun.
  match type of Hunderlay with ?m _ = _ =>
    assert (A2 : appends isHostEffect m) by appends_host end.
  match type of Hl3 with ?m _ = _ =>
    assert (A3 : appends isHostEffect m) by appends_host end.
  match type of Hl2 with ?m _ = _ =>
    assert (A4 : appends isHostEffect m) by appends_host end.
  match type of Hpass with ?m _ = _ =>
    assert (A5 : appends isHostEffect m) by appends_host end.
  destruct (A2 _ _ _ Hunderlay) as (ext2 & E2 & _). simpl in E2.
  destruct (A3 _ _ _ Hl3) as (ext3 & E3 & _).
  destruct (A4 _ _ _ Hl2) as (ext4 & E4 & _).
  destruct (A5 _ _ _ Hpass) as (ext5 & E5 & _).
  set (ensure := Called (EnsureIPv6Forwarding (targetNamespace cfg)) None) in *.
  set (remove := Called (RemoveNonConfiguredVNIs (targetNamespace cfg) (toCheck hostConfig))
                   None) in *.
  assert (Hdeclared : forall n, In n (declaredVNIs (config cfg)) ->
                                In n (map VNI (toCheck hostConfig))).
  { intros n Hn. unfold declaredVNIs in Hn. apply in_app_or in Hn as [Hn | Hn];
      apply in_map_iff in Hn as (l & <- & Hl).
    - destruct (forEach_Ok_inv _ _ _ _ Hl3 l Hl) as (wa & wb & Hbody).
      by apply (setupL3VNI_Ok_found _ _ _ _ Hbody).
    - destruct (forEach_Ok_inv _ _ _ _ Hl2 l Hl) as (wa & wb & Hbody).
      by apply (setupL2VNI_Ok_found _ _ _ _ Hbody). }
  assert (Hnone : forall n, converterAddsNoVNI ->
                    In n (map VNI (toCheck hostConfig)) -> In n (declaredVNIs (config cfg))).
  { intros n Hconv Hn. apply (Hconv _ _ _ _ Econv n Hn). }
  simpl in Hrun.
  destruct (length (L3Passthrough (config cfg)) =? 0)%nat eqn:Elen.
  - unfold bind, hostCall in Hrun. simpl in Hrun.
    destruct (hostAnswer _ (RemovePassthrough (targetNamespace cfg))) eqn:Eans;
      [discriminate |].
    injection Hrun as <-. simpl.
    exists hostConfig, ([ensure] ++ ext2 ++ ext3 ++ ext4 ++ ext5 ++ [remove]
                        ++ [Called (RemovePassthrough (targetNamespace cfg)) None]).
    split; [rewrite E5, E4, E3, E2; by rewrite <- !app_assoc |].
    split; [by left |].
    split; [rewrite !in_app_iff; do 5 right; left; by left |].
    split; [done |]. split; [done |].
    intros _. rewrite !in_app_iff. do 6 right. by left.
  - injection Hrun as <-. simpl.
    exists hostConfig, ([ensure] ++ ext2 ++ ext3 ++ ext4 ++ ext5 ++ [remove]).
    split; [rewrite E5, E4, E3, E2; by rewrite <- !app_assoc |].
    split; [by left |].
    split; [rewrite !in_app_iff; do 5 right; by left |].
    split; [done |]. split; [done |].
    intros Hempty. rewrite Hempty in Elen. discriminate.
Qed.

End HostConfigSuccess.

(** C4, as the code has it: when [configureInterfaces] returns nil and at
    least one Underlay is declared, IPv6 forwarding was ensured in the
    target namespace, the host-network layer was asked to remove the VNIs
    that are not configured with exactly the declared VNI numbers and
    answered nil, and the passthrough was removed when none is declared.
    When it returns nil and no Underlay is declared, it has done nothing
    but probe the namespace. *)
Theorem configureInterfaces_success_cleans_up {types : Types} {env : Environment}
    {R} {rep : StatusReporter R} (cfg : interfacesConfiguration) (w w' : World R) :
  converterAddsNoVNI ->
  configureInterfaces cfg w = (Ok tt, w') ->
  (Underlays (config cfg) <> [] ->
   exists hostConfig ext,
     effects w' = effects w ++ ext
     /\ In (Called (EnsureIPv6Forwarding (targetNamespace cfg)) None) ext
     /\ In (Called (RemoveNonConfiguredVNIs (targetNamespace cfg) (toCheck hostConfig)) None) ext
     /\ (forall n, In n (map VNI (toCheck hostConfig)) <-> In n (declaredVNIs (config cfg)))
     /\ (L3Passthrough (config cfg) = [] ->
         In (Called (RemovePassthrough (targetNamespace cfg)) None) ext))
  /\ (Underlays (config cfg) = [] ->
      effects w' = effects w ++ [Probed (targetNamespace cfg) false None]).
Proof.
  intros Hconv Hrun. unfold configureInterfaces, bind, orReturn, HasUnderlayInterface in Hrun.
  destruct (hasUnderlayInterface (effects w) (targetNamespace cfg)) as [has [e |]];
    [discriminate |].
  split.
  - intros Hsome. destruct (Underlays (config cfg)) as [| u us] eqn:Eu; [done |].
    rewrite andb_false_r in Hrun. simpl in Hrun.
    apply applyConfiguration_success in Hrun
      as (hostConfig & ext & Eext & Hensure & Hremove & Hdecl & Hnone & Hpass).
    simpl in Eext.
    exists hostConfig, (Probed (targetNamespace cfg) has None :: ext).
    split; [rewrite Eext; by rewrite <- app_assoc |].
    split; [by right |]. split; [by right |].
    split; [split; [by apply Hnone | by apply Hdecl] |].
    intros Hempty. right. by apply Hpass.
  - intros Hempty. rewrite Hempty in Hrun. simpl in Hrun.
    destruct has; simpl in Hrun; [discriminate |].
    by injection Hrun as <-.
Qed.

Lemma agreeableHost_converter has : @converterAddsNoVNI fixtures.numbers (fixtures.agreeableHost has).
Proof.
  intros nodeIndex ns api hostConfig [= <-] n. unfold toCheck, declaredVNIs. simpl.
  by rewrite !map_id.
Qed.

Section HostExamples.
#[local] Existing Instance fixtures.numbers.

Lemma configureInterfaces_success_cleans_up_witness :
  exists (hostConfig : HostConfiguration),
    In (Called (EnsureIPv6Forwarding "ns") None) fixtures.fullPass
    /\ In (Called (RemoveNonConfiguredVNIs "ns" (toCheck hostConfig)) None) fixtures.fullPass
    /\ (forall n, In n (map VNI (toCheck hostConfig)) <-> In n [100; 110])
    /\ In (Called (RemovePassthrough "ns") None) fixtures.fullPass.
Proof.
  destruct (@configureInterfaces_success_cleans_up fixtures.numbers (fixtures.agreeableHost true)
              _ RecordingReporter
              {| RouterPodUUID := ""; targetNamespace := "ns";
                 config := fixtures.declared [fixtures.underlay "test-underlay" 64514 ["toswitch"]]
                             [fixtures.l3vni "red" "red" 100 None]
                             [fixtures.l2vni "layer2" (Some "red") 110] [] |}
              fixtures.start
              {| reporter := [CallSuccess "Underlay" "test-underlay"; CallSuccess "L3VNI" "red";
                              CallSuccess "L2VNI" "layer2"];
                 effects := fixtures.fullPass |}
              (agreeableHost_converter true) eq_refl) as [Hwith _].
  destruct Hwith as (hostConfig & ext & Eext & Hensure & Hremove & Hvnis & Hpass);
    [discriminate |].
  simpl in Eext. subst ext. exists hostConfig.
  split; [exact Hensure |]. split; [exact Hremove |]. split; [exact Hvnis |].
  apply Hpass. reflexivity.
Defined.

(** C4 as stated fails: with no Underlay declared and none on the host,
    [configureInterfaces] returns nil after the probe alone; IPv6 forwarding
    is not ensured, and neither the removal of the VNIs that are no longer
    declared nor that of the passthrough is asked for. *)
Lemma pass_without_underlay_cleans_nothing :
  @configureInterfaces fixtures.numbers (fixtures.agreeableHost false) _ RecordingReporter
    {| RouterPodUUID := ""; targetNamespace := "ns";
       config := fixtures.declared [] [] [] [] |}
    fixtures.start
  = (Ok tt, {| reporter := []; effects := fixtures.probeOnly |}).
Proof. reflexivity. Qed.

End HostExamples.

(** ** The order of a reconcile pass *)

Lemma configureFRR_appends {types : Types} {env : Environment} {R} (data : frrConfigData) :
  appends isUpdaterEffect (configureFRR (R := R) data).
Proof.
  unfold configureFRR. destruct (APItoFRR (frr_config data)); [| apply appends_fail].
  apply appends_bind; [apply appends_updater |].
  intros [e |]; [apply appends_fail | apply appends_ret].
Qed.

(** One step of a pass: the reduction of the plumbing around a call that has
    been rewritten to its outcome. *)
Ltac step :=
  cbn -[ValidateUnderlays ValidateL3VNIs ValidateL2VNIs ValidateHostSessions
        configureFRR configureInterfaces].

(** C6: [Reconcile] validates the Underlays, the L3VNIs, the L2VNIs and the
    host sessions, then pushes the FRR configuration, then configures the
    host, in this order.  The first step that fails ends the pass, which
    returns that step's error wrapped with the name of the step.  A failing
    validation leaves the effects as they were: nothing was pushed to FRR
    and the host-network layer was not called.  The FRR step only pushes;
    the host step only calls the host-network layer, after the push. *)
Theorem Reconcile_steps_in_order {types : Types} {env : Environment} `{Net} `{IPFamily}
    `{L2VNIMethods} {R} {rep : StatusReporter R}
    (apiConfig : ApiConfigData) (frrConfigPath targetNamespace : string) (w : World R) :
  let stop (r : R) : World R := {| reporter := r; effects := effects w |} in
  let run := Reconcile apiConfig frrConfigPath targetNamespace w in
  (forall e r1,
      ValidateUnderlays (Underlays apiConfig) (reporter w) = (Some e, r1) ->
      run = (Err (wrapError "failed to validate underlays: %w" [] e), stop r1))
  /\ (forall r1 e r2,
        ValidateUnderlays (Underlays apiConfig) (reporter w) = (None, r1) ->
        ValidateL3VNIs (L3VNIs apiConfig) r1 = (Some e, r2) ->
        run = (Err (wrapError "failed to validate l3vnis: %w" [] e), stop r2))
  /\ (forall r1 r2 e r3,
        ValidateUnderlays (Underlays apiConfig) (reporter w) = (None, r1) ->
        ValidateL3VNIs (L3VNIs apiConfig) r1 = (None, r2) ->
        ValidateL2VNIs (L2VNIs apiConfig) r2 = (Some e, r3) ->
        run = (Err (wrapError "failed to validate l2vnis: %w" [] e), stop r3))
  /\ (forall r1 r2 r3 e r4,
        ValidateUnderlays (Underlays apiConfig) (reporter w) = (None, r1) ->
        ValidateL3VNIs (L3VNIs apiConfig) r1 = (None, r2) ->
        ValidateL2VNIs (L2VNIs apiConfig) r2 = (None, r3) ->
        ValidateHostSessions (L3VNIs apiConfig) (L3Passthrough apiConfig) r3 = (Some e, r4) ->
        run = (Err (wrapError "failed to validate host sessions: %w" [] e), stop r4))
  /\ (forall r1 r2 r3 r4 res5 w5,
        ValidateUnderlays (Underlays apiConfig) (reporter w) = (None, r1) ->
        ValidateL3VNIs (L3VNIs apiConfig) r1 = (None, r2) ->
        ValidateL2VNIs (L2VNIs apiConfig) r2 = (None, r3) ->
        ValidateHostSessions (L3VNIs apiConfig) (L3Passthrough apiConfig) r3 = (None, r4) ->
        configureFRR {| configFile := frrConfigPath; frr_config := apiConfig |} (stop r4)
        = (res5, w5) ->
        (exists pushes,
            effects w5 = effects w ++ pushes /\ forallb isUpdaterEffect pushes = true)
        /\ match res5 with
           | Err e => run = (Err (wrapError "failed to reload frr config: %w" [] e), w5)
           | Ok _ =>
               forall res6 w6,
                 configureInterfaces
                   {| RouterPodUUID := ""; targetNamespace := targetNamespace;
                      config := apiConfig |} w5 = (res6, w6) ->
                 (exists calls,
                     effects w6 = effects w5 ++ calls /\ forallb isHostEffect calls = true)
                 /\ run = (match res6 with
                           | Err e => Err (wrapError "failed to configure the host: %w" [] e)
                           | Ok _ => Ok tt
                           end, w6)
           end).
Proof.
  intros stop run. subst run. unfold Reconcile, bind, orReturn, validate.
  split; [| split; [| split; [| split]]].
  - intros e r1 E1. by rewrite E1.
  - intros r1 e r2 E1 E2. rewrite E1. step. by rewrite E2.
  - intros r1 r2 e r3 E1 E2 E3. rewrite E1. step. rewrite E2. step. by rewrite E3.
  - intros r1 r2 r3 e r4 E1 E2 E3 E4.
    rewrite E1. step. rewrite E2. step. rewrite E3. step. by rewrite E4.
  - intros r1 r2 r3 r4 res5 w5 E1 E2 E3 E4 E5.
    rewrite E1. step. rewrite E2. step. rewrite E3. step. rewrite E4. step.
    fold (stop r4). rewrite E5. split.
    { apply (configureFRR_appends _ _ _ _ E5). }
    destruct res5 as [[] | e]; [| reflexivity].
    intros res6 w6 E6. rewrite E6. split.
    { apply (configureInterfaces_appends _ _ _ _ E6). }
    by destruct res6 as [[] | e].
Qed.

Section PipelineExamples.
#[local] Existing Instance fixtures.numbers.

(** The scenario of the specification: two L3VNIs with the VRF [red]; the
    pass ends at the validation of the L3VNIs, with no effect. *)
Lemma Reconcile_steps_in_order_witness :
  @Reconcile fixtures.numbers (fixtures.agreeableHost true) fixtures.ipv4Net
    fixtures.oneGateway fixtures.vrfOrName _ RecordingReporter
    (fixtures.declared [fixtures.underlay "test-underlay" 64514 ["toswitch"]]
       [fixtures.l3vni "red" "red" 100 None; fixtures.l3vni "red2" "red" 101 None] [] [])
    "/etc/frr/frr.conf" "ns" fixtures.start
  = (Err (wrapError "failed to validate l3vnis: %w" []
            (fmtError "duplicate vrf %s: %s - %s" [ArgS "red"; ArgS "red"; ArgS "red2"])),
     {| reporter := [CallFailure "L3VNI" "red2"
                       (fmtError "duplicate vrf %s: %s - %s"
                          [ArgS "red"; ArgS "red"; ArgS "red2"])];
        effects := [] |}).
Proof.
  apply (proj1 (proj2 (@Reconcile_steps_in_order fixtures.numbers (fixtures.agreeableHost true)
                         fixtures.ipv4Net fixtures.oneGateway fixtures.vrfOrName _
                         RecordingReporter
                         (fixtures.declared
                            [fixtures.underlay "test-underlay" 64514 ["toswitch"]]
                            [fixtures.l3vni "red" "red" 100 None;
                             fixtures.l3vni "red2" "red" 101 None] [] [])
                         "/etc/frr/frr.conf" "ns" fixtures.start)) []);
    reflexivity.
Defined.

(** The Underlay was removed while the namespace still has its interface:
    the pass returns [UnderlayRemovedError], and [Reconcile]'s wrapping of
    it is classified as non-recoverable. *)
Lemma underlay_removed_is_non_recoverable_witness :
  (exists w',
      @configureInterfaces fixtures.numbers (fixtures.agreeableHost true) _ RecordingReporter
        {| RouterPodUUID := ""; targetNamespace := "ns";
           config := fixtures.declared [] [fixtures.l3vni "red" "red" 100 None] [] [] |}
        fixtures.start = (Err UnderlayRemovedError, w'))
  /\ nonRecoverableHostError
       (Some (wrapError "failed to configure the host: %w" [] UnderlayRemovedError)) = true.
Proof.
  destruct (@underlay_removed_is_non_recoverable fixtures.numbers (fixtures.agreeableHost true)
              _ RecordingReporter
              {| RouterPodUUID := ""; targetNamespace := "ns";
                 config := fixtures.declared [] [fixtures.l3vni "red" "red" 100 None] [] [] |}
              fixtures.start
              (wrapError "failed to configure the host: %w" [] UnderlayRemovedError))
    as (Hremoved & Hclass & _).
  split.
  - apply Hremoved. split; reflexivity.
  - apply Hclass. exists UnderlayRemovedError. split; [| by left].
    apply Wraps_wrap, Wraps_self.
Defined.

End PipelineExamples.


(** ** The Status Aggregator *)

(** C7, as the code has it: [ReportResourceSuccess] and
    [ReportResourceFailure] always send one trigger, and
    [ReportResourceRemoved] sends one when the resource was in the cache of
    failures; sending enqueues the trigger when the channel has room and
    drops it, without blocking, when the channel is full.  A removal of a
    resource that was not in the cache sends nothing. *)
Theorem mutating_call_triggers_once `{ErrorText} (er : StatusManager.StatusManager)
    (kind : ResourceKind) (resourceName : string) (err : error) :
  triggersOnce er (StatusManager.ReportResourceSuccess kind resourceName er)
  /\ triggersOnce er (StatusManager.ReportResourceFailure kind resourceName err er)
  /\ (is_Some (StatusManager.failedResourceCache er
                 !! StatusManager.cacheKey kind resourceName) ->
      triggersOnce er (StatusManager.ReportResourceRemoved kind resourceName er))
  /\ (StatusManager.failedResourceCache er !! StatusManager.cacheKey kind resourceName = None ->
      StatusManager.triggerChannel (StatusManager.ReportResourceRemoved kind resourceName er)
      = StatusManager.triggerChannel er).
Proof.
  unfold triggersOnce, StatusManager.ReportResourceSuccess, StatusManager.ReportResourceFailure,
    StatusManager.ReportResourceRemoved, StatusManager.sendTriggerEvent. simpl.
  split; [| split; [| split]].
  - by destruct (_ <? _)%nat.
  - by destruct (_ <? _)%nat.
  - intros Hin. rewrite bool_decide_eq_true_2 by done. simpl. by destruct (_ <? _)%nat.
  - intros Hnone. rewrite bool_decide_eq_false_2; [done |].
    rewrite Hnone. by intros [? ?].
Qed.

Lemma mutating_call_triggers_once_witness :
  let failed :=
    @StatusManager.ReportResourceFailure fixtures.plainErrors L2VNIKind "layer2"
      (errorString "bridge not found") fixtures.idleManager in
  StatusManager.triggerChannel (StatusManager.ReportResourceRemoved L2VNIKind "layer2" failed)
  = [StatusManager.triggerFor fixtures.idleManager; StatusManager.triggerFor fixtures.idleManager]
  /\ StatusManager.triggerChannel
       (StatusManager.ReportResourceRemoved L2VNIKind "layer2" fixtures.idleManager)
     = [].
Proof.
  intros failed. split.
  - apply (proj1 (proj2 (proj2 (@mutating_call_triggers_once fixtures.plainErrors failed
                                  L2VNIKind "layer2" (errorString "bridge not found"))))).
    vm_compute. eauto.
  - apply (proj2 (proj2 (proj2 (@mutating_call_triggers_once fixtures.plainErrors
                                  fixtures.idleManager L2VNIKind "layer2"
                                  (errorString "bridge not found"))))).
    reflexivity.
Defined.

(** C7 as stated fails: the removal of a resource that is not in the cache
    enqueues nothing although the channel has room. *)
Lemma removal_of_unknown_resource_sends_no_trigger :
  (length (StatusManager.triggerChannel fixtures.idleManager)
   < StatusManager.triggerCapacity fixtures.idleManager)%nat
  /\ StatusManager.triggerChannel
       (StatusManager.ReportResourceRemoved L2VNIKind "layer2" fixtures.idleManager)
     = StatusManager.triggerChannel fixtures.idleManager.
Proof. split; [vm_compute; lia | reflexivity]. Qed.

(** ** The Status Reconciler *)

Section StatusEqual.
Import StatusManager statuscontroller.

Lemma deepEqual_elems_eq {A} (eq : A -> A -> bool) :
  (forall x y, eq x y = true <-> x = y) ->
  forall a b, deepEqual_elems eq a b = true <-> a = b.
Proof.
  intros Heq. induction a as [| x a IH]; intros [| y b]; simpl; try (split; [discriminate | done]).
  - done.
  - rewrite andb_true_iff, Heq, IH. split; [by intros [-> ->] | by intros [= -> ->]].
Qed.

Lemma deepEqual_nilable_eq {A} (eq : A -> A -> bool) :
  (forall x y, eq x y = true <-> x = y) ->
  forall a b, deepEqual_nilable eq a b = true <-> a = b.
Proof.
  intros Heq [x |] [y |]; simpl; try (split; [discriminate | done]).
  - rewrite Heq. split; [by intros -> | by intros [= ->]].
  - done.
Qed.

Lemma deepEqual_FailedResource_eq a b : deepEqual_FailedResource a b = true <-> a = b.
Proof.
  unfold deepEqual_FailedResource. rewrite !andb_true_iff, !String.eqb_eq.
  destruct a, b; simpl. split; [by intros [[-> ->] ->] | by intros [= -> -> ->]].
Qed.

Lemma deepEqual_Condition_eq a b : deepEqual_Condition a b = true <-> a = b.
Proof.
  unfold deepEqual_Condition. rewrite !andb_true_iff, !String.eqb_eq, !Z.eqb_eq.
  destruct a, b; simpl.
  split; [by intros [[[[[-> ->] ->] ->] ->] ->] | by intros [= -> -> -> -> -> ->]].
Qed.

Lemma DeepEqual_eq a b : DeepEqual a b = true <-> a = b.
Proof.
  unfold DeepEqual. rewrite !andb_true_iff.
  rewrite (deepEqual_nilable_eq Z.eqb Z.eqb_eq).
  rewrite (deepEqual_nilable_eq _ (deepEqual_elems_eq _ deepEqual_FailedResource_eq)).
  rewrite (deepEqual_nilable_eq _ (deepEqual_elems_eq _ deepEqual_Condition_eq)).
  destruct a, b; simpl. split; [by intros [[-> ->] ->] | by intros [= -> -> ->]].
Qed.


End StatusEqual.

Section StatusReconcile.
Import StatusManager statuscontroller.



End StatusReconcile.

(** ** Admission of an L3VNI update *)

Section Admission.
Import webhooks.



End Admission.

(** ** Cases of the package's tests and of the scenarios, by evaluation *)

Example vlan_subinterface_name_is_valid :
  isValidInterfaceName "eth0.100" = None.
Proof. reflexivity. Qed.

Example name_starting_with_dot_is_invalid :
  isValidInterfaceName ".eth0"
  = Some (fmtError "interface name %s contains invalid characters" [ArgS ".eth0"]).
Proof. reflexivity. Qed.

Example long_vrf_name_is_invalid :
  fst (@ValidateL2VNIs _ RecordingReporter fixtures.vrfOrName fixtures.oneGateway
         [fixtures.l2vni "vni1" (Some "invalid-vrf-name-with-dashes") 1001] [])
  = Some (wrapError "invalid vrf name for vni %s: %s - %w"
            [ArgS "vni1"; ArgS "invalid-vrf-name-with-dashes"]
            (fmtError "interface name %s can't be longer than 15 characters"
               [ArgS "invalid-vrf-name-with-dashes"])).
Proof. reflexivity. Qed.

(** An unknown NIC is not a validation error; it fails when applied. *)
Example unknown_nic_passes_validation :
  @ValidateUnderlays _ RecordingReporter fixtures.ipv4Net
    [fixtures.underlay "test-underlay" 64514 ["nonexistent"]] []
  = (None, []).
Proof. reflexivity. Qed.

Example equal_asns_are_rejected :
  @ValidateHostSessions _ RecordingReporter fixtures.ipv4Net
    [fixtures.l3vni "vni1" "red" 100 (Some (fixtures.session 64514 64514 "192.168.1.0/24" ""))]
    [] []
  = (Some (fmtError "%s local ASN %d must be different from remote ASN %d"
             [ArgS "L3VNI vni1"; ArgD 64514; ArgD 64514]),
     [CallFailure "L3VNI" "vni1"
        (fmtError "%s local ASN %d must be different from remote ASN %d"
           [ArgS "L3VNI vni1"; ArgD 64514; ArgD 64514])]).
Proof. reflexivity. Qed.

Example overlap_between_l3vni_and_passthrough :
  fst (@ValidateHostSessions _ RecordingReporter fixtures.ipv4Net
         [fixtures.l3vni "vni1" "red" 1001
            (Some (fixtures.session 65001 65002 "192.168.1.0/24" ""))]
         [ {| L3Passthrough_Name := "passthrough1";
              L3Passthrough_Spec :=
                {| L3Passthrough_HostSession :=
                     fixtures.session 65003 65004 "192.168.1.128/25" "" |} |} ] [])
  = Some (fmtError "overlapping cidrs %s - %s for vnis %s - %s"
            [ArgS "192.168.1.0/24"; ArgS "192.168.1.128/25"; ArgS "L3VNI vni1";
             ArgS "L3Passthrough passthrough1"]).
Proof. vm_compute. reflexivity. Qed.

(** A failure, then the success of the same resource: the cache is empty
    again and two triggers were sent after the initial one. *)
Example failure_then_success_clears_the_cache :
  let er := StatusManager.NewStatusManager [] 100 "worker" "openperouter-system" 0 in
  let er := @StatusManager.ReportResourceFailure fixtures.plainErrors L2VNIKind "layer2"
              (errorString "bridge not found") er in
  let er := StatusManager.ReportResourceSuccess L2VNIKind "layer2" er in
  StatusManager.failedResourceCache er = ∅
  /\ length (StatusManager.triggerChannel er) = 3%nat.
Proof. vm_compute. split; reflexivity. Qed.

(* ===================================================================== *)
(** * Further properties of the validator *)
(* ===================================================================== *)

Import laws.

Section ValidatorLaws.
Context {R : Type} {rep : StatusReporter R}.

Lemma validateVNIs_from_accepts kind (sr : R) :
  forall vnis vrfs nums,
    fst (validateVNIs_from vnis kind vrfs nums sr) = None
    <-> vnisSound vnis
        /\ Forall (fun v => vrfs !! vrfName v = None /\ nums !! vni_vni v = None) vnis.
Proof.
  unfold vnisSound. induction vnis as [| v rest IH]; intros vrfs nums.
  { simpl. split; [| done]. intros _. repeat split; constructor. }
  simpl. rewrite !Forall_cons, !NoDup_cons.
  destruct (isValidInterfaceName (vrfName v)) as [e |] eqn:Evalid.
  { simpl. split; [done |]. intros [[[? _] _] _]. done. }
  destruct (vrfs !! vrfName v) as [existing |] eqn:Evrf.
  { simpl. split; [done |]. intros [_ [[? _] _]]. done. }
  destruct (nums !! vni_vni v) as [existingVNI |] eqn:Enum.
  { simpl. split; [done |]. intros [_ [[_ ?] _]]. done. }
  rewrite IH. clear IH.
  assert (Hfresh :
    Forall (fun u => (<[vrfName v := name v]> vrfs) !! vrfName u = None
                     /\ (<[vni_vni v := name v]> nums) !! vni_vni u = None) rest
    <-> (vrfName v ∉ map vrfName rest) /\ (vni_vni v ∉ map vni_vni rest)
        /\ Forall (fun u => vrfs !! vrfName u = None /\ nums !! vni_vni u = None) rest).
  { clear. induction rest as [| u rest IH]; simpl.
    - split; [intros _ | done]. repeat split; [apply not_elem_of_nil.. | constructor].
    - rewrite !Forall_cons, IH, !not_elem_of_cons, !lookup_insert_None. clear IH.
      intuition congruence. }
  rewrite Hfresh. intuition.
Qed.

Lemma validateVNIs_accepts kind vnis (sr : R) :
  fst (validateVNIs vnis kind sr) = None <-> vnisSound vnis.
Proof.
  unfold validateVNIs. rewrite validateVNIs_from_accepts. split; [by intros [? _] |].
  intros Hs. split; [done |]. apply Forall_forall. intros v _. by rewrite !lookup_empty.
Qed.

Lemma validateL2Specific_accepts `{IPFamily} (sr : R) :
  forall l2Vnis, fst (validateL2Specific l2Vnis sr) = None <-> Forall l2Sound l2Vnis.
Proof.
  induction l2Vnis as [| v rest IH]; simpl; [split; [constructor | done] |].
  rewrite Forall_cons. unfold l2Sound at 1.
  match goal with
  | |- fst (match ?a with Some _ => _ | None => _ end) = None <-> _ =>
      assert (Hhm : a = None
                    <-> forall hm, L2VNI_HostMaster (L2VNI_Spec v) = Some hm ->
                                   HostMaster_Name hm <> "" ->
                                   isValidInterfaceName (HostMaster_Name hm) = None);
      [| destruct a as [ehm |]]
  end.
  { destruct (L2VNI_HostMaster (L2VNI_Spec v)) as [hm |]; [| by split].
    destruct (String.eqb (HostMaster_Name hm) "") eqn:Ename; simpl.
    - apply String.eqb_eq in Ename. split; [| done]. by intros _ hm' [= <-] Hne.
    - apply String.eqb_neq in Ename.
      destruct (isValidInterfaceName (HostMaster_Name hm)) eqn:Evalid.
      + split; [done |]. intros Hall. specialize (Hall hm eq_refl Ename). congruence.
      + split; [| done]. by intros _ hm' [= <-] _. }
  { simpl. split; [done |]. intros [[Hbad _] _]. by apply Hhm in Hbad. }
  match goal with
  | |- fst (match ?a with Some _ => _ | None => _ end) = None <-> _ =>
      assert (Hgw : a = None
                    <-> (L2GatewayIPs (L2VNI_Spec v) <> [] ->
                         ForCIDRStrings (L2GatewayIPs (L2VNI_Spec v)) = None));
      [| destruct a as [egw |]]
  end.
  { destruct (L2GatewayIPs (L2VNI_Spec v)) as [| g gs]; simpl; [by split |].
    destruct (ForCIDRStrings (g :: gs)); split; try done.
    intros Hall. by specialize (Hall ltac:(done)). }
  { simpl. split; [done |]. intros [[_ Hbad] _]. by apply Hgw in Hbad. }
  rewrite IH. split; [| by intros [_ ?]].
  intros Hrest. split; [| done]. split; [by apply Hhm | by apply Hgw].
Qed.

End ValidatorLaws.

Section ValidatorOrder.
Context {R : Type} {rep : StatusReporter R}.

Lemma ValidateL3VNIs_accepts (l3Vnis : list L3VNI) (sr : R) :
  fst (ValidateL3VNIs l3Vnis sr) = None <-> vnisSound (vnisFromL3VNIs l3Vnis).
Proof. rewrite ValidateL3VNIs_common. apply validateVNIs_accepts. Qed.

Lemma ValidateL2VNIs_accepts `{L2VNIMethods} `{IPFamily} (l2Vnis : list L2VNI) (sr : R) :
  fst (ValidateL2VNIs l2Vnis sr) = None
  <-> vnisSound (vnisFromL2VNIs l2Vnis) /\ Forall l2Sound l2Vnis.
Proof.
  unfold ValidateL2VNIs.
  pose proof (validateVNIs_accepts L2VNIKind (vnisFromL2VNIs l2Vnis) sr) as Hcommon.
  pose proof (validateVNIs_from_reportsOnce L2VNIKind sr (vnisFromL2VNIs l2Vnis) ∅ ∅) as Hsr.
  fold (validateVNIs (vnisFromL2VNIs l2Vnis) L2VNIKind sr) in Hsr.
  destruct (validateVNIs _ _ _) as [[e |] sr1]; simpl in *.
  - split; [done |]. intros [Hs _]. by apply Hcommon in Hs.
  - subst sr1. rewrite validateL2Specific_accepts. split; [| by intros [_ ?]].
    intros Hl2. split; [by apply Hcommon | done].
Qed.

Lemma vnisSound_Permutation (l l' : list vni) :
  Permutation l l' -> vnisSound l -> vnisSound l'.
Proof.
  intros Hp (Hvalid & Hvrf & Hnum). split; [| split].
  - by rewrite <- Hp.
  - assert (Hm : map vrfName l ≡ₚ map vrfName l') by (by apply Permutation_map).
    by rewrite <- Hm.
  - assert (Hm : map vni_vni l ≡ₚ map vni_vni l') by (by apply Permutation_map).
    by rewrite <- Hm.
Qed.

End ValidatorOrder.

(** X1: [ValidateL3VNIs] returns nil, and then reports nothing, exactly when
    every VRF name is a valid interface name and no VRF name and no VNI
    number is declared twice among the L3VNIs. *)
Theorem ValidateL3VNIs_accepts_exactly_the_sound {R} `{StatusReporter R}
    (l3Vnis : list L3VNI) (sr : R) :
  ValidateL3VNIs l3Vnis sr = (None, sr) <-> vnisSound (vnisFromL3VNIs l3Vnis).
Proof.
  rewrite <- (ValidateL3VNIs_accepts l3Vnis sr).
  pose proof (ValidateL3VNIs_reportsOnce l3Vnis sr) as Hsr.
  destruct (ValidateL3VNIs l3Vnis sr) as [[e |] sr1]; simpl in *.
  - split; discriminate.
  - subst sr1. by split.
Qed.

(** X2: [ValidateL2VNIs] returns nil, and then reports nothing, exactly when
    the L2VNIs are sound as above under the VRF names [VRFName] gives them,
    every host master that has a name has a valid one, and every non-empty
    list of gateway addresses is accepted by [ForCIDRStrings]. *)
Theorem ValidateL2VNIs_accepts_exactly_the_sound {R} `{StatusReporter R} `{L2VNIMethods}
    `{IPFamily} (l2Vnis : list L2VNI) (sr : R) :
  ValidateL2VNIs l2Vnis sr = (None, sr)
  <-> vnisSound (vnisFromL2VNIs l2Vnis) /\ Forall l2Sound l2Vnis.
Proof.
  rewrite <- (ValidateL2VNIs_accepts l2Vnis sr).
  pose proof (ValidateL2VNIs_reportsOnce l2Vnis sr) as Hsr.
  destruct (ValidateL2VNIs l2Vnis sr) as [[e |] sr1]; simpl in *.
  - split; discriminate.
  - subst sr1. by split.
Qed.

(** X3: whether [ValidateL3VNIs] and [ValidateL2VNIs] accept a list does not
    depend on the order of the list, nor on the reporter. *)
Theorem VNI_validation_ignores_order {R} `{StatusReporter R} `{L2VNIMethods} `{IPFamily}
    (l3Vnis l3Vnis' : list L3VNI) (l2Vnis l2Vnis' : list L2VNI) (sr sr' : R) :
  (Permutation l3Vnis l3Vnis' ->
   (fst (ValidateL3VNIs l3Vnis sr) = None <-> fst (ValidateL3VNIs l3Vnis' sr') = None))
  /\ (Permutation l2Vnis l2Vnis' ->
      (fst (ValidateL2VNIs l2Vnis sr) = None <-> fst (ValidateL2VNIs l2Vnis' sr') = None)).
Proof.
  split; intros Hp.
  - rewrite !ValidateL3VNIs_accepts. unfold vnisFromL3VNIs.
    split; apply vnisSound_Permutation; by apply Permutation_map.
  - rewrite !ValidateL2VNIs_accepts. unfold vnisFromL2VNIs.
    split; intros [Hs Hl2]; split;
      try (eapply vnisSound_Permutation; [| exact Hs]; by apply Permutation_map).
    + by rewrite <- Hp.
    + by rewrite Hp.
Qed.

Lemma VNI_validation_ignores_order_witness :
  fst (@ValidateL3VNIs _ RecordingReporter
         [fixtures.l3vni "red" "red" 100 None; fixtures.l3vni "blue" "blue" 101 None] []) = None
  <-> fst (@ValidateL3VNIs _ RecordingReporter
             [fixtures.l3vni "blue" "blue" 101 None; fixtures.l3vni "red" "red" 100 None] [])
      = None.
Proof.
  apply (proj1 (@VNI_validation_ignores_order _ RecordingReporter fixtures.vrfOrName
                  fixtures.oneGateway _ _ [] [] [] [])).
  apply perm_swap.
Defined.

(** ** Interface names *)

Lemma allBytes_Forall (p : ascii -> bool) (s : string) :
  allBytes p s = true <-> Forall (fun b => p b = true) (bytesOf s).
Proof.
  induction s as [| c rest IH]; simpl; [split; [constructor | done] |].
  rewrite andb_true_iff, Forall_cons, IH. done.
Qed.

(** X4: [isValidInterfaceName] accepts exactly the names of one to fifteen
    bytes that start with a letter and go on with bytes accepted by
    [isNameByte] (letters, digits, dot, underscore, dash). *)
Theorem isValidInterfaceName_accepts_exactly (name : string) :
  isValidInterfaceName name = None
  <-> (1 <= String.length name <= 15)%nat
      /\ exists c rest,
           name = String c rest /\ isLetter c = true
           /\ Forall (fun b => isNameByte b = true) (bytesOf rest).
Proof.
  unfold isValidInterfaceName.
  destruct (String.length name =? 0)%nat eqn:Ezero.
  { apply Nat.eqb_eq in Ezero. split; [done |]. intros [Hlen _]. lia. }
  apply Nat.eqb_neq in Ezero.
  destruct (15 <? String.length name)%nat eqn:Elong.
  { apply Nat.ltb_lt in Elong. split; [done |]. intros [Hlen _]. lia. }
  apply Nat.ltb_ge in Elong.
  destruct name as [| c rest]; [done |]. simpl interfaceNameRegexp_MatchString.
  destruct (isLetter c && allBytes isNameByte rest) eqn:Ematch; simpl.
  - apply andb_true_iff in Ematch as [Hc Hrest]. split; [| done]. intros _.
    split; [simpl in *; lia |]. exists c, rest. by rewrite <- allBytes_Forall.
  - split; [done |]. intros (_ & c' & rest' & [= <- <-] & Hc & Hrest).
    apply allBytes_Forall in Hrest. by rewrite Hc, Hrest in Ematch.
Qed.

(** ** Overlap of two CIDRs *)

(** X5: the verdict of [cidrsOverlap] does not depend on the order of its
    two arguments: both orders agree on the overlap, and one returns an
    error exactly when the other does. *)
Theorem cidrsOverlap_is_symmetric `{Net} (cidr1 cidr2 : string) :
  fst (cidrsOverlap cidr1 cidr2) = fst (cidrsOverlap cidr2 cidr1)
  /\ (is_Some (snd (cidrsOverlap cidr1 cidr2)) <-> is_Some (snd (cidrsOverlap cidr2 cidr1))).
Proof.
  unfold cidrsOverlap.
  destruct (ParseCIDR cidr1) as [[net1 ipNet1] |], (ParseCIDR cidr2) as [[net2 ipNet2] |];
    simpl; try (split; [done | split; intros _; eauto]).
  rewrite (orb_comm (Contains ipNet2 net1)).
  destruct (Contains ipNet1 net2 || Contains ipNet2 net1); simpl; done.
Qed.

(** ** Underlays *)

Section UnderlayLaws.
Context `{Net} {R : Type} {rep : StatusReporter R}.

Lemma neighborASNError_None u neighbors :
  neighborASNError u neighbors = None
  <-> Forall (fun n => Neighbor_ASN n <> Underlay_ASN (Underlay_Spec u)) neighbors.
Proof.
  induction neighbors as [| n rest IH]; simpl; [split; [constructor | done] |].
  rewrite Forall_cons.
  destruct (Z.eqb_spec (Underlay_ASN (Underlay_Spec u)) (Neighbor_ASN n)) as [E | E].
  - split; [done |]. intros [Hne _]. congruence.
  - rewrite IH. split; [| by intros [_ ?]]. intros Hrest. split; [congruence | done].
Qed.

Lemma nicNameError_None u nics :
  nicNameError u nics = None <-> Forall (fun n => isValidInterfaceName n = None) nics.
Proof.
  induction nics as [| n rest IH]; simpl; [split; [constructor | done] |].
  rewrite Forall_cons. destruct (isValidInterfaceName n).
  - split; [done |]. by intros [? _].
  - rewrite IH. split; [by intros ? | by intros [_ ?]].
Qed.

Lemma underlayError_None u : underlayError u = None <-> underlaySound u.
Proof.
  unfold underlayError, underlaySound.
  destruct (Z.eqb_spec (Underlay_ASN (Underlay_Spec u)) 0) as [E | E].
  { split; [done |]. by intros [? _]. }
  pose proof (neighborASNError_None u (Neighbors (Underlay_Spec u))) as Hn.
  destruct (neighborASNError u (Neighbors (Underlay_Spec u))).
  { split; [done |]. intros (_ & Hall & _). by apply Hn in Hall. }
  assert (Hnb : Forall (fun n => Neighbor_ASN n <> Underlay_ASN (Underlay_Spec u))
                  (Neighbors (Underlay_Spec u))) by (by apply Hn).
  destruct (EVPN (Underlay_Spec u)) as [evpn |] eqn:Eevpn.
  - destruct (ParseCIDR (VTEPCIDR evpn)) as [parsed |] eqn:Eparse.
    + destruct (1 <? length (Nics (Underlay_Spec u)))%nat eqn:Elen.
      * apply Nat.ltb_lt in Elen. split; [done |]. intros (_ & _ & _ & Hlen & _). lia.
      * apply Nat.ltb_ge in Elen. rewrite nicNameError_None.
        split; [| by intros (_ & _ & _ & _ & ?)]. intros Hnics.
        repeat split; try done. intros evpn' [= <-]. by rewrite Eparse.
    + split; [done |]. intros (_ & _ & Hevpn & _).
      destruct (Hevpn evpn eq_refl) as [x Hx]. congruence.
  - destruct (1 <? length (Nics (Underlay_Spec u)))%nat eqn:Elen.
    + apply Nat.ltb_lt in Elen. split; [done |]. intros (_ & _ & _ & Hlen & _). lia.
    + apply Nat.ltb_ge in Elen. rewrite nicNameError_None.
      split; [| by intros (_ & _ & _ & _ & ?)]. intros Hnics.
      repeat split; try done.
Qed.

Lemma validateUnderlays_from_accepts (sr : R) :
  forall underlays,
    fst (validateUnderlays_from underlays sr) = None <-> Forall underlaySound underlays.
Proof.
  induction underlays as [| u rest IH]; simpl; [split; [constructor | done] |].
  rewrite Forall_cons, <- underlayError_None. destruct (underlayError u).
  - split; [done |]. by intros [? _].
  - rewrite IH. split; [by intros ? | by intros [_ ?]].
Qed.

End UnderlayLaws.

(** X6: [ValidateUnderlays] returns nil, and then reports nothing, exactly
    when there is at most one underlay and it has an ASN other than 0 and
    than the ASN of each of its neighbors, a VTEP CIDR that parses when
    EVPN is configured, and at most one NIC, with a valid interface name. *)
Theorem ValidateUnderlays_accepts_exactly_the_sound `{Net} {R} `{StatusReporter R}
    (underlays : list Underlay) (sr : R) :
  ValidateUnderlays underlays sr = (None, sr)
  <-> (length underlays <= 1)%nat /\ Forall underlaySound underlays.
Proof.
  unfold ValidateUnderlays. destruct (1 <? length underlays)%nat eqn:Elen.
  - apply Nat.ltb_lt in Elen. split; [done |]. intros [Hlen _]. lia.
  - apply Nat.ltb_ge in Elen.
    pose proof (validateUnderlays_from_accepts sr underlays) as Hacc.
    pose proof (validateUnderlays_from_reportsOnce sr underlays) as Hsr.
    destruct (validateUnderlays_from underlays sr) as [[e |] sr1]; simpl in *.
    + split; [done |]. intros [_ Hs]. by apply Hacc in Hs.
    + subst sr1. split; [| done]. intros _. split; [done | by apply Hacc].
Qed.

(** ** Host sessions: order and reporter *)

Section HostSessionLaws.
Context `{Net}.

Lemma overlaps_sym c1 c2 : overlaps c1 c2 -> overlaps c2 c1.
Proof.
  intros (ip1 & n1 & ip2 & n2 & H1 & H2 & Hc).
  exists ip2, n2, ip1, n1. repeat split; [done | done |]. by destruct Hc; [right | left].
Qed.

Lemma sameFamilyOverlap_sym s t : sameFamilyOverlap s t -> sameFamilyOverlap t s.
Proof.
  intros [(Hs & Ht & Hov) | (Hs & Ht & Hov)]; [left | right];
    repeat split; try done; by apply overlaps_sym.
Qed.

Lemma hasOverlap_Permutation (l k : list hostSessionInfo) :
  l ≡ₚ k -> hasOverlap l -> hasOverlap k.
Proof.
  intros Hp (i & j & s & t & Hij & Hs & Ht & Hov).
  apply Permutation_inj in Hp as (_ & f & Hinj & Hf).
  rewrite Hf in Hs, Ht.
  destruct (Nat.lt_trichotomy (f i) (f j)) as [Hlt | [Heq | Hgt]].
  - exists (f i), (f j), s, t. done.
  - apply Hinj in Heq. lia.
  - exists (f j), (f i), t, s. repeat split; try done. by apply sameFamilyOverlap_sym.
Qed.

Lemma sessionSound_or_defect s : sessionSound s \/ sessionDefect s.
Proof.
  unfold sessionSound, sessionDefect.
  destruct (decide (HostASN (session s) = ASN (session s))) as [Hasn | Hasn]; [by right; left |].
  assert (H4 : (cidrV4 s <> "" -> is_Some (ParseCIDR (cidrV4 s)))
               \/ (cidrV4 s <> "" /\ ParseCIDR (cidrV4 s) = None)).
  { destruct (decide (cidrV4 s = "")) as [E | E]; [by left |].
    destruct (ParseCIDR (cidrV4 s)); [left; eauto | by right]. }
  assert (H6 : (cidrV6 s <> "" -> is_Some (ParseCIDR (cidrV6 s)))
               \/ (cidrV6 s <> "" /\ ParseCIDR (cidrV6 s) = None)).
  { destruct (decide (cidrV6 s = "")) as [E | E]; [by left |].
    destruct (ParseCIDR (cidrV6 s)); [left; eauto | by right]. }
  destruct H4 as [H4 | H4]; [| right; right; right; by left].
  destruct H6 as [H6 | H6]; [| right; right; right; by right].
  destruct (decide (cidrV4 s = "")) as [E4 | E4], (decide (cidrV6 s = "")) as [E6 | E6].
  - right. right. by left.
  - left. split; [done |]. split; [by right | done].
  - left. split; [done |]. split; [by left | done].
  - left. split; [done |]. split; [by left | done].
Qed.

Lemma ValidateHostSessions_accepts {R} {rep : StatusReporter R}
    (l3VNIs : list L3VNI) (l3Passthrough : list v1alpha1.L3Passthrough) (sr : R) :
  fst (ValidateHostSessions l3VNIs l3Passthrough sr) = None
  <-> Forall sessionSound (collectHostSessions l3VNIs l3Passthrough)
      /\ ~ hasOverlap (collectHostSessions l3VNIs l3Passthrough).
Proof.
  unfold ValidateHostSessions. set (hs := collectHostSessions l3VNIs l3Passthrough). split.
  - intros Hnone.
    assert (Hbad : ~ (Exists sessionDefect hs \/ hasOverlap hs)).
    { intros Hbad.
      destruct (validateHostSessions_from_fails hs [] ∅ ∅ sr) as [err Herr];
        [apply covers_empty | apply covers_empty | | congruence].
      destruct Hbad as [Hex | (i & j & s & t & Hij & Hs & Ht & Hov)]; [by left | right].
      exists i, j, s, t. simpl. repeat split; [done | lia | done | done | done]. }
    split; [| tauto].
    apply Forall_forall. intros s Hs.
    destruct (sessionSound_or_defect s) as [Hok | Hdef]; [done |].
    exfalso. apply Hbad. left. apply Exists_exists. eauto.
  - intros [Hsound Hno].
    by rewrite (validateHostSessions_from_passes sr hs [] ∅ ∅
                  (within_empty _) (within_empty _) Hsound Hno).
Qed.

Lemma collectHostSessions_Permutation l3 l3' pt pt' :
  l3 ≡ₚ l3' -> pt ≡ₚ pt' -> collectHostSessions l3 pt ≡ₚ collectHostSessions l3' pt'.
Proof.
  intros H3 Hpt. unfold collectHostSessions. apply Permutation_app.
  - by rewrite H3.
  - by apply Permutation_map.
Qed.

End HostSessionLaws.

(** X7: whether [ValidateHostSessions] accepts does not depend on the order
    of the L3VNIs, on the order of the L3Passthroughs, nor on the
    reporter. *)
Theorem host_session_validation_ignores_order `{Net} {R} `{StatusReporter R}
    (l3VNIs l3VNIs' : list L3VNI) (l3Passthrough l3Passthrough' : list v1alpha1.L3Passthrough)
    (sr sr' : R) :
  Permutation l3VNIs l3VNIs' ->
  Permutation l3Passthrough l3Passthrough' ->
  (fst (ValidateHostSessions l3VNIs l3Passthrough sr) = None
   <-> fst (ValidateHostSessions l3VNIs' l3Passthrough' sr') = None).
Proof.
  intros H3 Hpt. rewrite !ValidateHostSessions_accepts.
  pose proof (collectHostSessions_Permutation _ _ _ _ H3 Hpt) as Hp.
  split; intros [Hsound Hno]; split.
  - by rewrite <- Hp.
  - intros Hov. apply Hno. by apply (hasOverlap_Permutation _ _ (symmetry Hp)).
  - by rewrite Hp.
  - intros Hov. apply Hno. by apply (hasOverlap_Permutation _ _ Hp).
Qed.

Lemma host_session_validation_ignores_order_witness :
  fst (@ValidateHostSessions _ RecordingReporter fixtures.ipv4Net
         [fixtures.l3vni "vni1" "red" 1001
            (Some (fixtures.session 65001 65002 "192.168.1.0/24" ""));
          fixtures.l3vni "vni2" "blue" 1002
            (Some (fixtures.session 65003 65004 "192.168.1.128/25" ""))] [] []) = None
  <-> fst (@ValidateHostSessions _ RecordingReporter fixtures.ipv4Net
             [fixtures.l3vni "vni2" "blue" 1002
                (Some (fixtures.session 65003 65004 "192.168.1.128/25" ""));
              fixtures.l3vni "vni1" "red" 1001
                (Some (fixtures.session 65001 65002 "192.168.1.0/24" ""))] [] []) = None.
Proof.
  apply (@host_session_validation_ignores_order fixtures.ipv4Net _ RecordingReporter).
  - apply perm_swap.
  - apply perm_nil.
Defined.

(** ** The verdict and the reporter *)

Section Verdict.
Context {R R' : Type} {rep : StatusReporter R} {rep' : StatusReporter R'}.







End Verdict.


(** ** The Status Aggregator: its channel and its cache *)

Section Aggregator.
Import StatusManager.
Context `{ErrorText}.

Lemma sendTriggerEvent_channel (er : StatusManager) :
  exists b : bool,
    triggerChannel (sendTriggerEvent er)
    = triggerChannel er ++ (if b then [triggerFor er] else [])
    /\ (length (triggerChannel er) <= triggerCapacity er ->
        length (triggerChannel (sendTriggerEvent er)) <= triggerCapacity er)%nat.
Proof.
  unfold sendTriggerEvent.
  destruct (length (triggerChannel er) <? triggerCapacity er)%nat eqn:E.
  - exists true. split; [done |]. intros _. simpl. rewrite length_app. simpl.
    apply Nat.ltb_lt in E. lia.
  - exists false. split; [by rewrite app_nil_r | done].
Qed.

(** One call: the cache apart, the manager is the one before with at most
    one trigger more. *)
Lemma call_channel (c : ReportCall) (er : StatusManager) :
  let er' := replay [c] er in
  triggerFor er' = triggerFor er
  /\ triggerCapacity er' = triggerCapacity er
  /\ exists b : bool,
       triggerChannel er' = triggerChannel er ++ (if b then [triggerFor er] else [])
       /\ (length (triggerChannel er) <= triggerCapacity er ->
           length (triggerChannel er') <= triggerCapacity er)%nat.
Proof.
  destruct c as [kind resourceName | kind resourceName err | kind resourceName]; simpl.
  - unfold ReportResourceSuccess.
    set (er1 := withCache er _).
    destruct (sendTriggerEvent_channel er1) as (b & Hch & Hcap).
    split; [| split].
    + unfold sendTriggerEvent. by destruct (_ <? _)%nat.
    + unfold sendTriggerEvent. by destruct (_ <? _)%nat.
    + by exists b.
  - unfold ReportResourceFailure.
    set (er1 := withCache er _).
    destruct (sendTriggerEvent_channel er1) as (b & Hch & Hcap).
    split; [| split].
    + unfold sendTriggerEvent. by destruct (_ <? _)%nat.
    + unfold sendTriggerEvent. by destruct (_ <? _)%nat.
    + by exists b.
  - unfold ReportResourceRemoved.
    set (er1 := withCache er _).
    destruct (bool_decide _).
    + destruct (sendTriggerEvent_channel er1) as (b & Hch & Hcap).
      split; [| split].
      * unfold sendTriggerEvent. by destruct (_ <? _)%nat.
      * unfold sendTriggerEvent. by destruct (_ <? _)%nat.
      * by exists b.
    + split; [done |]. split; [done |]. exists false. simpl. by rewrite app_nil_r.
Qed.

Lemma replay_cons (c : ReportCall) (calls : list ReportCall) (er : StatusManager) :
  replay (c :: calls) er = replay calls (replay [c] er).
Proof. reflexivity. Qed.

Lemma replay_channel (calls : list ReportCall) :
  forall er : StatusManager,
    exists n,
      (n <= length calls)%nat
      /\ triggerChannel (replay calls er) = triggerChannel er ++ replicate n (triggerFor er)
      /\ triggerCapacity (replay calls er) = triggerCapacity er
      /\ (length (triggerChannel er) <= triggerCapacity er ->
          length (triggerChannel (replay calls er)) <= triggerCapacity er)%nat.
Proof.
  induction calls as [| c calls IH]; intros er.
  - exists 0%nat. simpl. by rewrite app_nil_r.
  - rewrite replay_cons.
    destruct (call_channel c er) as (Hfor & Hcap & b & Hch & Hle).
    destruct (IH (replay [c] er)) as (n & Hn & Hch' & Hcap' & Hle').
    exists ((if b then 1 else 0) + n)%nat. split; [destruct b; simpl; lia |].
    split; [| split].
    + rewrite Hch', Hch, Hfor, <- app_assoc. f_equal. by destruct b.
    + by rewrite Hcap', Hcap.
    + intros Hroom. rewrite <- Hcap. apply Hle'. rewrite Hcap. by apply Hle.
Qed.

(** The summary lists the entries of the cache. *)
Lemma failedIn_lookup (er : StatusManager) (info : FailedResourceInfo) :
  failedIn er info
  <-> exists k e, failedResourceCache er !! k = Some e /\ info = infoOf e.
Proof.
  unfold failedIn, GetStatusSummary. simpl. split.
  - intros Hin. apply list_elem_of_fmap in Hin as ([k e] & -> & Hin).
    exists k, e. split; [| done]. by apply elem_of_map_to_list.
  - intros (k & e & Hk & ->). apply list_elem_of_fmap. exists (k, e). split; [done |].
    by apply elem_of_map_to_list.
Qed.

Lemma call_wellKeyed (c : ReportCall) (er : StatusManager) :
  wellKeyed er -> wellKeyed (replay [c] er).
Proof.
  intros Hwk k e.
  destruct c as [kind resourceName | kind resourceName err | kind resourceName]; simpl.
  - unfold ReportResourceSuccess, sendTriggerEvent.
    destruct (_ <? _)%nat; simpl; intros Hk;
      apply lookup_delete_Some in Hk as [_ Hk]; by apply Hwk.
  - unfold ReportResourceFailure, sendTriggerEvent.
    destruct (_ <? _)%nat; simpl; intros Hk;
      (apply lookup_insert_Some in Hk as [[<- <-] | [_ Hk]]; [done | by apply Hwk]).
  - unfold ReportResourceRemoved, sendTriggerEvent.
    destruct (bool_decide _); [destruct (_ <? _)%nat |]; simpl; intros Hk;
      apply lookup_delete_Some in Hk as [_ Hk]; by apply Hwk.
Qed.

Lemma replay_wellKeyed (calls : list ReportCall) :
  forall er : StatusManager, wellKeyed er -> wellKeyed (replay calls er).
Proof.
  induction calls as [| c calls IH]; intros er Hwk; [done |].
  rewrite replay_cons. by apply IH, call_wellKeyed.
Qed.

Lemma sendTriggerEvent_cache (er : StatusManager) :
  failedResourceCache (sendTriggerEvent er) = failedResourceCache er.
Proof. unfold sendTriggerEvent. by destruct (_ <? _)%nat. Qed.

Lemma ReportResourceSuccess_cache kind resourceName (er : StatusManager) :
  failedResourceCache (ReportResourceSuccess kind resourceName er)
  = delete (cacheKey kind resourceName) (failedResourceCache er).
Proof. unfold ReportResourceSuccess. by rewrite sendTriggerEvent_cache. Qed.

Lemma ReportResourceRemoved_cache kind resourceName (er : StatusManager) :
  failedResourceCache (ReportResourceRemoved kind resourceName er)
  = delete (cacheKey kind resourceName) (failedResourceCache er).
Proof.
  unfold ReportResourceRemoved. destruct (bool_decide _); [| done].
  by rewrite sendTriggerEvent_cache.
Qed.

Lemma ReportResourceFailure_cache kind resourceName err (er : StatusManager) :
  failedResourceCache (ReportResourceFailure kind resourceName err er)
  = <[cacheKey kind resourceName :=
        {| ResourceKind := kind; ResourceName := resourceName;
           ErrorMessage := "failed: " +:+ Error err; Timestamp := now er |}]>
      (failedResourceCache er).
Proof. unfold ReportResourceFailure. by rewrite sendTriggerEvent_cache. Qed.

(** After the deletion of a key the summary lists the resources it listed
    before, those cached under the key apart. *)
Lemma failedIn_delete (er er' : StatusManager) key :
  wellKeyed er ->
  failedResourceCache er' = delete key (failedResourceCache er) ->
  forall info, failedIn er' info <-> failedIn er info /\ keyOf info <> key.
Proof.
  intros Hwk Hcache info. rewrite !failedIn_lookup, Hcache. split.
  - intros (k & e & Hk & ->). apply lookup_delete_Some in Hk as [Hne Hk].
    split; [by exists k, e |]. unfold keyOf. simpl. by rewrite <- (Hwk k e Hk).
  - intros [(k & e & Hk & ->) Hne]. exists k, e. split; [| done].
    apply lookup_delete_Some. split; [| done].
    unfold keyOf in Hne. simpl in Hne. by rewrite <- (Hwk k e Hk) in Hne.
Qed.

End Aggregator.

#[local] Existing Instance StatusManager.StatusManager_reporter.

(** X9: whatever calls are made on a [StatusManager], its channel only
    grows, by at most one trigger per call, every one of them the trigger of
    the manager's node; and a channel within its capacity stays within it:
    no call blocks on a full channel, and none takes an event away. *)
Theorem channel_grows_within_capacity `{ErrorText} (calls : list ReportCall)
    (er : StatusManager.StatusManager) :
  (length (StatusManager.triggerChannel er) <= StatusManager.triggerCapacity er)%nat ->
  exists n,
    (n <= length calls)%nat
    /\ StatusManager.triggerChannel (replay calls er)
       = StatusManager.triggerChannel er ++ replicate n (StatusManager.triggerFor er)
    /\ (length (StatusManager.triggerChannel (replay calls er))
        <= StatusManager.triggerCapacity (replay calls er))%nat.
Proof.
  intros Hroom. destruct (replay_channel calls er) as (n & Hn & Hch & Hcap & Hle).
  exists n. split; [done |]. split; [done |]. rewrite Hcap. by apply Hle.
Qed.

Lemma channel_grows_within_capacity_witness :
  exists n,
    (n <= 3)%nat
    /\ StatusManager.triggerChannel
         (@replay _ (@StatusManager.StatusManager_reporter fixtures.plainErrors)
            [CallFailure L3VNIKind "red" (errorString "no bridge");
             CallRemoved L2VNIKind "layer2";
             CallSuccess L3VNIKind "red"] fixtures.idleManager)
       = [] ++ replicate n (StatusManager.triggerFor fixtures.idleManager)
    /\ (length (StatusManager.triggerChannel
                  (@replay _ (@StatusManager.StatusManager_reporter fixtures.plainErrors)
                     [CallFailure L3VNIKind "red" (errorString "no bridge");
                      CallRemoved L2VNIKind "layer2";
                      CallSuccess L3VNIKind "red"] fixtures.idleManager))
        <= 100)%nat.
Proof.
  apply (@channel_grows_within_capacity fixtures.plainErrors
           [CallFailure L3VNIKind "red" (errorString "no bridge");
            CallRemoved L2VNIKind "layer2";
            CallSuccess L3VNIKind "red"] fixtures.idleManager).
  vm_compute. lia.
Defined.

(** X10: from its creation on, and through every sequence of calls, a
    [StatusManager] keeps each entry of its cache under the key made of the
    entry's own kind and name. *)
Theorem cache_entries_are_keyed_by_kind_and_name `{ErrorText}
    (updateChannel : list StatusManager.triggerEvent) (capacity : nat)
    (nodeName namespace : string) (now : Z) (calls : list ReportCall) :
  wellKeyed
    (replay calls (StatusManager.NewStatusManager updateChannel capacity nodeName namespace now)).
Proof.
  apply replay_wellKeyed. intros k e.
  unfold StatusManager.NewStatusManager. rewrite sendTriggerEvent_cache. simpl.
  by rewrite lookup_empty.
Qed.

(** X11: what the summary lists after a call.  After a failure of a
    resource it lists that resource, with the text of the error after
    [failed: ], and the resources it listed before that are cached under
    another key; after a success or a removal it lists the resources it
    listed before, those under the key of the resource apart. *)
Theorem summary_follows_the_last_report `{ErrorText} (er : StatusManager.StatusManager)
    (kind : ResourceKind) (resourceName : string) (err : error)
    (info : StatusManager.FailedResourceInfo) :
  wellKeyed er ->
  (failedIn (StatusManager.ReportResourceFailure kind resourceName err er) info
   <-> info = {| StatusManager.info_Kind := kind; StatusManager.info_Name := resourceName;
                 StatusManager.info_ErrorMessage := "failed: " +:+ Error err |}
       \/ (failedIn er info /\ keyOf info <> StatusManager.cacheKey kind resourceName))
  /\ (failedIn (StatusManager.ReportResourceSuccess kind resourceName er) info
      <-> failedIn er info /\ keyOf info <> StatusManager.cacheKey kind resourceName)
  /\ (failedIn (StatusManager.ReportResourceRemoved kind resourceName er) info
      <-> failedIn er info /\ keyOf info <> StatusManager.cacheKey kind resourceName).
Proof.
  intros Hwk. split; [| split].
  - rewrite !failedIn_lookup, ReportResourceFailure_cache. split.
    + intros (k & e & Hk & ->). apply lookup_insert_Some in Hk as [[<- <-] | [Hne Hk]].
      * by left.
      * right. split; [by exists k, e |]. unfold keyOf. simpl. by rewrite <- (Hwk k e Hk).
    + intros [-> | [(k & e & Hk & ->) Hne]].
      * eexists _, _. split; [apply lookup_insert_Some; left; done | done].
      * exists k, e. split; [| done]. apply lookup_insert_Some. right. split; [| done].
        unfold keyOf in Hne. simpl in Hne. by rewrite <- (Hwk k e Hk) in Hne.
  - apply (failedIn_delete er _ _ Hwk), ReportResourceSuccess_cache.
  - apply (failedIn_delete er _ _ Hwk), ReportResourceRemoved_cache.
Qed.

Lemma summary_follows_the_last_report_witness :
  failedIn
    (@StatusManager.ReportResourceFailure fixtures.plainErrors L3VNIKind "red"
       (errorString "no bridge") fixtures.idleManager)
    {| StatusManager.info_Kind := L3VNIKind; StatusManager.info_Name := "red";
       StatusManager.info_ErrorMessage := "failed: no bridge" |}
  /\ ~ failedIn
         (StatusManager.ReportResourceSuccess L3VNIKind "red" fixtures.idleManager)
         {| StatusManager.info_Kind := L3VNIKind; StatusManager.info_Name := "red";
            StatusManager.info_ErrorMessage := "failed: no bridge" |}.
Proof.
  assert (Hwk : wellKeyed fixtures.idleManager).
  { intros k e Hk. simpl in Hk. by rewrite lookup_empty in Hk. }
  pose proof (@summary_follows_the_last_report fixtures.plainErrors fixtures.idleManager
                L3VNIKind "red" (errorString "no bridge")
                {| StatusManager.info_Kind := L3VNIKind; StatusManager.info_Name := "red";
                   StatusManager.info_ErrorMessage := "failed: no bridge" |} Hwk)
    as (Hfail & Hsucc & _).
  split.
  - apply Hfail. by left.
  - intros Hin. apply Hsucc in Hin as [_ Hne]. by apply Hne.
Defined.

Section CacheKeys.
Import StatusManager.

Lemma append_nil (r : string) : "" +:+ r = r.
Proof. reflexivity. Qed.

Lemma append_cons (c : ascii) (k r : string) : String c k +:+ r = String c (k +:+ r).
Proof. reflexivity. Qed.

Lemma cacheKey_inj kind :
  forall kind' resourceName resourceName',
    noColon kind -> noColon kind' ->
    cacheKey kind resourceName = cacheKey kind' resourceName' ->
    kind = kind' /\ resourceName = resourceName'.
Proof.
  unfold noColon, cacheKey.
  induction kind as [| c k IH]; intros [| c' k'] n n' Hk Hk' Heq;
    repeat (rewrite append_cons in Heq || rewrite append_nil in Heq); simpl in Hk, Hk'.
  - by injection Heq as ->.
  - injection Heq as <- _. exfalso. apply Hk'. by left.
  - injection Heq as -> _. exfalso. apply Hk. by left.
  - injection Heq as -> Heq.
    apply not_elem_of_cons in Hk as [_ Hk]. apply not_elem_of_cons in Hk' as [_ Hk'].
    by destruct (IH k' n n' Hk Hk' Heq) as [-> ->].
Qed.

(** The loop of [GetStatusSummary] over the timestamps. *)
Lemma latest_fold (entries : list (string * failedResourceCacheEntry)) :
  forall start,
    let latest :=
      fold_left (fun latestUpdate kv =>
                   if (latestUpdate <? Timestamp (snd kv))%Z
                   then Timestamp (snd kv) else latestUpdate) entries start in
    start <= latest
    /\ (forall kv, kv ∈ entries -> Timestamp (snd kv) <= latest)
    /\ (latest = start \/ exists kv, kv ∈ entries /\ Timestamp (snd kv) = latest).
Proof.
  induction entries as [| kv rest IH]; intros start; simpl.
  - split; [lia |]. split; [| by left]. intros kv Hin. by apply elem_of_nil in Hin.
  - destruct (IH (if (start <? Timestamp (snd kv))%Z then Timestamp (snd kv) else start))
      as (Hle & Hall & Hwhich).
    split; [| split].
    + destruct (Z.ltb_spec start (Timestamp (snd kv))); lia.
    + intros kv' Hin. apply elem_of_cons in Hin as [-> | Hin]; [| by apply Hall].
      destruct (Z.ltb_spec start (Timestamp (snd kv))); lia.
    + destruct Hwhich as [Hsame | (kv' & Hin & Hts)].
      * destruct (Z.ltb_spec start (Timestamp (snd kv))); [| by left].
        right. exists kv. split; [by left | done].
      * right. exists kv'. split; [by right | done].
Qed.

Lemma ReportResourceRemoved_absent kind resourceName (er : StatusManager) :
  failedResourceCache er !! cacheKey kind resourceName = None ->
  ReportResourceRemoved kind resourceName er = er.
Proof.
  intros Hnone. unfold ReportResourceRemoved.
  rewrite bool_decide_eq_false_2; [| rewrite Hnone; by intros [? ?]].
  destruct er. unfold withCache. simpl in *. f_equal. by apply delete_id.
Qed.

End CacheKeys.

(** X12: two resources are cached under the same key only when they are the
    same resource, provided their kinds have no colon; the four kinds of
    the package have none. *)
Theorem cacheKey_tells_resources_apart (kind kind' : ResourceKind)
    (resourceName resourceName' : string) :
  noColon kind -> noColon kind' ->
  StatusManager.cacheKey kind resourceName = StatusManager.cacheKey kind' resourceName' ->
  kind = kind' /\ resourceName = resourceName'.
Proof. apply cacheKey_inj. Qed.

Lemma cacheKey_tells_resources_apart_witness :
  Forall noColon [UnderlayKind; L2VNIKind; L3VNIKind; L3PassthroughKind]
  /\ (L3VNIKind = L3VNIKind /\ "red" = "red").
Proof.
  assert (Hkinds : Forall noColon [UnderlayKind; L2VNIKind; L3VNIKind; L3PassthroughKind]).
  { repeat constructor; unfold noColon; simpl; intros Hin;
      repeat (apply elem_of_cons in Hin as [Hin | Hin]; [discriminate |]);
      by apply elem_of_nil in Hin. }
  split; [done |].
  apply (cacheKey_tells_resources_apart L3VNIKind L3VNIKind "red" "red").
  - by apply (Forall_lookup_1 _ _ 2 _ Hkinds).
  - by apply (Forall_lookup_1 _ _ 2 _ Hkinds).
  - reflexivity.
Defined.

(** X13: the [LastUpdateTime] of the summary is the latest timestamp of the
    cache: no entry is later, and it is the timestamp of an entry unless it
    is the zero time, which it is when the cache is empty. *)
Theorem LastUpdateTime_is_the_latest_failure (er : StatusManager.StatusManager) :
  let latest := StatusManager.LastUpdateTime (StatusManager.GetStatusSummary er) in
  (forall k e, StatusManager.failedResourceCache er !! k = Some e ->
               StatusManager.Timestamp e <= latest)
  /\ (latest = 0
      \/ exists k e, StatusManager.failedResourceCache er !! k = Some e
                     /\ StatusManager.Timestamp e = latest)
  /\ (StatusManager.failedResourceCache er = ∅ -> latest = 0).
Proof.
  unfold StatusManager.GetStatusSummary. simpl.
  destruct (latest_fold (map_to_list (StatusManager.failedResourceCache er)) 0)
    as (_ & Hall & Hwhich).
  split; [| split].
  - intros k e Hk. by apply (Hall (k, e)), elem_of_map_to_list.
  - destruct Hwhich as [-> | ([k e] & Hin & Hts)]; [by left |].
    right. exists k, e. split; [by apply elem_of_map_to_list | done].
  - intros ->. by rewrite map_to_list_empty.
Qed.

(** X14: a second [ReportResourceRemoved] of the same resource changes
    nothing, neither the cache nor the channel: the first one has taken the
    resource out of the cache, and the removal of a resource that is not in
    the cache sends no trigger. *)
Theorem ReportResourceRemoved_is_idempotent (er : StatusManager.StatusManager)
    (kind : ResourceKind) (resourceName : string) :
  StatusManager.ReportResourceRemoved kind resourceName
    (StatusManager.ReportResourceRemoved kind resourceName er)
  = StatusManager.ReportResourceRemoved kind resourceName er.
Proof.
  apply ReportResourceRemoved_absent.
  rewrite ReportResourceRemoved_cache. apply lookup_delete_eq.
Qed.

(** ** The controller: the cleanup of the removed resources *)

Section Cleanup.
Import StatusManager controller.
Context `{ErrorText}.

Lemma isCurrent_insert (m : gmap string bool) (k n : string) :
  isCurrent (<[k := true]> m) n = true <-> k = n \/ isCurrent m n = true.
Proof.
  unfold isCurrent. destruct (decide (k = n)) as [-> | Hne].
  - rewrite lookup_insert_eq. split; [by left | done].
  - rewrite lookup_insert_ne by done. split; [by right |]. by intros [? | ?].
Qed.

Lemma isCurrent_fold {A} (nameOf : A -> string) (l : list A) :
  forall (m : gmap string bool) n,
    isCurrent (fold_left (fun m x => <[nameOf x := true]> m) l m) n = true
    <-> n ∈ map nameOf l \/ isCurrent m n = true.
Proof.
  induction l as [| x rest IH]; intros m n; simpl.
  - split; [by right |]. intros [Hin | ?]; [by apply elem_of_nil in Hin | done].
  - rewrite IH, isCurrent_insert, elem_of_cons. split.
    + intros [? | [-> | ?]]; [left; by right | left; by left | by right].
    + intros [[-> | ?] | ?]; [right; by left | by left | right; by right].
Qed.

Lemma isCurrent_currentNames {A} (nameOf : A -> string) (l : list A) (n : string) :
  isCurrent (currentNames nameOf l) n = true <-> n ∈ map nameOf l.
Proof.
  unfold currentNames. rewrite isCurrent_fold. unfold isCurrent. rewrite lookup_empty.
  split; [by intros [? | ?] | by left].
Qed.

Lemma resourceExists_stillDeclared underlays l3vnis l2vnis l3passthrough info :
  resourceExists (currentNames Underlay_Name underlays) (currentNames L3VNI_Name l3vnis)
    (currentNames L2VNI_Name l2vnis) (currentNames L3Passthrough_Name l3passthrough) info
  = true
  <-> stillDeclared underlays l3vnis l2vnis l3passthrough (info_Kind info) (info_Name info).
Proof.
  unfold resourceExists, stillDeclared.
  destruct (String.eqb_spec (info_Kind info) UnderlayKind) as [-> | HU].
  { rewrite isCurrent_currentNames. split; [by left |].
    intros [[_ ?] | [[? _] | [[? _] | [? _]]]]; done. }
  destruct (String.eqb_spec (info_Kind info) L3VNIKind) as [-> | H3].
  { rewrite isCurrent_currentNames. split; [right; by left |].
    intros [[? _] | [[_ ?] | [[? _] | [? _]]]]; done. }
  destruct (String.eqb_spec (info_Kind info) L2VNIKind) as [-> | H2].
  { rewrite isCurrent_currentNames. split; [right; right; by left |].
    intros [[? _] | [[? _] | [[_ ?] | [? _]]]]; done. }
  destruct (String.eqb_spec (info_Kind info) L3PassthroughKind) as [-> | HP].
  { rewrite isCurrent_currentNames. split; [right; right; by right |].
    intros [[? _] | [[? _] | [[? _] | [_ ?]]]]; done. }
  split; [done |]. intros [[? _] | [[? _] | [[? _] | [? _]]]]; done.
Qed.

(** The loop of the cleanup: an entry of the cache is still there after it
    exactly when no failed resource of the list that no longer exists is
    cached under its key. *)
Lemma cleanup_fold (cu c3 c2 cp : gmap string bool) (infos : list FailedResourceInfo) :
  forall (er : StatusManager) k e,
    failedResourceCache (fold_left (cleanupOne cu c3 c2 cp) infos er) !! k = Some e
    <-> failedResourceCache er !! k = Some e
        /\ forall info, info ∈ infos -> resourceExists cu c3 c2 cp info = false ->
                        keyOf info <> k.
Proof.
  induction infos as [| i rest IH]; intros er k e; simpl.
  - split; [| by intros [? _]]. intros Hk. split; [done |].
    intros info Hin. by apply elem_of_nil in Hin.
  - rewrite IH. unfold cleanupOne.
    destruct (resourceExists cu c3 c2 cp i) eqn:Ex; simpl.
    + split.
      * intros [Hk Hrest]. split; [done |]. intros info Hin Hgone.
        apply elem_of_cons in Hin as [-> | Hin]; [congruence | by apply Hrest].
      * intros [Hk Hall]. split; [done |]. intros info Hin. apply Hall. by right.
    + rewrite ReportResourceRemoved_cache. split.
      * intros [Hk Hrest]. apply lookup_delete_Some in Hk as [Hne Hk]. split; [done |].
        intros info Hin Hgone.
        apply elem_of_cons in Hin as [-> | Hin]; [done | by apply Hrest].
      * intros [Hk Hall]. split.
        -- apply lookup_delete_Some. split; [| done]. apply (Hall i); [by left | done].
        -- intros info Hin. apply Hall. by right.
Qed.

Lemma cleanupRemovedFailedResources_failedIn underlays l3vnis l2vnis l3passthrough
    (er : StatusManager) :
  wellKeyed er ->
  forall info,
    failedIn (cleanupRemovedFailedResources underlays l3vnis l2vnis l3passthrough er) info
    <-> failedIn er info
        /\ stillDeclared underlays l3vnis l2vnis l3passthrough (info_Kind info) (info_Name info).
Proof.
  intros Hwk info. unfold cleanupRemovedFailedResources. simpl.
  rewrite <- resourceExists_stillDeclared.
  set (cu := currentNames Underlay_Name underlays).
  set (c3 := currentNames L3VNI_Name l3vnis).
  set (c2 := currentNames L2VNI_Name l2vnis).
  set (cp := currentNames L3Passthrough_Name l3passthrough).
  rewrite (failedIn_lookup (fold_left _ _ _)). split.
  - intros (k & e & Hk & ->). apply cleanup_fold in Hk as [Hk Hall].
    assert (Hin : failedIn er (infoOf e)) by (apply failedIn_lookup; eauto).
    split; [done |].
    destruct (resourceExists cu c3 c2 cp (infoOf e)) eqn:Ex; [done |].
    exfalso. apply (Hall (infoOf e) Hin Ex). unfold keyOf. simpl. symmetry. by apply Hwk.
  - intros [Hin Hex]. apply failedIn_lookup in Hin as (k & e & Hk & ->).
    exists k, e. split; [| done]. apply cleanup_fold. split; [done |].
    intros info Hin Hgone Hkey.
    apply failedIn_lookup in Hin as (k' & e' & Hk' & ->).
    unfold keyOf in Hkey. simpl in Hkey. rewrite <- (Hwk k' e' Hk') in Hkey. subst k'.
    assert (e' = e) as -> by congruence. congruence.
Qed.

End Cleanup.

#[local] Existing Instance controller.StatusManager_maybeReader.

(** X15: on a [StatusManager], [cleanupRemovedFailedResources] keeps the
    failures of the resources that are still declared and drops all the
    others: after it the summary lists a failed resource exactly when it
    listed it before and the resource is, under one of the four kinds, in
    the listing of that kind. *)
Theorem cleanup_keeps_exactly_the_declared_failures `{ErrorText}
    (underlays : list Underlay) (l3vnis : list L3VNI) (l2vnis : list L2VNI)
    (l3passthrough : list v1alpha1.L3Passthrough) (er : StatusManager.StatusManager)
    (info : StatusManager.FailedResourceInfo) :
  wellKeyed er ->
  (failedIn
     (controller.cleanupRemovedFailedResources underlays l3vnis l2vnis l3passthrough er) info
   <-> failedIn er info
       /\ stillDeclared underlays l3vnis l2vnis l3passthrough
            (StatusManager.info_Kind info) (StatusManager.info_Name info)).
Proof. intros Hwk. by apply cleanupRemovedFailedResources_failedIn. Qed.

Lemma cleanup_keeps_exactly_the_declared_failures_witness :
  failedIn
    (@controller.cleanupRemovedFailedResources _
       (@StatusManager.StatusManager_reporter fixtures.plainErrors) _
       [] [fixtures.l3vni "red" "red" 100 None] [] [] twoFailures)
    {| StatusManager.info_Kind := L3VNIKind; StatusManager.info_Name := "red";
       StatusManager.info_ErrorMessage := "failed: no bridge" |}
  /\ ~ failedIn
         (@controller.cleanupRemovedFailedResources _
            (@StatusManager.StatusManager_reporter fixtures.plainErrors) _
            [] [fixtures.l3vni "red" "red" 100 None] [] [] twoFailures)
         {| StatusManager.info_Kind := L2VNIKind; StatusManager.info_Name := "gone";
            StatusManager.info_ErrorMessage := "failed: no bridge" |}.
Proof.
  assert (Hwk : wellKeyed twoFailures).
  { apply (@replay_wellKeyed fixtures.plainErrors). intros k e Hk. simpl in Hk.
    by rewrite lookup_empty in Hk. }
  split.
  - apply (@cleanup_keeps_exactly_the_declared_failures fixtures.plainErrors
             [] [fixtures.l3vni "red" "red" 100 None] [] [] twoFailures _ Hwk).
    split.
    + apply failedIn_lookup.
      exists "L3VNI:red",
        {| StatusManager.ResourceKind := L3VNIKind; StatusManager.ResourceName := "red";
           StatusManager.ErrorMessage := "failed: no bridge";
           StatusManager.Timestamp := 1000 |}.
      split; [vm_compute; reflexivity | reflexivity].
    + right. left. split; [done |]. simpl. by left.
  - intros Hin.
    apply (@cleanup_keeps_exactly_the_declared_failures fixtures.plainErrors
             [] [fixtures.l3vni "red" "red" 100 None] [] [] twoFailures _ Hwk) in Hin
      as [_ Hdecl].
    destruct Hdecl as [[? _] | [[? _] | [[_ Hin] | [? _]]]]; try discriminate.
    simpl in Hin. by apply elem_of_nil in Hin.
Defined.

(** ** The controller: what a pass returns *)

Section ControllerPass.
Import controller.
Context {types : Types} {env : Environment} `{Net} `{IPFamily} `{L2VNIMethods}.
Context {R : Type} {rep : StatusReporter R} `{MaybeReader R}.

Lemma afterPipeline_no_requeue router underlays l3vnis l2vnis l3passthrough
    (ran : result unit * World R) :
  RequeueAfter
    (out_Result (fst (afterPipeline router underlays l3vnis l2vnis l3passthrough ran))) = 0.
Proof.
  unfold afterPipeline. destruct (fst ran) as [[] | e]; [done |].
  destruct (nonRecoverableHostError (Some e)); [| done].
  by destruct (HandleNonRecoverableError router).
Qed.

Lemma afterPipeline_handled router underlays l3vnis l2vnis l3passthrough
    (ran : result unit * World R) :
  out_handled (fst (afterPipeline router underlays l3vnis l2vnis l3passthrough ran)) = true ->
  out_err (fst (afterPipeline router underlays l3vnis l2vnis l3passthrough ran)) <> None.
Proof.
  unfold afterPipeline. destruct (fst ran) as [[] | e]; [done |].
  destruct (nonRecoverableHostError (Some e)); [| done].
  by destruct (HandleNonRecoverableError router).
Qed.

(** A validation that accepts leaves the reporter as it was. *)
Lemma accepted_run (f : R -> option error * R) resources (sr : R) :
  reportsOnce resources sr (f sr) -> fst (f sr) = None -> f sr = (None, sr).
Proof. destruct (f sr) as [[e |] sr']; simpl; [done |]. by intros ->. Qed.

(** With sound declarations and an accepted push, a pass of the pipeline
    is the configuration of the host after the push. *)
Lemma Reconcile_reaches_the_host (apiConfig : ApiConfigData)
    (frrConfigPath targetNamespace frrConfig : string) (w : World R) :
  Underlays apiConfig = [] ->
  vnisSound (vnisFromL3VNIs (L3VNIs apiConfig)) ->
  vnisSound (vnisFromL2VNIs (L2VNIs apiConfig)) ->
  Forall l2Sound (L2VNIs apiConfig) ->
  Forall sessionSound (collectHostSessions (L3VNIs apiConfig) (L3Passthrough apiConfig)) ->
  ~ hasOverlap (collectHostSessions (L3VNIs apiConfig) (L3Passthrough apiConfig)) ->
  APItoFRR apiConfig = inl frrConfig ->
  updaterAnswer (effects w) frrConfigPath frrConfig = None ->
  routerconfiguration.Reconcile apiConfig frrConfigPath targetNamespace w
  = match configureInterfaces
            {| RouterPodUUID := ""; targetNamespace := targetNamespace; config := apiConfig |}
            {| reporter := reporter w;
               effects := effects w ++ [Pushed frrConfigPath frrConfig None] |} with
    | (Err e, w') => (Err (wrapError "failed to configure the host: %w" [] e), w')
    | (Ok _, w') => (Ok tt, w')
    end.
Proof.
  intros Hu Hl3 Hl2 Hl2s Hhs Hno Hfrr Hupd.
  assert (E2 : ValidateL3VNIs (L3VNIs apiConfig) (reporter w) = (None, reporter w)).
  { eapply accepted_run; [apply ValidateL3VNIs_reportsOnce |].
    by apply ValidateL3VNIs_accepts. }
  assert (E3 : ValidateL2VNIs (L2VNIs apiConfig) (reporter w) = (None, reporter w)).
  { eapply accepted_run; [apply ValidateL2VNIs_reportsOnce |].
    by apply ValidateL2VNIs_accepts. }
  assert (E4 : ValidateHostSessions (L3VNIs apiConfig) (L3Passthrough apiConfig) (reporter w)
               = (None, reporter w)).
  { eapply accepted_run; [apply ValidateHostSessions_reportsOnce |].
    by apply ValidateHostSessions_accepts. }
  assert (E1 : ValidateUnderlays (Underlays apiConfig) (reporter w) = (None, reporter w))
    by (by rewrite Hu).
  unfold routerconfiguration.Reconcile, bind, orReturn, validate.
  rewrite E1. step. rewrite E2. step. rewrite E3. step. rewrite E4. step.
  unfold configureFRR. cbn [frr_config configFile]. rewrite Hfrr.
  unfold bind, updater. cbn [effects reporter]. rewrite Hupd. step.
  by destruct (configureInterfaces _ _) as [[[] | e] w'].
Qed.

End ControllerPass.

(** X16: a pass of the controller asks for a requeue only when the router
    says, without an error, that it cannot be reconciled; the delay is then
    five seconds, no error is returned, and nothing was done: no report, no
    push to FRR, no call of the host, no restart of the router. *)
Theorem requeue_only_when_router_is_not_ready {types : Types} {env : Environment}
    `{Net} `{IPFamily} `{L2VNIMethods} {R} {rep : StatusReporter R}
    `{controller.MaybeReader R} (r : controller.PERouterReconciler) (w : World R) :
  controller.RequeueAfter (controller.out_Result (fst (controller.Reconcile r w))) <> 0 ->
  (exists router,
      controller.New (controller.provider r) = inl router
      /\ controller.router_CanReconcile router = (false, None))
  /\ controller.Reconcile r w
     = (controller.returns (5 * controller.Second) None false, w).
Proof.
  unfold controller.Reconcile.
  destruct (controller.listUnderlays r) as [underlays | ?]; [| done].
  destruct (controller.listL3VNIs r) as [l3vnis | ?]; [| done].
  destruct (controller.listL2VNIs r) as [l2vnis | ?]; [| done].
  destruct (controller.listL3Passthroughs r) as [l3passthrough | ?]; [| done].
  destruct (controller.provider_NodeIndex (controller.provider r)) as [nodeIndex | ?];
    [| done].
  destruct (controller.New (controller.provider r)) as [router | ?]; [| done].
  destruct (controller.TargetNS router) as [targetNS | ?]; [| done].
  destruct (controller.router_CanReconcile router) as [[|] [err |]] eqn:Ecan; try done.
  - intros Hrequeue. exfalso. apply Hrequeue. apply afterPipeline_no_requeue.
  - intros _. split; [by exists router | done].
Qed.

Lemma requeue_only_when_router_is_not_ready_witness :
  @controller.Reconcile fixtures.numbers (fixtures.agreeableHost true) fixtures.ipv4Net
    fixtures.oneGateway fixtures.vrfOrName _ RecordingReporter
    {| controller.asStatusReader := None |}
    (nodeReconciler (false, None)
       [fixtures.underlay "underlay" 64512 []] [] [] [])
    fixtures.start
  = (controller.returns 5000000000 None false, fixtures.start).
Proof.
  apply (@requeue_only_when_router_is_not_ready fixtures.numbers (fixtures.agreeableHost true)
           fixtures.ipv4Net fixtures.oneGateway fixtures.vrfOrName _ RecordingReporter
           {| controller.asStatusReader := None |}
           (nodeReconciler (false, None)
              [fixtures.underlay "underlay" 64512 []] [] [] [])
           fixtures.start).
  vm_compute. discriminate.
Defined.

(** X17: a pass of the controller that invoked [HandleNonRecoverableError]
    returns an error: the router is never restarted by a pass that reports
    success, and never by one that asks for a requeue. *)
Theorem router_restart_comes_with_an_error {types : Types} {env : Environment}
    `{Net} `{IPFamily} `{L2VNIMethods} {R} {rep : StatusReporter R}
    `{controller.MaybeReader R} (r : controller.PERouterReconciler) (w : World R) :
  controller.out_handled (fst (controller.Reconcile r w)) = true ->
  controller.out_err (fst (controller.Reconcile r w)) <> None
  /\ controller.RequeueAfter (controller.out_Result (fst (controller.Reconcile r w))) = 0.
Proof.
  unfold controller.Reconcile.
  destruct (controller.listUnderlays r) as [underlays | ?]; [| done].
  destruct (controller.listL3VNIs r) as [l3vnis | ?]; [| done].
  destruct (controller.listL2VNIs r) as [l2vnis | ?]; [| done].
  destruct (controller.listL3Passthroughs r) as [l3passthrough | ?]; [| done].
  destruct (controller.provider_NodeIndex (controller.provider r)) as [nodeIndex | ?];
    [| done].
  destruct (controller.New (controller.provider r)) as [router | ?]; [| done].
  destruct (controller.TargetNS router) as [targetNS | ?]; [| done].
  destruct (controller.router_CanReconcile router) as [[|] [err |]]; try done.
  intros Hhandled. split; [by apply afterPipeline_handled | apply afterPipeline_no_requeue].
Qed.

(** X18: when no Underlay is declared any more while the target namespace
    still has an underlay interface, a pass of the controller whose
    declarations are sound and whose push to FRR is accepted invokes
    [HandleNonRecoverableError]; it returns the error of that call when
    there is one, and [UnderlayRemovedError] wrapped as a failure to
    configure the host otherwise. *)
Theorem removed_underlay_restarts_the_router {types : Types} {env : Environment}
    `{Net} `{IPFamily} `{L2VNIMethods} {R} {rep : StatusReporter R}
    `{controller.MaybeReader R} (r : controller.PERouterReconciler) (w : World R)
    (router : controller.Router) (targetNS frrConfig : string) (nodeIndex : Z)
    (l3vnis : list L3VNI) (l2vnis : list L2VNI) (l3passthrough : list v1alpha1.L3Passthrough) :
  controller.listUnderlays r = inl [] ->
  controller.listL3VNIs r = inl l3vnis ->
  controller.listL2VNIs r = inl l2vnis ->
  controller.listL3Passthroughs r = inl l3passthrough ->
  controller.provider_NodeIndex (controller.provider r) = inl nodeIndex ->
  controller.New (controller.provider r) = inl router ->
  controller.TargetNS router = inl targetNS ->
  controller.router_CanReconcile router = (true, None) ->
  vnisSound (vnisFromL3VNIs l3vnis) ->
  vnisSound (vnisFromL2VNIs l2vnis) ->
  Forall l2Sound l2vnis ->
  Forall sessionSound (collectHostSessions l3vnis l3passthrough) ->
  ~ hasOverlap (collectHostSessions l3vnis l3passthrough) ->
  APItoFRR
    {| NodeIndex := nodeIndex;
       UnderlayFromMultus := controller.reconciler_UnderlayFromMultus r;
       Underlays := [];
       LogLevel := controller.reconciler_LogLevel r;
       L3VNIs := l3vnis; L2VNIs := l2vnis; L3Passthrough := l3passthrough |}
  = inl frrConfig ->
  updaterAnswer (effects w) (controller.FRRConfigPath r) frrConfig = None ->
  hasUnderlayInterface
    (effects w ++ [Pushed (controller.FRRConfigPath r) frrConfig None]) targetNS
  = (true, None) ->
  controller.out_handled (fst (controller.Reconcile r w)) = true
  /\ controller.out_err (fst (controller.Reconcile r w))
     = Some match controller.HandleNonRecoverableError router with
            | Some handleErr => handleErr
            | None => wrapError "failed to configure the host: %w" [] UnderlayRemovedError
            end.
Proof.
  intros Eu E3 E2 Ep Enode Enew Ens Ecan Hl3 Hl2 Hl2s Hhs Hno Hfrr Hupd Hprobe.
  unfold controller.Reconcile. rewrite Eu, E3, E2, Ep, Enode, Enew, Ens, Ecan.
  erewrite Reconcile_reaches_the_host; [| done | done | done | done | done | done | | ];
    [| exact Hfrr | exact Hupd].
  match goal with
  | |- context [configureInterfaces ?cfg ?w5] =>
      destruct (proj2 (configureInterfaces_UnderlayRemoved cfg w5)) as [w6 Hrun];
        [by split |]; rewrite Hrun
  end.
  unfold controller.afterPipeline. cbn [fst snd].
  assert (Hnon : nonRecoverableHostError
                   (Some (wrapError "failed to configure the host: %w" [] UnderlayRemovedError))
                 = true) by reflexivity.
  rewrite Hnon. by destruct (controller.HandleNonRecoverableError router).
Qed.

Lemma router_restart_comes_with_an_error_witness :
  controller.out_err
    (fst (@controller.Reconcile fixtures.numbers (fixtures.agreeableHost true) fixtures.ipv4Net
            fixtures.oneGateway fixtures.vrfOrName _ RecordingReporter
            {| controller.asStatusReader := None |}
            (nodeReconciler (true, None)
               [] [fixtures.l3vni "red" "red" 100 None] [] [])
            fixtures.start))
  <> None
  /\ controller.RequeueAfter
       (controller.out_Result
          (fst (@controller.Reconcile fixtures.numbers (fixtures.agreeableHost true)
                  fixtures.ipv4Net fixtures.oneGateway fixtures.vrfOrName _ RecordingReporter
                  {| controller.asStatusReader := None |}
                  (nodeReconciler (true, None)
                     [] [fixtures.l3vni "red" "red" 100 None] [] [])
                  fixtures.start)))
     = 0.
Proof.
  apply (@router_restart_comes_with_an_error fixtures.numbers (fixtures.agreeableHost true)
           fixtures.ipv4Net fixtures.oneGateway fixtures.vrfOrName _ RecordingReporter
           {| controller.asStatusReader := None |}
           (nodeReconciler (true, None)
              [] [fixtures.l3vni "red" "red" 100 None] [] [])
           fixtures.start).
  vm_compute. reflexivity.
Defined.

Lemma removed_underlay_restarts_the_router_witness :
  controller.out_handled
    (fst (@controller.Reconcile fixtures.numbers (fixtures.agreeableHost true) fixtures.ipv4Net
            fixtures.oneGateway fixtures.vrfOrName _ RecordingReporter
            {| controller.asStatusReader := None |}
            (nodeReconciler (true, None) [] [] [] [])
            fixtures.start))
  = true
  /\ controller.out_err
       (fst (@controller.Reconcile fixtures.numbers (fixtures.agreeableHost true)
               fixtures.ipv4Net fixtures.oneGateway fixtures.vrfOrName _ RecordingReporter
               {| controller.asStatusReader := None |}
               (nodeReconciler (true, None) [] [] [] [])
               fixtures.start))
     = Some (wrapError "failed to configure the host: %w" [] UnderlayRemovedError).
Proof.
  assert (Hsound : vnisSound []) by (split; [constructor | split; constructor]).
  apply (@removed_underlay_restarts_the_router fixtures.numbers (fixtures.agreeableHost true)
           fixtures.ipv4Net fixtures.oneGateway fixtures.vrfOrName _ RecordingReporter
           {| controller.asStatusReader := None |}
           (nodeReconciler (true, None) [] [] [] [])
           fixtures.start (routerOf (true, None)) "ns" "frr.conf" 0
           [] [] []);
    try reflexivity; try exact Hsound; try (by constructor).
  intros (i & j & s & t & _ & Hs & _). simpl in Hs. discriminate.
Defined.

(** ** The controller: the reports of a successful pass *)

Section SuccessReports.
Import StatusManager controller.
Context `{ErrorText}.

Lemma success_fold_cache {A} kind (nameOf : A -> string) (l : list A) :
  forall (er : StatusManager) k,
    failedResourceCache er !! k = None
    \/ (exists x, x ∈ l /\ k = cacheKey kind (nameOf x)) ->
    failedResourceCache
      (fold_left (fun sr x => ReportResourceSuccess kind (nameOf x) sr) l er) !! k = None.
Proof.
  induction l as [| x rest IH]; intros er k Hk; simpl.
  - destruct Hk as [? | (x & Hin & _)]; [done | by apply elem_of_nil in Hin].
  - apply IH. rewrite ReportResourceSuccess_cache.
    destruct (decide (k = cacheKey kind (nameOf x))) as [-> | Hne].
    { left. apply lookup_delete_eq. }
    destruct Hk as [Hnone | (y & Hin & ->)].
    + left. by rewrite lookup_delete_ne.
    + apply elem_of_cons in Hin as [-> | Hin]; [done |]. right. by exists y.
Qed.

Lemma elem_of_map_inv {A} (nameOf : A -> string) (l : list A) (n : string) :
  n ∈ map nameOf l -> exists x, x ∈ l /\ n = nameOf x.
Proof.
  intros Hin. apply list_elem_of_fmap in Hin as (x & -> & Hin). by exists x.
Qed.

Lemma success_reports_clear underlays l3vnis l2vnis l3passthrough (er : StatusManager)
    kind resourceName :
  stillDeclared underlays l3vnis l2vnis l3passthrough kind resourceName ->
  failedResourceCache
    (reportL3PassthroughConfigurationSuccess l3passthrough
       (reportL3VNIConfigurationSuccess l3vnis
          (reportL2VNIConfigurationSuccess l2vnis
             (reportUnderlayConfigurationSuccess underlays er))))
  !! cacheKey kind resourceName = None.
Proof.
  unfold reportL3PassthroughConfigurationSuccess, reportL3VNIConfigurationSuccess,
    reportL2VNIConfigurationSuccess, reportUnderlayConfigurationSuccess.
  intros [[-> Hin] | [[-> Hin] | [[-> Hin] | [-> Hin]]]];
    apply elem_of_map_inv in Hin as (x & Hin & ->).
  - apply (success_fold_cache L3PassthroughKind L3Passthrough_Name). left.
    apply (success_fold_cache L3VNIKind L3VNI_Name). left.
    apply (success_fold_cache L2VNIKind L2VNI_Name). left.
    apply (success_fold_cache UnderlayKind Underlay_Name). right. by exists x.
  - apply (success_fold_cache L3PassthroughKind L3Passthrough_Name). left.
    apply (success_fold_cache L3VNIKind L3VNI_Name). right. by exists x.
  - apply (success_fold_cache L3PassthroughKind L3Passthrough_Name). left.
    apply (success_fold_cache L3VNIKind L3VNI_Name). left.
    apply (success_fold_cache L2VNIKind L2VNI_Name). right. by exists x.
  - apply (success_fold_cache L3PassthroughKind L3Passthrough_Name). right. by exists x.
Qed.

End SuccessReports.

(** X19: after a pass of the controller on a [StatusManager] that returns
    neither an error nor a requeue, no declared resource is in the cache of
    failures, whatever the cache held before and whatever the pipeline
    reported on the way. *)
Theorem successful_pass_leaves_no_declared_failure {types : Types} {env : Environment}
    `{Net} `{IPFamily} `{L2VNIMethods} `{ErrorText}
    (r : controller.PERouterReconciler) (w : World StatusManager.StatusManager)
    (underlays : list Underlay) (l3vnis : list L3VNI) (l2vnis : list L2VNI)
    (l3passthrough : list v1alpha1.L3Passthrough)
    (kind : ResourceKind) (resourceName : string) :
  controller.listUnderlays r = inl underlays ->
  controller.listL3VNIs r = inl l3vnis ->
  controller.listL2VNIs r = inl l2vnis ->
  controller.listL3Passthroughs r = inl l3passthrough ->
  controller.out_err (fst (controller.Reconcile r w)) = None ->
  controller.RequeueAfter (controller.out_Result (fst (controller.Reconcile r w))) = 0 ->
  stillDeclared underlays l3vnis l2vnis l3passthrough kind resourceName ->
  StatusManager.failedResourceCache (reporter (snd (controller.Reconcile r w)))
  !! StatusManager.cacheKey kind resourceName = None.
Proof.
  intros Eu E3 E2 Ep. unfold controller.Reconcile. rewrite Eu, E3, E2, Ep.
  destruct (controller.provider_NodeIndex (controller.provider r)) as [nodeIndex | ?];
    [| done].
  destruct (controller.New (controller.provider r)) as [router | ?]; [| done].
  destruct (controller.TargetNS router) as [targetNS | ?]; [| done].
  destruct (controller.router_CanReconcile router) as [[|] [err |]]; try done.
  unfold controller.afterPipeline.
  destruct (routerconfiguration.Reconcile _ _ _ _) as [[[] | e] w1]; cbn [fst snd].
  - intros _ _ Hdecl. simpl. by apply success_reports_clear.
  - destruct (nonRecoverableHostError (Some e)); [| done].
    by destruct (controller.HandleNonRecoverableError router).
Qed.

Lemma successful_pass_leaves_no_declared_failure_witness :
  StatusManager.failedResourceCache
    (reporter
       (snd (@controller.Reconcile fixtures.numbers (fixtures.agreeableHost true)
               fixtures.ipv4Net fixtures.oneGateway fixtures.vrfOrName _
               (@StatusManager.StatusManager_reporter fixtures.plainErrors)
               controller.StatusManager_maybeReader
               (nodeReconciler (true, None)
                  [fixtures.underlay "underlay" 64512 []]
                  [fixtures.l3vni "red" "red" 100 None] [] [])
               {| reporter := twoFailures; effects := [] |})))
  !! StatusManager.cacheKey L3VNIKind "red" = None.
Proof.
  apply (@successful_pass_leaves_no_declared_failure fixtures.numbers
           (fixtures.agreeableHost true) fixtures.ipv4Net fixtures.oneGateway
           fixtures.vrfOrName fixtures.plainErrors
           (nodeReconciler (true, None)
              [fixtures.underlay "underlay" 64512 []]
              [fixtures.l3vni "red" "red" 100 None] [] [])
           {| reporter := twoFailures; effects := [] |}
           [fixtures.underlay "underlay" 64512 []]
           [fixtures.l3vni "red" "red" 100 None] [] [] L3VNIKind "red");
    try (vm_compute; reflexivity).
  right. left. split; [done |]. simpl. by left.
Defined.

(** ** The Status Reconciler: what it builds and what it sends *)

Section StatusLaws.
Import StatusManager statuscontroller.

Lemma buildConditions_normalized (c1 c2 : Clock) (failedCount : nat) :
  map zeroTransitionTime (@buildConditions c1 failedCount)
  = map zeroTransitionTime (@buildConditions c2 failedCount).
Proof. unfold buildConditions. by destruct (0 <? failedCount)%nat. Qed.

Lemma failedResources_inj (l l' : list FailedResourceInfo) :
  map (fun failed =>
         {| fr_Kind := info_Kind failed; fr_Name := info_Name failed;
            fr_Message := info_ErrorMessage failed |}) l
  = map (fun failed =>
           {| fr_Kind := info_Kind failed; fr_Name := info_Name failed;
              fr_Message := info_ErrorMessage failed |}) l' ->
  l = l'.
Proof.
  revert l'. induction l as [| x l IH]; intros [| y l']; simpl; try done.
  intros [= Hk Hn Hm Hrest]. f_equal; [| by apply IH].
  destruct x, y. simpl in *. by subst.
Qed.

(** X20: [statusEqual] holds of two statuses built by [buildStatus] exactly
    when the two summaries list the same failed resources in the same
    order: neither the readings of the clock nor the [LastUpdateTime] of the
    summaries count, and the order of the list does. *)
Theorem built_statuses_compare_by_failed_resources {S1 S2} `{StatusReader S1}
    `{StatusReader S2} (c1 c2 : Clock) (s1 : S1) (s2 : S2) :
  statusEqual (@buildStatus c1 _ _ s1) (@buildStatus c2 _ _ s2) = true
  <-> FailedResources (reader_GetStatusSummary s1)
      = FailedResources (reader_GetStatusSummary s2).
Proof.
  unfold statusEqual. rewrite DeepEqual_eq. unfold normalize, buildStatus. simpl. split.
  - intros [= Hfailed _]. by apply failedResources_inj.
  - intros ->. f_equal. f_equal. apply buildConditions_normalized.
Qed.

(** X21: a status whose list of failed resources, or whose list of
    conditions, is nil is never equal to a status built by [buildStatus],
    which has empty lists in their place: the pass patches the object that
    carries it, whatever the summary says. *)
Theorem status_with_a_nil_list_is_always_patched `{Client} `{Clock} {S} `{StatusReader S}
    (statusReader : S) (obj : RouterNodeConfigurationStatus) (sent : list Request) :
  status_FailedResources (obj_Status obj) = None
  \/ status_Conditions (obj_Status obj) = None ->
  patchIfChanged statusReader obj sent
  = (patchAnswer sent (withStatus obj (buildStatus statusReader)),
     sent ++ [StatusPatch (withStatus obj (buildStatus statusReader))]).
Proof.
  intros Hnil. unfold patchIfChanged.
  destruct (statusEqual (obj_Status obj) (buildStatus statusReader)) eqn:Heq; [| done].
  exfalso. unfold statusEqual in Heq. apply DeepEqual_eq in Heq.
  unfold normalize, buildStatus in Heq. simpl in Heq.
  injection Heq as Hfailed Hconditions.
  destruct Hnil as [Hnil | Hnil]; rewrite Hnil in *; discriminate.
Qed.

Lemma status_with_a_nil_list_is_always_patched_witness :
  let created :=
    {| obj_Name := "worker"; obj_Namespace := "openperouter-system";
       obj_OwnerReferences := []; obj_Status := emptyStatus |} in
  snd (@patchIfChanged fixtures.settledCluster fixtures.someClock _ StatusManager_reader
         fixtures.idleManager created [])
  = [StatusPatch
       (withStatus created
          (@buildStatus fixtures.someClock _ StatusManager_reader fixtures.idleManager))].
Proof.
  intros created.
  rewrite (@status_with_a_nil_list_is_always_patched fixtures.settledCluster
             fixtures.someClock _ StatusManager_reader fixtures.idleManager created []).
  - reflexivity.
  - left. reflexivity.
Defined.

(** X22: the status [buildStatus] builds has a list of failed resources as
    long as that of the summary, never nil, and two conditions, [Ready] then
    [Degraded]: [Ready] is [True] exactly when the summary lists no failed
    resource, [Degraded] is [True] exactly when it lists one, and then the
    message of [Degraded] gives their number. *)
Theorem conditions_follow_the_failures `{Clock} {S} `{StatusReader S} (statusReader : S) :
  let failed := FailedResources (reader_GetStatusSummary statusReader) in
  exists failedResources ready degraded,
    status_FailedResources (buildStatus statusReader) = Some failedResources
    /\ length failedResources = length failed
    /\ status_Conditions (buildStatus statusReader) = Some [ready; degraded]
    /\ Type_ ready = "Ready" /\ Type_ degraded = "Degraded"
    /\ (Status ready = "True" <-> failed = [])
    /\ (Status degraded = "True" <-> failed <> [])
    /\ (failed <> [] ->
        Status ready = "False"
        /\ Message degraded = pretty (length failed) +:+ " resource(s) failed").
Proof.
  intros failed. subst failed.
  unfold buildStatus, buildConditions, buildFailureMessageFromCount.
  destruct (FailedResources (reader_GetStatusSummary statusReader)) as [| f rest]; simpl;
    do 3 eexists;
    (split; [reflexivity |]); (split; [simpl; rewrite ?length_map; reflexivity |]);
    (split; [reflexivity |]); simpl.
  - split; [done |]. split; [done |]. split; [done |].
    split; [split; [discriminate | by intros Hne] |]. by intros Hne.
  - split; [done |]. split; [done |]. split; [split; discriminate |].
    split; [done |]. intros _. split; [done |]. by rewrite length_map.
Qed.

(** The requests of a pass after the first read, when the object was
    found: no creation. *)
Lemma patchIfChanged_sends_no_Create `{Client} `{Clock} {S} `{StatusReader S}
    (statusReader : S) obj sent o :
  Create o ∈ snd (patchIfChanged statusReader obj sent) -> Create o ∈ sent.
Proof.
  unfold patchIfChanged. destruct (negb _); simpl; [| done].
  rewrite elem_of_app, list_elem_of_singleton. by intros [? | ?].
Qed.

(** X23: a pass of the Status Reconciler creates a status object only when
    its first read answered that there is none, and the object it creates
    has the name of the node, the namespace of the reconciler, an empty
    status, and the node, as the cluster describes it, for only owner. *)
Theorem status_object_created_only_when_missing `{Client} `{Clock} {S} `{StatusReader S}
    (r : RouterNodeConfigurationStatusReconciler) (statusReader : S) (sent : list Request)
    (o : RouterNodeConfigurationStatus) :
  Create o ∈ snd (statuscontroller.Reconcile r statusReader sent) ->
  Create o ∉ sent ->
  (exists err, getStatus sent (MyNode r) (MyNamespace r) = NotFound err)
  /\ exists node,
       getNode (sent ++ [GetStatus (MyNode r) (MyNamespace r)]) (MyNode r) = inl node
       /\ o = {| obj_Name := MyNode r; obj_Namespace := MyNamespace r;
                 obj_OwnerReferences :=
                   [ {| owner_APIVersion := "v1"; owner_Kind := "Node";
                        owner_Name := node_Name node; owner_UID := node_UID node |} ];
                 obj_Status := emptyStatus |}.
Proof.
  unfold statuscontroller.Reconcile, createRouterNodeStatus. intros Hin Hnot.
  destruct (getStatus sent (MyNode r) (MyNamespace r)) as [obj | err | err].
  - apply patchIfChanged_sends_no_Create in Hin.
    apply elem_of_app in Hin as [Hin | Hin]; [done |].
    by apply list_elem_of_singleton in Hin.
  - split; [by exists err |].
    destruct (getNode (sent ++ [GetStatus (MyNode r) (MyNamespace r)]) (MyNode r))
      as [node | nodeErr].
    + exists node. split; [done |].
      assert (Hsent2 : forall rest,
                Create o ∈ ((sent ++ [GetStatus (MyNode r) (MyNamespace r)])
                              ++ [GetNode (MyNode r)])
                             ++ [Create rest] ->
                o = rest).
      { intros rest Hc. rewrite !elem_of_app, !list_elem_of_singleton in Hc.
        destruct Hc as [[[? | ?] | ?] | Hc]; try done. by injection Hc. }
      destruct (createAnswer _ _) as [createErr |]; [by apply Hsent2 in Hin |].
      destruct (getStatus _ _ _) as [obj | err' | err'].
      * apply patchIfChanged_sends_no_Create in Hin.
        apply elem_of_app in Hin as [Hin | Hin]; [by apply Hsent2 in Hin |].
        by apply list_elem_of_singleton in Hin.
      * apply elem_of_app in Hin as [Hin | Hin]; [by apply Hsent2 in Hin |].
        by apply list_elem_of_singleton in Hin.
      * apply elem_of_app in Hin as [Hin | Hin]; [by apply Hsent2 in Hin |].
        by apply list_elem_of_singleton in Hin.
    + simpl in Hin. rewrite !elem_of_app, !list_elem_of_singleton in Hin.
      by destruct Hin as [[? | ?] | ?].
  - simpl in Hin. rewrite elem_of_app, list_elem_of_singleton in Hin.
    by destruct Hin as [? | ?].
Qed.

Lemma status_object_created_only_when_missing_witness :
  (exists err, @getStatus freshCluster [] "worker" "openperouter-system" = NotFound err)
  /\ exists node,
       @getNode freshCluster ([] ++ [GetStatus "worker" "openperouter-system"]) "worker"
       = inl node
       /\ {| obj_Name := "worker"; obj_Namespace := "openperouter-system";
             obj_OwnerReferences :=
               [ {| owner_APIVersion := "v1"; owner_Kind := "Node";
                    owner_Name := "worker"; owner_UID := "uid-1" |} ];
             obj_Status := emptyStatus |}
          = {| obj_Name := "worker"; obj_Namespace := "openperouter-system";
               obj_OwnerReferences :=
                 [ {| owner_APIVersion := "v1"; owner_Kind := "Node";
                      owner_Name := node_Name node; owner_UID := node_UID node |} ];
               obj_Status := emptyStatus |}.
Proof.
  apply (@status_object_created_only_when_missing freshCluster fixtures.someClock _
           StatusManager_reader fixtures.workerReconciler fixtures.idleManager []
           {| obj_Name := "worker"; obj_Namespace := "openperouter-system";
              obj_OwnerReferences :=
                [ {| owner_APIVersion := "v1"; owner_Kind := "Node";
                     owner_Name := "worker"; owner_UID := "uid-1" |} ];
              obj_Status := emptyStatus |}).
  - vm_compute. right. right. left.
  - apply not_elem_of_nil.
Defined.

End StatusLaws.

(** ** Admission: what is validated, and what an admitted object is sure of *)

Section AdmissionLaws.
Import webhooks.

Lemma replaceExisting_spec (l3vni : L3VNI) (existing : list L3VNI) :
  forall replaced found,
    replaceExisting l3vni existing = (replaced, found) ->
    length replaced = length existing
    /\ (found = true <-> exists x, x ∈ existing /\ sameObject x l3vni)
    /\ (forall x, x ∈ replaced
                  <-> (x = l3vni /\ found = true)
                      \/ (x ∈ existing /\ ~ sameObject x l3vni)).
Proof.
  induction existing as [| e rest IH]; intros replaced found Hrun; simpl in Hrun.
  - injection Hrun as <- <-. split; [done |]. split.
    + split; [done |]. intros (x & Hin & _). by apply elem_of_nil in Hin.
    + intros x. split; [intros Hin; by apply elem_of_nil in Hin |].
      intros [[_ ?] | [Hin _]]; [done | by apply elem_of_nil in Hin].
  - destruct (replaceExisting l3vni rest) as [tail f] eqn:E.
    destruct (IH tail f eq_refl) as (Hlen & Hfound & Hmem).
    assert (Hb : String.eqb (L3VNI_Name e) (L3VNI_Name l3vni)
                 && String.eqb (L3VNI_Namespace e) (L3VNI_Namespace l3vni) = true
                 <-> sameObject e l3vni).
    { unfold sameObject. by rewrite andb_true_iff, !String.eqb_eq. }
    destruct (String.eqb (L3VNI_Name e) (L3VNI_Name l3vni)
              && String.eqb (L3VNI_Namespace e) (L3VNI_Namespace l3vni)) eqn:Eb;
      injection Hrun as <- <-.
    + assert (Hs : sameObject e l3vni) by (by apply Hb).
      split; [simpl; lia |]. split.
      * split; [| done]. intros _. exists e. split; [by left | done].
      * intros x. rewrite !elem_of_cons, Hmem. split.
        -- intros [-> | [[-> _] | [Hin Hns]]]; [by left | by left | right].
           split; [by right | done].
        -- intros [[-> _] | [[-> | Hin] Hns]]; [by left | done |].
           right. by right.
    + assert (Hns : ~ sameObject e l3vni).
      { intros Hs. apply Hb in Hs. discriminate. }
      split; [simpl; lia |]. split.
      * rewrite Hfound. split.
        -- intros (x & Hin & Hs). exists x. split; [by right | done].
        -- intros (x & Hin & Hs). apply elem_of_cons in Hin as [-> | Hin]; [done |].
           by exists x.
      * intros x. rewrite !elem_of_cons, Hmem. split.
        -- intros [-> | [[-> Hf] | [Hin Hx]]]; [right; split; [by left | done] | by left |].
           right. split; [by right | done].
        -- intros [[-> Hf] | [[-> | Hin] Hx]]; [right; by left | by left |].
           right. right. done.
Qed.

(** The list [validateL3VNI] validates: the object under admission is in
    it, and so is every existing object that is not a version of it. *)
Lemma toValidate_members (l3vni : L3VNI) (existing : list L3VNI) :
  let toValidate :=
    if snd (replaceExisting l3vni existing) then fst (replaceExisting l3vni existing)
    else fst (replaceExisting l3vni existing) ++ [l3vni] in
  l3vni ∈ toValidate
  /\ forall x, x ∈ existing -> ~ sameObject x l3vni -> x ∈ toValidate.
Proof.
  destruct (replaceExisting l3vni existing) as [replaced found] eqn:E.
  destruct (replaceExisting_spec l3vni existing replaced found E) as (_ & _ & Hmem).
  simpl. destruct found.
  - split; [apply Hmem; by left |]. intros x Hin Hns. apply Hmem. by right.
  - split; [apply elem_of_app; right; by apply list_elem_of_singleton |].
    intros x Hin Hns. apply elem_of_app. left. apply Hmem. by right.
Qed.

End AdmissionLaws.

Section AdmissionSound.
Import webhooks.
Context `{Existing} `{Net}.

Lemma no_overlap_with_the_head (s : hostSessionInfo) (l : list hostSessionInfo) :
  ~ hasOverlap (s :: l) -> forall t, t ∈ l -> ~ sameFamilyOverlap s t.
Proof.
  intros Hno t Hin Hov. apply list_elem_of_lookup in Hin as [j Hj].
  apply Hno. exists 0%nat, (S j), s, t.
  split; [lia |]. split; [done |]. split; [done | done].
Qed.

Lemma validateL3VNI_accepted (l3vni : L3VNI) (existing : list L3VNI)
    (l3passthroughs : list v1alpha1.L3Passthrough) :
  getL3VNIs = inl existing ->
  getL3Passthroughs = inl l3passthroughs ->
  validateL3VNI l3vni = None ->
  exists others,
    (forall x, x ∈ existing -> ~ sameObject x l3vni -> x ∈ others)
    /\ Forall sessionSound (collectHostSessions (l3vni :: others) l3passthroughs)
    /\ ~ hasOverlap (collectHostSessions (l3vni :: others) l3passthroughs).
Proof.
  intros Hex Hpt. unfold validateL3VNI. rewrite Hex, Hpt.
  pose proof (toValidate_members l3vni existing) as Hmem.
  destruct (replaceExisting l3vni existing) as [replaced found]. simpl in Hmem.
  set (toValidate := if found then replaced else replaced ++ [l3vni]) in *.
  destruct Hmem as [Hself Hothers].
  destruct (ValidateL3VNIs toValidate); [done |].
  destruct (ValidateHostSessions _ _ _) as [[err |] sr] eqn:Ehs; [done |].
  intros _.
  apply (f_equal fst) in Ehs. simpl in Ehs.
  apply ValidateHostSessions_accepts in Ehs as [Hsound Hno].
  apply elem_of_Permutation in Hself as [others Hperm].
  assert (Hp : collectHostSessions toValidate l3passthroughs
               ≡ₚ collectHostSessions (l3vni :: others) l3passthroughs)
    by (by apply collectHostSessions_Permutation).
  exists others. split; [| split].
  - intros x Hin Hns. specialize (Hothers x Hin Hns). rewrite Hperm in Hothers.
    apply elem_of_cons in Hothers as [-> | ?]; [| done].
    exfalso. by apply Hns.
  - by rewrite <- Hp.
  - intros Hov. apply Hno. eapply hasOverlap_Permutation; [| exact Hov]. by symmetry.
Qed.

End AdmissionSound.

(** X24: the loop of [validateL3VNI] over the existing L3VNIs puts the
    object under admission in the place of each of its stored versions and
    keeps the other objects: the list has the length of the existing one;
    [found] tells whether a stored version was there; and an object is in
    the list exactly when it is the object under admission, a version of
    it having been found, or an existing object that is not a version of
    it. *)
Theorem incoming_object_replaces_its_stored_versions (l3vni : L3VNI) (existing : list L3VNI) :
  let replaced := fst (webhooks.replaceExisting l3vni existing) in
  let found := snd (webhooks.replaceExisting l3vni existing) in
  length replaced = length existing
  /\ (found = true <-> exists x, x ∈ existing /\ sameObject x l3vni)
  /\ (forall x, x ∈ replaced
                <-> (x = l3vni /\ found = true)
                    \/ (x ∈ existing /\ ~ sameObject x l3vni)).
Proof.
  intros replaced found. apply replaceExisting_spec.
  subst replaced found. by destruct (webhooks.replaceExisting l3vni existing).
Qed.

(** X25: an L3VNI with a host session that the webhook admits, at its
    creation or at an update, has a sound session, distinct ASNs and CIDRs
    that parse, which overlaps neither the session of an existing
    L3Passthrough nor that of an existing L3VNI other than its own stored
    version. *)
Theorem admitted_L3VNI_overlaps_no_other_session `{webhooks.Existing} `{Net}
    (l3vni : L3VNI) (hs : HostSession) (existing : list L3VNI)
    (l3passthroughs : list v1alpha1.L3Passthrough) :
  webhooks.getL3VNIs = inl existing ->
  webhooks.getL3Passthroughs = inl l3passthroughs ->
  webhooks.validateL3VNICreate l3vni = None
  \/ (exists oldL3VNI, webhooks.validateL3VNIUpdate l3vni oldL3VNI = None) ->
  L3VNI_HostSession (L3VNI_Spec l3vni) = Some hs ->
  sessionSound (l3vniSession l3vni hs)
  /\ (forall p, p ∈ l3passthroughs ->
                ~ sameFamilyOverlap (l3vniSession l3vni hs) (passthroughSession p))
  /\ (forall x hs',
        x ∈ existing -> ~ sameObject x l3vni ->
        L3VNI_HostSession (L3VNI_Spec x) = Some hs' ->
        ~ sameFamilyOverlap (l3vniSession l3vni hs) (l3vniSession x hs')).
Proof.
  intros Hex Hpt Hadmitted Hhs.
  assert (Hvalid : webhooks.validateL3VNI l3vni = None).
  { destruct Hadmitted as [Hcreate | [oldL3VNI Hupdate]]; [done |].
    unfold webhooks.validateL3VNIUpdate in Hupdate. by destruct (negb _). }
  destruct (validateL3VNI_accepted l3vni existing l3passthroughs Hex Hpt Hvalid)
    as (others & Hothers & Hsound & Hno).
  assert (Hcollect : collectHostSessions (l3vni :: others) l3passthroughs
                     = l3vniSession l3vni hs :: collectHostSessions others l3passthroughs).
  { unfold collectHostSessions. simpl. by rewrite Hhs. }
  rewrite Hcollect in Hsound, Hno. apply Forall_cons in Hsound as [Hself _].
  split; [done |]. split.
  - intros p Hin. apply (no_overlap_with_the_head _ _ Hno).
    unfold collectHostSessions. apply elem_of_app. right.
    apply list_elem_of_fmap. by exists p.
  - intros x hs' Hin Hns Hhs'. apply (no_overlap_with_the_head _ _ Hno).
    unfold collectHostSessions. apply elem_of_app. left.
    apply list_elem_of_omap. exists x. split; [by apply Hothers |]. by rewrite Hhs'.
Qed.

Lemma admitted_L3VNI_overlaps_no_other_session_witness :
  @sessionSound fixtures.ipv4Net
    (l3vniSession (fixtures.redWith "192.169.11.0/24")
       (fixtures.session 64514 64515 "192.169.11.0/24" ""))
  /\ (forall p,
        p ∈ [ {| L3Passthrough_Name := "passthrough";
                 L3Passthrough_Spec :=
                   {| L3Passthrough_HostSession :=
                        fixtures.session 64514 64516 "192.168.30.0/24" "" |} |} ] ->
        ~ @sameFamilyOverlap fixtures.ipv4Net
            (l3vniSession (fixtures.redWith "192.169.11.0/24")
               (fixtures.session 64514 64515 "192.169.11.0/24" ""))
            (passthroughSession p))
  /\ (forall x hs',
        x ∈ [fixtures.l3vni "blue" "blue" 200
               (Some (fixtures.session 64514 64515 "192.168.20.0/24" ""))] ->
        ~ sameObject x (fixtures.redWith "192.169.11.0/24") ->
        L3VNI_HostSession (L3VNI_Spec x) = Some hs' ->
        ~ @sameFamilyOverlap fixtures.ipv4Net
            (l3vniSession (fixtures.redWith "192.169.11.0/24")
               (fixtures.session 64514 64515 "192.169.11.0/24" ""))
            (l3vniSession x hs')).
Proof.
  apply (@admitted_L3VNI_overlaps_no_other_session busyCluster fixtures.ipv4Net
           (fixtures.redWith "192.169.11.0/24")
           (fixtures.session 64514 64515 "192.169.11.0/24" "")).
  - reflexivity.
  - reflexivity.
  - left. vm_compute. reflexivity.
  - reflexivity.
Defined.

(** X26: the webhook answers with an error only when an object of the
    request cannot be decoded, and then with the status Bad Request and the
    error of the decoder; and it never denies a deletion, nor an operation
    that is neither a creation nor an update. *)
Theorem webhook_errors_only_on_undecodable_objects `{webhooks.Decoder} `{webhooks.Existing}
    `{Net} `{ErrorText} (req : webhooks.Request) :
  (forall code err,
      webhooks.Handle req = webhooks.Errored code err ->
      code = webhooks.StatusBadRequest
      /\ (webhooks.Decode req = inr err
          \/ webhooks.DecodeRaw (webhooks.req_OldObject req) = inr err))
  /\ (forall message,
        webhooks.Handle req = webhooks.Denied message ->
        webhooks.req_Operation req = webhooks.Create
        \/ webhooks.req_Operation req = webhooks.Update).
Proof.
  unfold webhooks.Handle, webhooks.respond. split.
  - intros code err.
    destruct (webhooks.req_Operation req);
      try (destruct (webhooks.DecodeRaw (webhooks.req_OldObject req)) eqn:Eraw);
      destruct (webhooks.Decode req) eqn:Edec;
      try (destruct (webhooks.req_OldObject req) eqn:Eold);
      try (destruct (webhooks.DecodeRaw (Some _)) eqn:Eraw');
      repeat match goal with
             | |- context [match ?v with Some _ => _ | None => _ end] => destruct v
             end;
      intros [= <- <-] || intros [=]; split; try done; by (left + right).
  - intros message.
    destruct (webhooks.req_Operation req); [by left | by right | |].
    + destruct (webhooks.DecodeRaw _); [| done]. unfold webhooks.validateL3VNIDelete. done.
    + destruct (webhooks.Decode req); [| done].
      destruct (webhooks.req_OldObject req); [| done].
      by destruct (webhooks.DecodeRaw _).
Qed.

(** ** The router pod *)

Section RouterPodLaws.
Import k8s.

Lemma firstConditionStatus_find (conditions : list PodCondition) (condition : string) :
  firstConditionStatus conditions condition
  = match find (fun c => String.eqb (cond_Type c) condition) conditions with
    | Some c => cond_Status c
    | None => ConditionUnknown
    end.
Proof.
  induction conditions as [| c rest IH]; simpl; [done |].
  by destruct (String.eqb (cond_Type c) condition).
Qed.

End RouterPodLaws.

(** X27: [PodIsReady] holds exactly of a pod that is not nil and whose first
    condition of type [Ready] and first condition of type [ContainersReady]
    both have the status [True]; later conditions of these types are not
    looked at. *)
Theorem PodIsReady_reads_the_first_conditions (p : option k8s.Pod) :
  k8s.PodIsReady p = true
  <-> exists pod ready containersReady,
        p = Some pod
        /\ find (fun c => String.eqb (k8s.cond_Type c) k8s.PodReady) (k8s.pod_Conditions pod)
           = Some ready
        /\ k8s.cond_Status ready = k8s.ConditionTrue
        /\ find (fun c => String.eqb (k8s.cond_Type c) k8s.ContainersReady)
             (k8s.pod_Conditions pod)
           = Some containersReady
        /\ k8s.cond_Status containersReady = k8s.ConditionTrue.
Proof.
  unfold k8s.PodIsReady, k8s.podConditionStatus.
  rewrite andb_true_iff, !String.eqb_eq. destruct p as [pod |].
  - rewrite !firstConditionStatus_find. split.
    + intros [Hready Hcontainers].
      destruct (find _ _) as [ready |] eqn:E1; [| discriminate].
      destruct (find (fun c => String.eqb (k8s.cond_Type c) k8s.ContainersReady) _)
        as [containersReady |] eqn:E2; [| discriminate].
      by exists pod, ready, containersReady.
    + intros (pod' & ready & containersReady & [= <-] & E1 & Hready & E2 & Hcontainers).
      by rewrite E1, E2.
  - split; [by intros [? _] |]. by intros (pod & ? & ? & ? & _).
Qed.

(** X28: a router pod made by [New] holds the one pod the listing of the
    node has, and [CanReconcile] on it returns, without an error, whether
    that pod is ready; [New] fails when the listing fails, is empty or has
    more than one pod. *)
Theorem router_pod_of_New_can_be_asked `{ErrorText} (provider : k8s.RouterPodProvider)
    (r : k8s.RouterPod) :
  k8s.New provider = inl r ->
  exists p,
    k8s.listed provider = inl [p]
    /\ k8s.pod r = Some p
    /\ k8s.CanReconcile r = Some (k8s.PodIsReady (Some p), None).
Proof.
  unfold k8s.New, k8s.routerPodForNode.
  destruct (k8s.listed provider) as [[| p [| q rest]] | err]; simpl; try done.
  intros [= <-]. exists p. split; [done |]. split; [done |].
  unfold k8s.CanReconcile. simpl. by destruct (k8s.PodIsReady (Some p)).
Qed.

Lemma router_pod_of_New_can_be_asked_witness :
  exists p,
    k8s.listed {| k8s.Node := "worker"; k8s.listed := inl [podWith "True" "False"] |} = inl [p]
    /\ k8s.pod {| k8s.pod := Some (podWith "True" "False") |} = Some p
    /\ k8s.CanReconcile {| k8s.pod := Some (podWith "True" "False") |}
       = Some (k8s.PodIsReady (Some p), None).
Proof.
  apply (@router_pod_of_New_can_be_asked fixtures.plainErrors
           {| k8s.Node := "worker"; k8s.listed := inl [podWith "True" "False"] |}
           {| k8s.pod := Some (podWith "True" "False") |}).
  reflexivity.
Defined.

(** ** The reports of a pass *)

Section Reports.
Context {types : Types} {env : Environment} {R : Type} {rep : StatusReporter R}.

Lemma replay_app (calls calls' : list ReportCall) (sr : R) :
  replay (calls ++ calls') sr = replay calls' (replay calls sr).
Proof. unfold replay. apply fold_left_app. Qed.

Lemma reportsOnly_ret {A} P (a : A) : reportsOnly P (ret (R := R) a).
Proof. intros w r w' [= <- <-]. by exists []. Qed.

Lemma reportsOnly_fail {A} P e : reportsOnly P (fail (R := R) (A := A) e).
Proof. intros w r w' [= <- <-]. by exists []. Qed.

Lemma reportsOnly_bind {A B} P (m : M R A) (k : A -> M R B) :
  reportsOnly P m -> (forall a, reportsOnly P (k a)) -> reportsOnly P (bind m k).
Proof.
  intros Hm Hk w r w'. unfold bind. destruct (m w) as [[a | e] w1] eqn:E.
  - intros Hrun. destruct (Hm _ _ _ E) as (calls1 & E1 & Hp1).
    destruct (Hk a _ _ _ Hrun) as (calls2 & E2 & Hp2).
    exists (calls1 ++ calls2). rewrite replay_app, <- E1, E2. split; [done |].
    by apply Forall_app.
  - intros [= <- <-]. by apply (Hm _ _ _ E).
Qed.

Lemma reportsOnly_orReturn {A} P (m : M R A) wrap :
  reportsOnly P m -> reportsOnly P (orReturn m wrap).
Proof.
  intros Hm w r w'. unfold orReturn. destruct (m w) as [[a | e] w1] eqn:E;
    intros [= <- <-]; by apply (Hm _ _ _ E).
Qed.

Lemma reportsOnly_forEach {A} P (l : list A) (body : A -> M R unit) :
  (forall x, x ∈ l -> reportsOnly P (body x)) -> reportsOnly P (forEach l body).
Proof.
  induction l as [| x rest IH]; intros Hbody; simpl; [apply reportsOnly_ret |].
  apply reportsOnly_bind; [apply Hbody; by left |].
  intros _. apply IH. intros y Hy. apply Hbody. by right.
Qed.

Lemma reportsOnly_success (P : ReportCall -> Prop) kind resourceName :
  P (CallSuccess kind resourceName) ->
  reportsOnly P (report (ReportResourceSuccess kind resourceName)).
Proof.
  intros HP w r w' [= <- <-]. exists [CallSuccess kind resourceName].
  split; [done | by constructor].
Qed.

Lemma reportsOnly_failure (P : ReportCall -> Prop) kind resourceName err :
  P (CallFailure kind resourceName err) ->
  reportsOnly P (report (ReportResourceFailure kind resourceName err)).
Proof.
  intros HP w r w' [= <- <-]. exists [CallFailure kind resourceName err].
  split; [done | by constructor].
Qed.

Lemma reportsOnly_hostCall P c : reportsOnly P (hostCall (R := R) c).
Proof. intros w r w' [= <- <-]. by exists []. Qed.

Lemma reportsOnly_HasUnderlayInterface P ns :
  reportsOnly P (HasUnderlayInterface (R := R) ns).
Proof.
  intros w r w'. unfold HasUnderlayInterface.
  destruct (hasUnderlayInterface (effects w) ns) as [has [e |]]; intros [= <- <-];
    by exists [].
Qed.

Lemma reportsOnly_updater P configFile config :
  reportsOnly P (updater (R := R) configFile config).
Proof. intros w r w' [= <- <-]. by exists []. Qed.

(** A validation that reports at most once, a failure of one of
    [resources]. *)
Lemma reportsOnly_validate (P : ReportCall -> Prop)
    (resources : list (ResourceKind * string)) (f : R -> option error * R) :
  (forall sr, reportsOnce resources sr (f sr)) ->
  (forall kind resourceName err,
      (kind, resourceName) ∈ resources -> P (CallFailure kind resourceName err)) ->
  reportsOnly P (validate f).
Proof.
  intros Honce HP w r w'. unfold validate. specialize (Honce (reporter w)).
  destruct (f (reporter w)) as [[err |] sr']; simpl in Honce; intros [= <- <-]; simpl.
  - destruct Honce as (kind & resourceName & Hin & ->).
    exists [CallFailure kind resourceName err]. split; [done |]. constructor; [| done].
    by apply HP.
  - subst sr'. by exists [].
Qed.

Lemma ValidateUnderlays_reportsOnly `{Net} (P : ReportCall -> Prop)
    (underlays : list Underlay) :
  (forall resourceName err,
      resourceName ∈ map Underlay_Name underlays ->
      P (CallFailure UnderlayKind resourceName err)) ->
  reportsOnly P (validate (ValidateUnderlays underlays)).
Proof.
  intros HP. unfold ValidateUnderlays. destruct (1 <? length underlays)%nat.
  - intros w r w' [= <- <-]. by exists [].
  - apply (reportsOnly_validate P (underlayResources underlays)).
    + intros sr. apply validateUnderlays_from_reportsOnce.
    + intros kind resourceName err Hin.
      apply list_elem_of_fmap in Hin as (u & [= -> ->] & Hu).
      apply HP. apply list_elem_of_fmap. by exists u.
Qed.

End Reports.

Ltac reports_only :=
  repeat first
    [ apply reportsOnly_ret | apply reportsOnly_fail | apply reportsOnly_hostCall
    | apply reportsOnly_HasUnderlayInterface | apply reportsOnly_updater
    | apply reportsOnly_orReturn
    | apply reportsOnly_bind; [| intros ?]
    | match goal with
      | |- reportsOnly _ (match ?x with _ => _ end) => destruct x eqn:?
      end ].

Section PipelineReports.
Context {types : Types} {env : Environment} `{Net} `{IPFamily} `{L2VNIMethods}.
Context {R : Type} {rep : StatusReporter R}.

Lemma setupL3VNI_reportsOnly P hostConfig l3vni :
  (forall err, P (CallFailure L3VNIKind (L3VNI_Name l3vni) err)) ->
  P (CallSuccess L3VNIKind (L3VNI_Name l3vni)) ->
  reportsOnly P (setupL3VNI (R := R) hostConfig l3vni).
Proof.
  intros Hfail Hok. unfold setupL3VNI. reports_only.
  - by apply reportsOnly_failure.
  - by apply reportsOnly_success.
Qed.

Lemma setupL2VNI_reportsOnly P hostConfig l2vni :
  (forall err, P (CallFailure L2VNIKind (L2VNI_Name l2vni) err)) ->
  P (CallSuccess L2VNIKind (L2VNI_Name l2vni)) ->
  reportsOnly P (setupL2VNI (R := R) hostConfig l2vni).
Proof.
  intros Hfail Hok. unfold setupL2VNI. reports_only.
  - by apply reportsOnly_failure.
  - by apply reportsOnly_success.
Qed.

Lemma elem_of_map_of {A} (nameOf : A -> string) (l : list A) (x : A) :
  x ∈ l -> nameOf x ∈ map nameOf l.
Proof. intros Hin. apply list_elem_of_fmap. by exists x. Qed.

Lemma configureInterfaces_reportsOnly cfg :
  reportsOnly
    (concernsDeclared (Underlays (config cfg)) (L3VNIs (config cfg)) (L2VNIs (config cfg))
       (L3Passthrough (config cfg)))
    (configureInterfaces (R := R) cfg).
Proof.
  unfold configureInterfaces. apply reportsOnly_bind.
  { apply reportsOnly_orReturn, reportsOnly_HasUnderlayInterface. }
  intros has. destruct (has && _); [apply reportsOnly_fail |].
  destruct (_ =? _)%nat; [apply reportsOnly_ret |].
  unfold applyConfiguration.
  destruct (APItoHostConfig _ _ _) as [hostConfig | err]; [| apply reportsOnly_fail].
  apply reportsOnly_bind; [apply reportsOnly_hostCall |]. intros forwardingErr.
  apply reportsOnly_bind; [destruct forwardingErr; reports_only |]. intros _.
  apply reportsOnly_bind.
  { destruct (Underlays (config cfg)) as [| underlay0 rest] eqn:Eu; [apply reportsOnly_ret |].
    apply reportsOnly_bind; [apply reportsOnly_hostCall |]. intros [err |].
    - apply reportsOnly_bind; [| intros _; apply reportsOnly_fail].
      apply reportsOnly_failure. left. split; [done |]. simpl. by left.
    - apply reportsOnly_success. left. split; [done |]. simpl. by left. }
  intros _. apply reportsOnly_bind.
  { apply reportsOnly_forEach. intros l3vni Hin. apply setupL3VNI_reportsOnly.
    - intros err. right. left. split; [done |]. by apply elem_of_map_of.
    - right. left. split; [done |]. by apply elem_of_map_of. }
  intros _. apply reportsOnly_bind.
  { apply reportsOnly_forEach. intros l2vni Hin. apply setupL2VNI_reportsOnly.
    - intros err. right. right. left. split; [done |]. by apply elem_of_map_of.
    - right. right. left. split; [done |]. by apply elem_of_map_of. }
  intros _. apply reportsOnly_bind.
  { destruct (L3Passthrough (config cfg)) as [| passthrough0 rest] eqn:Ep;
      [apply reportsOnly_ret |].
    destruct (host_L3Passthrough hostConfig); [| apply reportsOnly_fail].
    apply reportsOnly_bind; [apply reportsOnly_hostCall |]. intros [err |].
    - apply reportsOnly_bind; [| intros _; apply reportsOnly_fail].
      apply reportsOnly_failure. right. right. right. split; [done |]. simpl. by left.
    - apply reportsOnly_success. right. right. right. split; [done |]. simpl. by left. }
  intros _. reports_only.
Qed.

Lemma Reconcile_reportsOnly (apiConfig : ApiConfigData)
    (frrConfigPath targetNamespace : string) :
  reportsOnly
    (concernsDeclared (Underlays apiConfig) (L3VNIs apiConfig) (L2VNIs apiConfig)
       (L3Passthrough apiConfig))
    (routerconfiguration.Reconcile (R := R) apiConfig frrConfigPath targetNamespace).
Proof.
  unfold routerconfiguration.Reconcile.
  apply reportsOnly_bind.
  { apply reportsOnly_orReturn, ValidateUnderlays_reportsOnly.
    intros resourceName err Hin. by left. }
  intros _. apply reportsOnly_bind.
  { apply reportsOnly_orReturn, (reportsOnly_validate _ (l3vniResources (L3VNIs apiConfig))).
    - intros sr. apply ValidateL3VNIs_reportsOnce.
    - intros kind resourceName err Hin.
      apply list_elem_of_fmap in Hin as (v & [= -> ->] & Hv).
      right. left. split; [done |]. by apply elem_of_map_of. }
  intros _. apply reportsOnly_bind.
  { apply reportsOnly_orReturn, (reportsOnly_validate _ (l2vniResources (L2VNIs apiConfig))).
    - intros sr. apply ValidateL2VNIs_reportsOnce.
    - intros kind resourceName err Hin.
      apply list_elem_of_fmap in Hin as (v & [= -> ->] & Hv).
      right. right. left. split; [done |]. by apply elem_of_map_of. }
  intros _. apply reportsOnly_bind.
  { apply reportsOnly_orReturn,
      (reportsOnly_validate _ (l3vniResources (L3VNIs apiConfig)
                               ++ passthroughResources (L3Passthrough apiConfig))).
    - intros sr. apply ValidateHostSessions_reportsOnce.
    - intros kind resourceName err Hin. apply elem_of_app in Hin as [Hin | Hin];
        apply list_elem_of_fmap in Hin as (v & [= -> ->] & Hv).
      + right. left. split; [done |]. by apply elem_of_map_of.
      + right. right. right. split; [done |]. by apply elem_of_map_of. }
  intros _. apply reportsOnly_bind.
  { apply reportsOnly_orReturn. unfold configureFRR. simpl.
    destruct (APItoFRR apiConfig); [| apply reportsOnly_fail]. reports_only. }
  intros _. apply reportsOnly_bind; [| intros _; apply reportsOnly_ret].
  apply reportsOnly_orReturn. apply (configureInterfaces_reportsOnly
    {| RouterPodUUID := ""; targetNamespace := targetNamespace; config := apiConfig |}).
Qed.

End PipelineReports.

(** X29: whatever a pass of the pipeline returns, it has changed the status
    reporter only through calls of its interface, each the success or the
    failure of a declared resource: it reports nothing about a resource
    that is not declared, and it never reports a removal. *)
Theorem pipeline_reports_only_on_declared_resources {types : Types} {env : Environment}
    `{Net} `{IPFamily} `{L2VNIMethods} {R} {rep : StatusReporter R}
    (apiConfig : ApiConfigData) (frrConfigPath targetNamespace : string) (w : World R) :
  exists calls,
    reporter (snd (routerconfiguration.Reconcile apiConfig frrConfigPath targetNamespace w))
    = replay calls (reporter w)
    /\ Forall (concernsDeclared (Underlays apiConfig) (L3VNIs apiConfig) (L2VNIs apiConfig)
                 (L3Passthrough apiConfig)) calls.
Proof.
  destruct (routerconfiguration.Reconcile apiConfig frrConfigPath targetNamespace w)
    as [r w'] eqn:Hrun.
  apply (Reconcile_reportsOnly apiConfig frrConfigPath targetNamespace w r w' Hrun).
Qed.

(** ** The cache of failures across a pass of the controller *)

Section DeclaredFailures.
Import StatusManager controller.
Context `{ErrorText}.

Lemma replay_cachesOnlyDeclared underlays l3vnis l2vnis l3passthrough
    (calls : list ReportCall) :
  Forall (concernsDeclared underlays l3vnis l2vnis l3passthrough) calls ->
  forall er : StatusManager,
    cachesOnlyDeclared underlays l3vnis l2vnis l3passthrough er ->
    cachesOnlyDeclared underlays l3vnis l2vnis l3passthrough (replay calls er).
Proof.
  induction 1 as [| c calls Hc _ IH]; intros er Hinv; [done |].
  rewrite replay_cons. apply IH. intros k e.
  destruct c as [kind resourceName | kind resourceName err | kind resourceName]; simpl in *.
  - rewrite ReportResourceSuccess_cache. intros Hk.
    apply lookup_delete_Some in Hk as [_ Hk]. by apply (Hinv k).
  - rewrite ReportResourceFailure_cache. intros Hk.
    apply lookup_insert_Some in Hk as [[_ <-] | [_ Hk]]; [done | by apply (Hinv k)].
  - done.
Qed.

Lemma cleanup_cachesOnlyDeclared underlays l3vnis l2vnis l3passthrough (er : StatusManager) :
  wellKeyed er ->
  cachesOnlyDeclared underlays l3vnis l2vnis l3passthrough
    (cleanupRemovedFailedResources underlays l3vnis l2vnis l3passthrough er).
Proof.
  intros Hwk k e Hk.
  assert (Hin : failedIn
                  (cleanupRemovedFailedResources underlays l3vnis l2vnis l3passthrough er)
                  (infoOf e)) by (apply failedIn_lookup; eauto).
  by apply (cleanupRemovedFailedResources_failedIn _ _ _ _ er Hwk) in Hin as [_ Hdecl].
Qed.

Lemma success_fold_sub {A} kind (nameOf : A -> string) (l : list A) :
  forall (er : StatusManager) k e,
    failedResourceCache
      (fold_left (fun sr x => ReportResourceSuccess kind (nameOf x) sr) l er) !! k = Some e ->
    failedResourceCache er !! k = Some e.
Proof.
  induction l as [| x rest IH]; intros er k e; simpl; [done |].
  intros Hk. apply IH in Hk. rewrite ReportResourceSuccess_cache in Hk.
  by apply lookup_delete_Some in Hk as [_ Hk].
Qed.

Lemma success_reports_sub underlays l3vnis l2vnis l3passthrough (er : StatusManager) k e :
  failedResourceCache
    (reportL3PassthroughConfigurationSuccess l3passthrough
       (reportL3VNIConfigurationSuccess l3vnis
          (reportL2VNIConfigurationSuccess l2vnis
             (reportUnderlayConfigurationSuccess underlays er)))) !! k = Some e ->
  failedResourceCache er !! k = Some e.
Proof.
  unfold reportL3PassthroughConfigurationSuccess, reportL3VNIConfigurationSuccess,
    reportL2VNIConfigurationSuccess, reportUnderlayConfigurationSuccess.
  intros Hk.
  apply (success_fold_sub L3PassthroughKind L3Passthrough_Name) in Hk.
  apply (success_fold_sub L3VNIKind L3VNI_Name) in Hk.
  apply (success_fold_sub L2VNIKind L2VNI_Name) in Hk.
  by apply (success_fold_sub UnderlayKind Underlay_Name) in Hk.
Qed.

End DeclaredFailures.

(** X30: a pass of the controller on a [StatusManager] that gets as far as
    the pipeline leaves in the cache of failures only declared resources,
    whatever the pipeline returns: the failures of the resources that are
    gone were dropped before the pipeline ran, and the pipeline and the
    closing reports of success concern declared resources only. *)
Theorem controller_pass_leaves_only_declared_failures {types : Types} {env : Environment}
    `{Net} `{IPFamily} `{L2VNIMethods} `{ErrorText}
    (r : controller.PERouterReconciler) (w : World StatusManager.StatusManager)
    (underlays : list Underlay) (l3vnis : list L3VNI) (l2vnis : list L2VNI)
    (l3passthrough : list v1alpha1.L3Passthrough) (nodeIndex : Z)
    (router : controller.Router) (targetNS : string)
    (info : StatusManager.FailedResourceInfo) :
  wellKeyed (reporter w) ->
  controller.listUnderlays r = inl underlays ->
  controller.listL3VNIs r = inl l3vnis ->
  controller.listL2VNIs r = inl l2vnis ->
  controller.listL3Passthroughs r = inl l3passthrough ->
  controller.provider_NodeIndex (controller.provider r) = inl nodeIndex ->
  controller.New (controller.provider r) = inl router ->
  controller.TargetNS router = inl targetNS ->
  controller.router_CanReconcile router = (true, None) ->
  failedIn (reporter (snd (controller.Reconcile r w))) info ->
  stillDeclared underlays l3vnis l2vnis l3passthrough
    (StatusManager.info_Kind info) (StatusManager.info_Name info).
Proof.
  intros Hwk Eu E3 E2 Ep Enode Enew Ens Ecan.
  unfold controller.Reconcile. rewrite Eu, E3, E2, Ep, Enode, Enew, Ens, Ecan.
  match goal with
  | |- context [routerconfiguration.Reconcile ?api ?path ?ns ?w1] =>
      destruct (routerconfiguration.Reconcile api path ns w1) as [res w2] eqn:Hrun;
      destruct (Reconcile_reportsOnly api path ns w1 res w2 Hrun) as (calls & Hcalls & Hall)
  end.
  simpl in Hcalls, Hall.
  assert (Hinv : cachesOnlyDeclared underlays l3vnis l2vnis l3passthrough (reporter w2)).
  { rewrite Hcalls. apply replay_cachesOnlyDeclared; [done |].
    by apply cleanup_cachesOnlyDeclared. }
  assert (Hend : forall k e,
            StatusManager.failedResourceCache
              (reporter (snd (controller.afterPipeline router underlays l3vnis l2vnis
                                l3passthrough (res, w2)))) !! k = Some e ->
            StatusManager.failedResourceCache (reporter w2) !! k = Some e).
  { intros k e. unfold controller.afterPipeline. cbn [fst snd].
    destruct res as [[] | err].
    - simpl. apply success_reports_sub.
    - destruct (nonRecoverableHostError (Some err)); [| done].
      by destruct (controller.HandleNonRecoverableError router). }
  intros Hin. apply failedIn_lookup in Hin as (k & e & Hk & ->).
  apply Hend in Hk. by apply (Hinv k e).
Qed.

Lemma controller_pass_leaves_only_declared_failures_witness :
  let after :=
    reporter
      (snd (@controller.Reconcile fixtures.numbers (fixtures.agreeableHost true)
              fixtures.ipv4Net fixtures.oneGateway fixtures.vrfOrName _
              (@StatusManager.StatusManager_reporter fixtures.plainErrors)
              controller.StatusManager_maybeReader
              (nodeReconciler (true, None)
                 [fixtures.underlay "underlay" 64512 []]
                 [fixtures.l3vni "red" "red" 100 None;
                  fixtures.l3vni "crimson" "red" 101 None] [] [])
              {| reporter := twoFailures; effects := [] |})) in
  let crimson :=
    {| StatusManager.info_Kind := L3VNIKind; StatusManager.info_Name := "crimson";
       StatusManager.info_ErrorMessage := "failed: duplicate vrf %s: %s - %s" |} in
  failedIn after crimson
  /\ stillDeclared [fixtures.underlay "underlay" 64512 []]
       [fixtures.l3vni "red" "red" 100 None; fixtures.l3vni "crimson" "red" 101 None] [] []
       (StatusManager.info_Kind crimson) (StatusManager.info_Name crimson).
Proof.
  intros after crimson.
  assert (Hin : failedIn after crimson).
  { apply failedIn_lookup.
    exists "L3VNI:crimson",
      {| StatusManager.ResourceKind := L3VNIKind; StatusManager.ResourceName := "crimson";
         StatusManager.ErrorMessage := "failed: duplicate vrf %s: %s - %s";
         StatusManager.Timestamp := 1000 |}.
    split; [vm_compute; reflexivity | reflexivity]. }
  split; [exact Hin |].
  apply (@controller_pass_leaves_only_declared_failures fixtures.numbers
           (fixtures.agreeableHost true) fixtures.ipv4Net fixtures.oneGateway
           fixtures.vrfOrName fixtures.plainErrors
           (nodeReconciler (true, None)
              [fixtures.underlay "underlay" 64512 []]
              [fixtures.l3vni "red" "red" 100 None;
               fixtures.l3vni "crimson" "red" 101 None] [] [])
           {| reporter := twoFailures; effects := [] |}
           [fixtures.underlay "underlay" 64512 []]
           [fixtures.l3vni "red" "red" 100 None; fixtures.l3vni "crimson" "red" 101 None]
           [] [] 0 (routerOf (true, None)) "ns" crimson);
    try reflexivity; [| exact Hin].
  apply (@replay_wellKeyed fixtures.plainErrors). intros k e Hk. simpl in Hk.
  by rewrite lookup_empty in Hk.
Defined.
